(** * vLLM delivery template: benchmark harness

    A shallow embedding of the benchmark code of the repository:

    - [benchmark/metrics/calculator.py]  (module [Calculator])
    - [benchmark/metrics/collector.py]   (module [Collector])
    - [benchmark/load_test.py]           (module [LoadTest])

    Python values are modelled as the code uses them: [float] is the
    IEEE-754 binary64 type of the kernel (Python's [float]), [int] is [Z],
    [str] is [string], [Optional[T]] is [option T], a raised exception is
    the [Raise] case of [result]. *)

From Stdlib Require Import ZArith QArith Floats String Ascii List Bool Lia Lqa.
From stdpp Require Import base option list gmap strings pretty.
From Equations Require Import Equations.

Set Warnings "-inexact-float,-register-all".

Local Open Scope string_scope.
Local Open Scope Z_scope.

(** ** Python prelude *)

Module Py.

(** An exception: its class name and [str(e)]. *)
Record exn := Exn { exn_class : string; exn_str : string }.

Inductive result (A : Type) :=
| Ok (a : A)
| Raise (e : exn).
Arguments Ok {A} a.
Arguments Raise {A} e.

#[global] Instance result_ret : MRet result := fun A a => Ok a.
#[global] Instance result_bind : MBind result := fun A B k r =>
  match r with
  | Ok a => k a
  | Raise e => Raise e
  end.

(** [int -> float] conversion (exact below 2^53). *)
Definition float_of_Z (z : Z) : float :=
  if z <? 0 then PrimFloat.opp (PrimFloat.of_uint63 (Uint63.of_Z (- z)))
  else PrimFloat.of_uint63 (Uint63.of_Z z).

Definition float_of_nat (n : nat) : float := float_of_Z (Z.of_nat n).

(** [math.floor] of a finite float, as an integer (0 for nan and infinities,
    which the callers below never pass). *)
Definition floor_Z (f : float) : Z :=
  match Prim2SF f with
  | S754_finite s m e =>
      let num := Z.pos m in
      if 0 <=? e then (if s then - (num * 2 ^ e) else num * 2 ^ e)
      else
        let d := 2 ^ (- e) in
        if s then - ((num + d - 1) / d) else num / d
  | _ => 0
  end.

Definition is_nan (f : float) : bool := negb (PrimFloat.eqb f f).

Definition is_Some_bool {A} (o : option A) : bool :=
  match o with
  | Some _ => true
  | None => false
  end.

(** Python's [not l] for a list. *)
Definition is_empty {A} (l : list A) : bool :=
  match l with
  | [] => true
  | _ :: _ => false
  end.

(** *** Strings *)

Lemma string_length_app (s t : string) :
  String.length (s +:+ t) = (String.length s + String.length t)%nat.
Proof. induction s as [|c s IH]; simpl; [reflexivity | now rewrite IH]. Qed.

Lemma string_app_assoc (s t u : string) : (s +:+ t) +:+ u = s +:+ (t +:+ u).
Proof.
  induction s as [|c s IH]; [reflexivity|].
  change (String c ((s +:+ t) +:+ u) = String c (s +:+ t +:+ u)).
  now rewrite IH.
Qed.

Lemma string_app_nil_r (s : string) : s +:+ "" = s.
Proof.
  induction s as [|c s IH]; [reflexivity|].
  change (String c (s +:+ "") = String c s). now rewrite IH.
Qed.

(** [s[:n]] and [s[n:]] for a natural number [n]. *)
Fixpoint str_take (n : nat) (s : string) : string :=
  match n, s with
  | S k, String c rest => String c (str_take k rest)
  | _, _ => EmptyString
  end.

Fixpoint str_drop (n : nat) (s : string) : string :=
  match n, s with
  | S k, String _ rest => str_drop k rest
  | _, _ => s
  end.

(** [s[:k]] for any integer [k]: a negative [k] counts from the end. *)
Definition slice_to (s : string) (k : Z) : string :=
  if k <? 0 then str_take (Z.to_nat (Z.of_nat (String.length s) + k)) s
  else str_take (Z.to_nat k) s.

(** [int(f)] for a float: truncation towards zero. *)
Definition int_of_float (f : float) : result Z :=
  match Prim2SF f with
  | S754_zero _ => Ok 0
  | S754_finite s m e =>
      let num := Z.pos m in
      let mag := if 0 <=? e then num * 2 ^ e else num / 2 ^ (- e) in
      Ok (if s then - mag else mag)
  | S754_infinity _ =>
      Raise (Exn "OverflowError" "cannot convert float infinity to integer")
  | S754_nan =>
      Raise (Exn "ValueError" "cannot convert float NaN to integer")
  end.

(** *** JSON values and the Python operations the code applies to them

    A value returned by [json.loads] or [response.json()].  [JObj] lists the
    items of a dict, whose keys are distinct strings. *)

Inductive json :=
| JNull
| JBool (b : bool)
| JInt (z : Z)
| JFloat (f : float)
| JStr (s : string)
| JArr (items : list json)
| JObj (fields : list (string * json)).

Definition type_name (v : json) : string :=
  match v with
  | JNull => "NoneType"
  | JBool _ => "bool"
  | JInt _ => "int"
  | JFloat _ => "float"
  | JStr _ => "str"
  | JArr _ => "list"
  | JObj _ => "dict"
  end.

(** Truth value of [v] in a condition. *)
Definition truthy (v : json) : bool :=
  match v with
  | JNull => false
  | JBool b => b
  | JInt z => negb (z =? 0)
  | JFloat f => negb (PrimFloat.eqb f 0%float)
  | JStr s => negb (String.eqb s "")
  | JArr items => negb (is_empty items)
  | JObj fields => negb (is_empty fields)
  end.

(** [v == s] for a string [s]. *)
Definition equals_str (v : json) (s : string) : bool :=
  match v with
  | JStr x => String.eqb x s
  | _ => false
  end.

Fixpoint assoc {A} (key : string) (fields : list (string * A)) : option A :=
  match fields with
  | [] => None
  | (k, v) :: rest => if String.eqb k key then Some v else assoc key rest
  end.

(** [v.get(key, default)]. *)
Definition dict_get (v : json) (key : string) (default : json) : result json :=
  match v with
  | JObj fields => Ok (from_option id default (assoc key fields))
  | _ => Raise (Exn "AttributeError"
                  ("'" +:+ type_name v +:+ "' object has no attribute 'get'"))
  end.

(** [v[key]] for a string key. *)
Definition subscript_key (v : json) (key : string) : result json :=
  match v with
  | JObj fields =>
      match assoc key fields with
      | Some x => Ok x
      | None => Raise (Exn "KeyError" ("'" +:+ key +:+ "'"))
      end
  | JArr _ =>
      Raise (Exn "TypeError" "list indices must be integers or slices, not str")
  | JStr _ =>
      Raise (Exn "TypeError" "string indices must be integers, not 'str'")
  | _ => Raise (Exn "TypeError"
                  ("'" +:+ type_name v +:+ "' object is not subscriptable"))
  end.

(** [v[i]] for a non-negative integer index. *)
Definition subscript (v : json) (i : nat) : result json :=
  match v with
  | JArr items =>
      match nth_error items i with
      | Some x => Ok x
      | None => Raise (Exn "IndexError" "list index out of range")
      end
  | JStr s =>
      match String.get i s with
      | Some c => Ok (JStr (String c EmptyString))
      | None => Raise (Exn "IndexError" "string index out of range")
      end
  | JObj _ => Raise (Exn "KeyError" (pretty i))
  | _ => Raise (Exn "TypeError"
                  ("'" +:+ type_name v +:+ "' object is not subscriptable"))
  end.

Fixpoint chars (s : string) : list json :=
  match s with
  | EmptyString => []
  | String c rest => JStr (String c EmptyString) :: chars rest
  end.

(** The items a [for] loop over [v] visits. *)
Definition iterate (v : json) : result (list json) :=
  match v with
  | JArr items => Ok items
  | JStr s => Ok (chars s)
  | JObj fields => Ok (map (fun kv => JStr (fst kv)) fields)
  | _ => Raise (Exn "TypeError"
                  ("'" +:+ type_name v +:+ "' object is not iterable"))
  end.

End Py.

Import Py.

(** ** benchmark/metrics/calculator.py *)

Module Calculator.

Local Open Scope float_scope.

(** *** NumPy, as the calculator uses it

    [numpy] is an external library.  The three functions called by the
    calculator are modelled on binary64 floats from NumPy's documented
    definitions; summation is left to right (NumPy's blocked pairwise order
    for eight or more elements can differ from it in the last bits only). *)

Definition np_sum (a : list float) : float :=
  match a with
  | [] => 0
  | x :: r => fold_left PrimFloat.add r x
  end.

(** [np.mean(a)]: sum over count. *)
Definition np_mean (a : list float) : float :=
  np_sum a / float_of_nat (length a).

(** [np.std(a, ddof)]: square root of the sum of squared deviations from
    the mean, divided by [max(n - ddof, 0)]. *)
Definition np_std (a : list float) (ddof : Z) : float :=
  let arrmean := np_sum a / float_of_nat (length a) in
  let x := map (fun v => v - arrmean) a in
  let ret := np_sum (map (fun v => v * v) x) in
  PrimFloat.sqrt (ret / float_of_Z (Z.max (Z.of_nat (length a) - ddof) 0)%Z).

Fixpoint insert_sorted (x : float) (l : list float) : list float :=
  match l with
  | [] => [x]
  | y :: r => if PrimFloat.leb x y then x :: l else y :: insert_sorted x r
  end.

Definition np_sort (a : list float) : list float :=
  foldr insert_sorted [] a.

(** Python indexing [arr[i]] of a non-empty array, [-1] being the last. *)
Definition take_index (arr : list float) (i : Z) : float :=
  let j := (if i <? 0 then Z.of_nat (length arr) + i else i)%Z in
  nth (Z.to_nat j) arr nan.

(** NumPy's [_lerp(a, b, t)]. *)
Definition lerp (a b t : float) : float :=
  let diff_b_a := b - a in
  if PrimFloat.leb 0.5 t then b - diff_b_a * (1 - t) else a + diff_b_a * t.

(** NumPy's [_get_indexes]: the positions of the two neighbours of a
    virtual index among [n] sorted samples. *)
Definition get_indexes (n : Z) (virtual_index : float) : Z * Z :=
  if PrimFloat.leb (float_of_Z (n - 1)%Z) virtual_index then (-1, -1)%Z
  else if PrimFloat.ltb virtual_index 0 then (0, 0)%Z
  else (floor_Z virtual_index, floor_Z virtual_index + 1)%Z.

(** [np.percentile(a, p)] with the default method ["linear"]: the virtual
    index is [(n - 1) * (p / 100)], the neighbours are its floor and the
    next sample of the sorted data, and the result interpolates linearly
    between them.  [ValueError] when [p] is outside [0, 100]; [nan] when a
    sample is nan or [a] is empty. *)
Definition np_percentile (a : list float) (p : Z) : result float :=
  let q := float_of_Z p / 100 in
  if negb (PrimFloat.leb 0 q && PrimFloat.leb q 1) then
    Raise (Exn "ValueError" "Percentiles must be in the range [0, 100]")
  else if existsb is_nan a || is_empty a then Ok nan
  else
    let arr := np_sort a in
    let n := Z.of_nat (length arr) in
    let virtual_index := float_of_Z (n - 1)%Z * q in
    let indexes := get_indexes n virtual_index in
    let gamma := virtual_index - float_of_Z (fst indexes) in
    Ok (lerp (take_index arr (fst indexes)) (take_index arr (snd indexes)) gamma).

(** *** The calculator *)

(** The dict comprehension [{p: f(p) for p in percentiles}], evaluated left
    to right; the first exception raised by [f] aborts it. *)
Fixpoint dict_comprehension (f : Z -> result float) (ps : list Z)
    (acc : gmap Z float) : result (gmap Z float) :=
  match ps with
  | [] => Ok acc
  | p :: rest =>
      v ← f p;
      dict_comprehension f rest (<[p := v]> acc)
  end.

Definition calculate_percentiles (values : list float) (percentiles : list Z)
    : result (gmap Z float) :=
  if is_empty values then
    dict_comprehension (fun _ => Ok 0) percentiles ∅
  else
    dict_comprehension (fun p => np_percentile values p) percentiles ∅.

Definition calculate_mean (values : list float) : float :=
  if is_empty values then 0 else np_mean values.

Definition calculate_stddev (values : list float) : float :=
  if (length values <? 2)%nat then 0 else np_std values 1.

Definition calculate_coefficient_of_variation (values : list float) : float :=
  let mean := calculate_mean values in
  if PrimFloat.eqb mean 0 then 0
  else (calculate_stddev values / mean) * 100.

Section Formatting.

(** Python's float formatting, [f"{x:.2f}"] and [f"{x}"]. *)
Variable format_2f : float -> string.
Variable format_float : float -> string.

Definition verify_reproducibility (throughput_values : list float)
    (max_cv_percent : float) : bool * float * string :=
  if (length throughput_values <? 2)%nat then
    (true, 0, "Insufficient data for variance check")
  else
    let cv := calculate_coefficient_of_variation throughput_values in
    let mean := calculate_mean throughput_values in
    if PrimFloat.leb cv max_cv_percent then
      (true, cv,
       "Variance within limits (CV: " +:+ format_2f cv +:+ "% <= "
         +:+ format_float max_cv_percent +:+ "%)")
    else
      (false, cv,
       "Variance too high (CV: " +:+ format_2f cv +:+ "% > "
         +:+ format_float max_cv_percent +:+ "%)").

End Formatting.

(** Statistical summary of latency measurements. *)
Record LatencyStatistics := {
  avg_ms : float;
  min_ms : float;
  max_ms : float;
  std_ms : float;
  p50_ms : float;
  p90_ms : float;
  p95_ms : float;
  p99_ms : float;
}.

(** [np.minimum] and [np.maximum] of two samples: nan wins. *)
Definition minimum (x y : float) : float :=
  if is_nan x || is_nan y then nan else if PrimFloat.ltb y x then y else x.

Definition maximum (x y : float) : float :=
  if is_nan x || is_nan y then nan else if PrimFloat.ltb x y then y else x.

(** [np.min(a)] and [np.max(a)]: [ValueError] on an empty array. *)
Definition np_min (a : list float) : result float :=
  match a with
  | [] => Raise (Exn "ValueError"
                   "zero-size array to reduction operation minimum which has no identity")
  | x :: r => Ok (fold_left minimum r x)
  end.

Definition np_max (a : list float) : result float :=
  match a with
  | [] => Raise (Exn "ValueError"
                   "zero-size array to reduction operation maximum which has no identity")
  | x :: r => Ok (fold_left maximum r x)
  end.

Definition calculate_latency_statistics (latencies_ms : list float)
    (percentiles : option (list Z)) : result LatencyStatistics :=
  let percentiles := default [50; 90; 95; 99]%Z percentiles in
  if is_empty latencies_ms then
    Ok {| avg_ms := 0; min_ms := 0; max_ms := 0; std_ms := 0;
          p50_ms := 0; p90_ms := 0; p95_ms := 0; p99_ms := 0 |}
  else
    percentiles_dict ← calculate_percentiles latencies_ms percentiles;
    lowest ← np_min latencies_ms;
    highest ← np_max latencies_ms;
    Ok {| avg_ms := calculate_mean latencies_ms;
          min_ms := lowest;
          max_ms := highest;
          std_ms := calculate_stddev latencies_ms;
          p50_ms := default 0 (percentiles_dict !! 50%Z);
          p90_ms := default 0 (percentiles_dict !! 90%Z);
          p95_ms := default 0 (percentiles_dict !! 95%Z);
          p99_ms := default 0 (percentiles_dict !! 99%Z) |}.

End Calculator.

(** ** benchmark/metrics/collector.py *)

Module Collector.

Local Open Scope float_scope.

(** vLLM Prometheus metrics queries. *)
Definition VLLM_QUERIES : list (string * string) :=
  [ ("request_throughput", "rate(vllm:num_requests_total[{duration}s])");
    ("avg_ttft", "histogram_quantile(0.5, rate(vllm:time_to_first_token_seconds_bucket[{duration}s]))");
    ("p95_ttft", "histogram_quantile(0.95, rate(vllm:time_to_first_token_seconds_bucket[{duration}s]))");
    ("avg_latency", "histogram_quantile(0.5, rate(vllm:time_per_request_seconds_bucket[{duration}s]))");
    ("p95_latency", "histogram_quantile(0.95, rate(vllm:time_per_request_seconds_bucket[{duration}s]))");
    ("gpu_cache_usage", "avg(vllm:gpu_cache_usage_perc)");
    ("queue_size", "avg(vllm:waiting_queue_size)");
    ("token_throughput", "rate(vllm:num_generation_tokens[{duration}s])") ].

Record PrometheusMetrics := {
  timestamp : string;
  query_duration_seconds : float;
  metrics : gmap string (option float);
}.

(** [template.format(duration=d)]: every ["{duration}"] field of the
    template is replaced by the decimal form of [d]. *)
Fixpoint format_fields (skip : nat) (d : string) (template : string) : string :=
  match template with
  | EmptyString => EmptyString
  | String c rest =>
      match skip with
      | S k => format_fields k d rest
      | O =>
          if String.prefix "{duration}" template
          then d +:+ format_fields 9 d rest
          else String c (format_fields 0 d rest)
      end
  end.

Definition format_duration (template : string) (duration : Z) : string :=
  format_fields 0 (pretty duration) template.

(** What [self.client.get(url, params=...)] does: it raises, or it returns a
    response with a status code whose [.json()] gives a value or raises. *)
Inductive http_result :=
| HttpRaise (e : exn)
| HttpResponse (status_code : Z) (json_body : result json).

Section Backend.

(** The metrics backend reached through the HTTP client: the reply to a GET
    of [url] with parameters [query], [start], [end] (and [step = "15s"]). *)
Variable client_get : string -> string -> float -> float -> http_result.

(** [float(s)] on a string. *)
Variable float_of_string : string -> option float.

(** [time.time()] before and after the queries, and
    [datetime.now().isoformat()]. *)
Variable time_before time_after : float.
Variable now_isoformat : string.

(** [self.prometheus_url], the base URL without trailing slashes. *)
Variable prometheus_url : string.

(** [response.raise_for_status()]: a status outside 2xx raises. *)
Definition raise_for_status (status_code : Z) : result unit :=
  if (200 <=? status_code)%Z && (status_code <? 300)%Z then Ok tt
  else Raise (Exn "HTTPStatusError" ("status " +:+ pretty status_code)).

(** The [try] body of [query_prometheus]. *)
Definition query_prometheus_body (query : string) (start_time end_time : float)
    : result (option json) :=
  let url := prometheus_url +:+ "/api/v1/query_range" in
  match client_get url query start_time end_time with
  | HttpRaise e => Raise e
  | HttpResponse status_code json_body =>
      _ ← raise_for_status status_code;
      data ← json_body;
      status ← dict_get data "status" JNull;
      if equals_str status "success" then
        d ← dict_get data "data" (JObj []);
        Ok (Some d)
      else Ok None
  end.

(** [query_prometheus]: every exception is caught and turned into [None]. *)
Definition query_prometheus (query : string) (start_time end_time : float)
    : option json :=
  match query_prometheus_body query start_time end_time with
  | Ok r => r
  | Raise _ => None
  end.

(** [float(x)]. *)
Definition py_float (x : json) : result float :=
  match x with
  | JStr s =>
      match float_of_string s with
      | Some f => Ok f
      | None => Raise (Exn "ValueError"
                         ("could not convert string to float: '" +:+ s +:+ "'"))
      end
  | JInt z => Ok (float_of_Z z)
  | JFloat f => Ok f
  | JBool b => Ok (if b then 1 else 0)
  | _ => Raise (Exn "TypeError"
                  ("float() argument must be a string or a real number, not '"
                     +:+ type_name x +:+ "'"))
  end.

(** [x != "None"]. *)
Definition is_not_None_string (x : json) : bool := negb (equals_str x "None").

(** [[float(v[1]) for v in values if v[1] != "None"]], over the items of
    [values]. *)
Fixpoint numeric_values_loop (items : list json) : result (list float) :=
  match items with
  | [] => Ok []
  | v :: rest =>
      x ← subscript v 1;
      if is_not_None_string x then
        x' ← subscript v 1;
        f ← py_float x';
        fs ← numeric_values_loop rest;
        Ok (f :: fs)
      else numeric_values_loop rest
  end.

Definition numeric_values_of (values : json) : result (list float) :=
  items ← iterate values;
  numeric_values_loop items.

(** [sum(xs)], which starts from the integer 0. *)
Definition py_sum (xs : list float) : float := fold_left PrimFloat.add xs 0.

(** The body of the loop of [collect_vllm_metrics]: the value stored for one
    metric, given what [query_prometheus] returned for it. *)
Definition metric_value (result : option json) : Py.result (option float) :=
  match result with
  | Some r =>
      if truthy r then
        series ← dict_get r "result" JNull;
        if truthy series then
          all ← subscript_key r "result";
          first ← subscript all 0;
          values ← dict_get first "values" (JArr []);
          if truthy values then
            numeric_values ← numeric_values_of values;
            if negb (is_empty numeric_values) then
              Ok (Some (py_sum numeric_values / float_of_nat (length numeric_values)))
            else Ok (Some 0)
          else Ok (Some 0)
        else Ok None
      else Ok None
  | None => Ok None
  end.

Fixpoint collect_loop (queries : list (string * string)) (duration : float)
    (start_buffered end_buffered : float) (metrics : gmap string (option float))
    : result (gmap string (option float)) :=
  match queries with
  | [] => Ok metrics
  | (metric_name, query_template) :: rest =>
      d ← int_of_float duration;
      let query := format_duration query_template d in
      let result := query_prometheus query start_buffered end_buffered in
      v ← metric_value result;
      collect_loop rest duration start_buffered end_buffered
        (<[metric_name := v]> metrics)
  end.

Definition collect_vllm_metrics (test_start_time test_end_time : float)
    : result PrometheusMetrics :=
  let duration := test_end_time - test_start_time in
  let start_collect := time_before in
  let start_buffered := test_start_time - 5 in
  let end_buffered := test_end_time + 5 in
  metrics ← collect_loop VLLM_QUERIES duration start_buffered end_buffered ∅;
  let collect_duration := time_after - start_collect in
  Ok (Build_PrometheusMetrics now_isoformat collect_duration metrics).

End Backend.

(** [c in chars] *)
Fixpoint str_mem (c : ascii) (chars : string) : bool :=
  match chars with
  | EmptyString => false
  | String x rest => Ascii.eqb c x || str_mem c rest
  end.

(** [s.rstrip(chars)]: [s] without its trailing characters that occur in
    [chars]. *)
Fixpoint rstrip (chars : string) (s : string) : string :=
  match s with
  | EmptyString => EmptyString
  | String c rest =>
      match rstrip chars rest with
      | EmptyString => if str_mem c chars then EmptyString else String c EmptyString
      | kept => String c kept
      end
  end.

(** [PrometheusCollector.__init__]: the value given to
    [self.prometheus_url]. *)
Definition __init__ (prometheus_url : string) : string :=
  rstrip "/" prometheus_url.

Section Convenience.

Variable client_get : string -> string -> float -> float -> http_result.
Variable float_of_string : string -> option float.
Variable time_before time_after : float.
Variable now_isoformat : string.

(** [collect_metrics_if_enabled]: the collector is built from the URL, used
    inside a [with] block whose exit closes the HTTP client and lets
    exceptions through, and a failed collection is [None]. *)
Definition collect_metrics_if_enabled (prometheus_url : string)
    (collect_enabled : bool) (test_start_time test_end_time : float)
    : option PrometheusMetrics :=
  if negb collect_enabled then None
  else
    let collector := __init__ prometheus_url in
    match collect_vllm_metrics client_get float_of_string time_before time_after
            now_isoformat collector test_start_time test_end_time with
    | Ok m => Some m
    | Raise _ => None
    end.

End Convenience.

End Collector.

(** ** benchmark/load_test.py

    Timestamps and the quantities derived from them are exact rationals:
    the rounding of the float subtraction, multiplication and division is
    left out of the model (it is monotone, so it preserves the order
    relations stated below). *)

Module LoadTest.

Local Open Scope Q_scope.

(** Metrics collected for a single request. *)
Record RequestMetrics := {
  request_id : string;
  start_time : Q;
  end_time : Q;
  ttft_ms : Q;
  e2e_latency_ms : Q;
  output_tokens : Z;
  input_tokens : Z;
  tokens_per_second : Q;
  error : option string;
}.

(** The configuration dict: a missing key is [None], and a missing section
    reads as the empty dict. *)
Record server_config := {
  base_url : option string;
  model : option string;
  api_key : option string;
}.

Record load_config := {
  concurrency : option Z;
  num_requests : option Z;
  warmup_requests : option Z;
  request_timeout : option Z;
}.

Record prompt_config := {
  prompt_type : option string;
  input_length : option Z;
  fixed_prompt : option string;
  output_length : option Z;
}.

Record config := {
  server : option server_config;
  load : option load_config;
  prompt : option prompt_config;
}.

Definition server_section (c : config) : server_config :=
  default (Build_server_config None None None) (server c).
Definition load_section (c : config) : load_config :=
  default (Build_load_config None None None None) (load c).
Definition prompt_section (c : config) : prompt_config :=
  default (Build_prompt_config None None None None) (prompt c).

(** Aggregated results from a load test. *)
Record TestResult := {
  result_config : config;
  result_timestamp : string;
  duration_seconds : Q;
  total_requests : Z;
  successful_requests : Z;
  failed_requests : Z;
  throughput_rps : Q;
  request_metrics : list RequestMetrics;
}.

(** Statistical summary of metrics. *)
Record Statistics := {
  avg_latency_ms : Q;
  p50_latency_ms : Q;
  p95_latency_ms : Q;
  p99_latency_ms : Q;
  avg_ttft_ms : Q;
  p50_ttft_ms : Q;
  p95_ttft_ms : Q;
  p99_ttft_ms : Q;
  avg_tokens_per_second : Q;
  stat_throughput_rps : Q;
}.

(** *** generate_prompt *)

Definition base_phrase : string :=
  "Please explain the following concept in detail: ".

Definition topics : list string :=
  [ "quantum computing and its applications";
    "machine learning model architectures";
    "distributed systems design patterns";
    "natural language processing techniques";
    "computer vision algorithms";
    "database optimization strategies";
    "microservices architecture principles";
    "cloud infrastructure management";
    "data structures and algorithms";
    "software engineering best practices" ].

(** [random.choice(topics)], given the index the generator draws. *)
Definition random_choice (draw : nat) : string :=
  nth (draw mod length topics) topics "".

(** The loop test [len(prompt) * 0.3 < input_length], in exact arithmetic.
    (In binary64 the product can fall short of the exact one, which makes the
    loop run once more at most; the prompt is cut to [3 * input_length]
    characters afterwards, which both versions have reached, so the prompt
    returned is the same.) *)
Definition below_target (prompt : string) (input_length : Z) : bool :=
  negb (Qle_bool (inject_Z input_length)
          (inject_Z (Z.of_nat (String.length prompt)) * (3 # 10))).

Lemma below_target_spec prompt input_length :
  below_target prompt input_length = true <->
  (3 * Z.of_nat (String.length prompt) < 10 * input_length)%Z.
Proof.
  unfold below_target.
  rewrite negb_true_iff, <- not_true_iff_false, Qle_bool_iff.
  unfold Qle, Qmult, inject_Z; simpl. lia.
Qed.

Definition inspect {A : Type} (x : A) : { y : A | x = y } := exist _ x eq_refl.

(** [while len(prompt) * 0.3 < input_length: prompt += f"Elaborate on {topic}. "] *)
Equations? elaborate (topic : string) (input_length : Z) (prompt : string)
    : string
    by wf (Z.to_nat (10 * input_length - 3 * Z.of_nat (String.length prompt))) lt :=
  elaborate topic input_length prompt
    with inspect (below_target prompt input_length) := {
    | exist _ true H =>
        elaborate topic input_length
          (prompt +:+ ("Elaborate on " +:+ topic +:+ ". "))
    | exist _ false _ => prompt }.
Proof.
  apply below_target_spec in H.
  rewrite !string_length_app. simpl. lia.
Qed.

Definition generate_prompt (c : config) (draw : nat) : string :=
  let prompt_type := default "random" (prompt_type (prompt_section c)) in
  let input_length := default 512%Z (input_length (prompt_section c)) in
  let fixed := default "" (fixed_prompt (prompt_section c)) in
  if String.eqb prompt_type "fixed" && negb (String.eqb fixed "") then fixed
  else
    let topic := random_choice draw in
    let prompt := base_phrase +:+ topic +:+ ". " in
    let prompt := elaborate topic input_length prompt in
    slice_to prompt (input_length * 3).

(** *** send_request *)

(** What the streaming response of [client.stream("POST", ...)] does: its
    status code, what [(await response.aread()).decode()] gives, the lines
    [response.aiter_lines()] yields, and the exception the iteration ends
    with, if any (a timeout or a dropped connection). *)
Record response := {
  status_code : Z;
  aread_decode : result string;
  aiter_lines : list string;
  stream_error : option exn;
}.

(** The request either fails before a response arrives, or is answered. *)
Inductive transport :=
| ConnectFailed (e : exn)
| Connected (r : response).

(** The arguments of [client.stream("POST", url, json=payload,
    headers=headers, timeout=timeout)]. *)
Record http_request := {
  url : string;
  authorization : string;
  payload_model : string;
  payload_content : string;
  payload_max_tokens : Z;
  payload_stream : bool;
  timeout : Z;
}.

(** The request that [send_request] builds from the configuration. *)
Definition build_request (c : config) (prompt : string) : http_request :=
  let base_url := default "http://localhost:8000/v1" (base_url (server_section c)) in
  let model := default "Qwen/Qwen2.5-3B-Instruct" (model (server_section c)) in
  let max_tokens := default 128%Z (output_length (prompt_section c)) in
  let timeout := default 120%Z (request_timeout (load_section c)) in
  {| url := base_url +:+ "/chat/completions";
     authorization :=
       "Bearer " +:+ default "token-abc123" (api_key (server_section c));
     payload_model := model;
     payload_content := prompt;
     payload_max_tokens := max_tokens;
     payload_stream := true;
     timeout := timeout |}.

(** A computation that reads the clock and may raise: the state is the
    number of [time.time()] calls made so far. *)
Definition io (A : Type) : Type := nat -> result A * nat.

Definition io_ret {A} (a : A) : io A := fun k => (Ok a, k).

Definition io_bind {A B} (m : io A) (f : A -> io B) : io B :=
  fun k =>
    match m k with
    | (Ok a, k') => f a k'
    | (Raise e, k') => (Raise e, k')
    end.

Definition lift {A} (r : result A) : io A := fun k => (r, k).

Notation "x <<- m ;; f" := (io_bind m (fun x => f))
  (at level 100, m at next level, right associativity, only parsing).

(** State of the line loop. *)
Record stream_state := {
  first_token_time : option Q;
  output_text : list json;
}.

(** [if x] for a float that may be [None]. *)
Definition truthy_time (t : option Q) : bool :=
  match t with
  | Some x => negb (Qeq_bool x 0)
  | None => false
  end.

(** ["".join(items)]: [TypeError] at the first item that is not a string. *)
Fixpoint join_from (i : nat) (items : list json) : result string :=
  match items with
  | [] => Ok ""
  | JStr s :: rest =>
      r ← join_from (S i) rest;
      Ok (s +:+ r)
  | v :: _ =>
      Raise (Exn "TypeError"
               ("sequence item " +:+ pretty i +:+ ": expected str instance, "
                  +:+ type_name v +:+ " found"))
  end.

Definition join (items : list json) : result string := join_from 0 items.

Section SendRequest.

(** [json.loads]: [None] stands for [json.JSONDecodeError]. *)
Variable json_loads : string -> option json.

(** The successive readings of [time.time()] seen by this call. *)
Variable clock : nat -> Q.

(** The shared HTTP client: what becomes of a request sent through it. *)
Variable client : http_request -> transport.

Definition time_time : io Q := fun k => (Ok (clock k), S k).

(** The body of [async for line in response.aiter_lines()]. *)
Fixpoint read_lines (lines : list string) (stream_end : option exn)
    (st : stream_state) : io stream_state :=
  match lines with
  | [] =>
      match stream_end with
      | Some e => lift (Raise e)
      | None => io_ret st
      end
  | line :: rest =>
      if String.prefix "data: " line then
        let data := str_drop 6 line in
        if String.eqb data "[DONE]" then io_ret st
        else
          match json_loads data with
          | None => read_lines rest stream_end st
          | Some chunk =>
              choices <<- lift (dict_get chunk "choices" (JArr [JObj []])) ;;
              first <<- lift (subscript choices 0) ;;
              delta <<- lift (dict_get first "delta" (JObj [])) ;;
              content <<- lift (dict_get delta "content" (JStr "")) ;;
              ftt <<- (if truthy content
                          && negb (is_Some_bool (first_token_time st))
                       then (t <<- time_time ;; io_ret (Some t))
                       else io_ret (first_token_time st)) ;;
              read_lines rest stream_end
                {| first_token_time := ftt;
                   output_text := output_text st ++ [content] |}
          end
      else read_lines rest stream_end st
  end.

(** The [try] block of [send_request], applied to the initial [metrics]. *)
Definition send_request_body (tr : transport) (prompt : string)
    (metrics : RequestMetrics) : io RequestMetrics :=
  start <<- time_time ;;
  match tr with
  | ConnectFailed e => lift (Raise e)
  | Connected resp =>
      st <<- (if negb (status_code resp =? 200)%Z then
                error_text <<- lift (aread_decode resp) ;;
                lift (Raise (Exn "Exception"
                               ("HTTP " +:+ pretty (status_code resp) +:+ ": "
                                  +:+ error_text)))
              else
                read_lines (aiter_lines resp) (stream_error resp)
                  {| first_token_time := None; output_text := [] |}) ;;
      end_ <<- time_time ;;
      output_content <<- lift (join (output_text st)) ;;
      let input_tokens := (Z.of_nat (String.length prompt) / 4)%Z in
      let output_tokens := (Z.of_nat (String.length output_content) / 4)%Z in
      let ttft_ms :=
        match first_token_time st with
        | Some t => if truthy_time (Some t) then (t - start) * 1000 else 0
        | None => 0
        end in
      let e2e_latency_ms := (end_ - start) * 1000 in
      io_ret
        {| request_id := request_id metrics;
           start_time := start_time metrics;
           end_time := end_;
           ttft_ms := ttft_ms;
           e2e_latency_ms := e2e_latency_ms;
           output_tokens := output_tokens;
           input_tokens := input_tokens;
           tokens_per_second :=
             if Qlt_le_dec 0 e2e_latency_ms
             then (inject_Z output_tokens / e2e_latency_ms) * 1000
             else tokens_per_second metrics;
           error := error metrics |}
  end.

(** The record built before the [try] block. *)
Definition initial_metrics (request_id : string) : RequestMetrics :=
  {| request_id := request_id; start_time := clock 0; end_time := 0;
     ttft_ms := 0; e2e_latency_ms := 0; output_tokens := 0;
     input_tokens := 0; tokens_per_second := 0; error := None |}.

Definition send_request (request_id prompt : string) (c : config)
    : RequestMetrics :=
  let tr := client (build_request c prompt) in
  let metrics := initial_metrics request_id in
  match send_request_body tr prompt metrics 1%nat with
  | (Ok m, _) => m
  | (Raise e, k) =>
      {| request_id := LoadTest.request_id metrics;
         start_time := start_time metrics;
         end_time := clock k;
         ttft_ms := ttft_ms metrics;
         e2e_latency_ms := e2e_latency_ms metrics;
         output_tokens := output_tokens metrics;
         input_tokens := input_tokens metrics;
         tokens_per_second := tokens_per_second metrics;
         error := Some (exn_str e) |}
  end.

End SendRequest.

(** *** run_concurrent_test: the concurrency gate

    The measured phase creates one task per request; each runs
    [async with semaphore: ...send_request...].  A task is [Queued] until it
    has acquired the semaphore, [InFlight] while it is inside the [async
    with] block (building its prompt and awaiting [send_request]), and
    [Settled] once it has left the block, which releases the semaphore
    whether the body returned or raised. *)

Inductive task_state := Queued | InFlight | Settled.

#[global] Instance task_state_eq_dec : EqDecision task_state.
Proof. solve_decision. Defined.

Record sched := {
  sem_value : Z;
  tasks : list task_state;
}.

(** [asyncio.Semaphore(value)]. *)
Definition Semaphore (value : Z) : result Z :=
  if (value <? 0)%Z then
    Raise (Exn "ValueError" "Semaphore initial value must be >= 0")
  else Ok value.

Definition initial (concurrency : Z) (num_requests : Z) : sched :=
  {| sem_value := concurrency;
     tasks := replicate (Z.to_nat num_requests) Queued |}.

(** One scheduling event of the event loop. *)
Inductive step : sched -> sched -> Prop :=
| step_acquire (s : sched) (i : nat) :
    tasks s !! i = Some Queued ->
    (0 < sem_value s)%Z ->
    step s {| sem_value := sem_value s - 1;
              tasks := <[i := InFlight]> (tasks s) |}
| step_release (s : sched) (i : nat) :
    tasks s !! i = Some InFlight ->
    step s {| sem_value := sem_value s + 1;
              tasks := <[i := Settled]> (tasks s) |}.

Definition count_state (st : task_state) (l : list task_state) : Z :=
  Z.of_nat (length (filter (fun x => x = st) l)).

(** Calls of [send_request] in flight. *)
Definition in_flight (s : sched) : Z := count_state InFlight (tasks s).

Definition all_settled (s : sched) : Prop :=
  Forall (fun x => x = Settled) (tasks s).

(** *** run_concurrent_test: the result *)

(** [if m.error] *)
Definition has_error (m : RequestMetrics) : bool :=
  match error m with
  | Some msg => negb (String.eqb msg "")
  | None => false
  end.

(** [range(n)] *)
Definition range (n : Z) : list Z := map Z.of_nat (seq 0 (Z.to_nat n)).

Inductive run_outcome :=
| Completes (r : TestResult)
| Raises (e : exn)
| NeverCompletes.

Section Run.

Variable json_loads : string -> option json.

(** The environment of a run: for each request id, what becomes of the
    request sent through the shared client, the clock readings the request
    sees, and the random draw of its prompt; the wall clock before and after
    the measured phase; [datetime.now().isoformat()]. *)
Variable client_of : string -> http_request -> transport.
Variable clock_of : string -> nat -> Q.
Variable draw_of : string -> nat.
Variable wall_start wall_end : Q.
Variable now_isoformat : string.

Definition request (c : config) (request_id : string) : RequestMetrics :=
  let prompt := generate_prompt c (draw_of request_id) in
  send_request json_loads (clock_of request_id) (client_of request_id)
    request_id prompt c.

(** The warmup burst: its results are discarded. *)
Definition warmup (c : config) (warmup_requests : Z) : list RequestMetrics :=
  map (fun i => request c ("warmup-" +:+ pretty i)) (range warmup_requests).

Definition bounded_request (c : config) (idx : Z) : RequestMetrics :=
  request c ("req-" +:+ pretty idx).

(** What the run returns once [asyncio.gather] has delivered [all_metrics]. *)
Definition summarize (c : config) (num_requests : Z)
    (all_metrics : list RequestMetrics) : TestResult :=
  let end_time := wall_end in
  let duration := wall_end - wall_start in
  let successful := List.filter (fun m => negb (has_error m)) all_metrics in
  let failed := List.filter (fun m => has_error m) all_metrics in
  let throughput_rps :=
    if Qlt_le_dec 0 duration
    then inject_Z (Z.of_nat (length successful)) / duration
    else 0 in
  {| result_config := c;
     result_timestamp := now_isoformat;
     duration_seconds := duration;
     total_requests := num_requests;
     successful_requests := Z.of_nat (length successful);
     failed_requests := Z.of_nat (length failed);
     throughput_rps := throughput_rps;
     request_metrics := successful |}.

Definition run_concurrent_test (c : config) : run_outcome :=
  let concurrency := default 10%Z (concurrency (load_section c)) in
  let num_requests := default 100%Z (num_requests (load_section c)) in
  let warmup_requests := default 10%Z (warmup_requests (load_section c)) in
  let _ := if (0 <? warmup_requests)%Z then warmup c warmup_requests else [] in
  match Semaphore concurrency with
  | Raise e => Raises e
  | Ok value =>
      if (value =? 0)%Z && (0 <? num_requests)%Z then NeverCompletes
      else
        let all_metrics := map (bounded_request c) (range num_requests) in
        Completes (summarize c num_requests all_metrics)
  end.

End Run.

(** *** run_concurrent_test: the measured phase on the event loop

    [asyncio] is an external library; the coroutines of the measured phase
    and the event loop that runs them are modelled from its documented
    behaviour.  A coroutine is given by what it does next: it enters
    [async with semaphore] (awaiting [semaphore.acquire()]), awaits
    [send_request], leaves the block ([semaphore.release()]), or returns. *)

Inductive coroutine :=
| Acquire (k : coroutine)
| AwaitSendRequest (request_id prompt : string) (k : RequestMetrics -> coroutine)
| Release (k : coroutine)
| Return (m : RequestMetrics).

(** A task of the event loop: scheduled to run its coroutine on; suspended
    in [semaphore.acquire()]; suspended in a call of [send_request] that has
    not returned yet; or finished, with its result. *)
Inductive task :=
| Ready (co : coroutine)
| Blocked (k : coroutine)
| Calling (request_id prompt : string) (k : RequestMetrics -> coroutine)
| Finished (m : RequestMetrics).

(** The semaphore (its counter and the tasks waiting for it, the one that
    has waited longest first) and the tasks handed to [asyncio.gather], in
    the order of the arguments. *)
Record loop := {
  sem_counter : Z;
  sem_waiters : list nat;
  loop_tasks : list task;
}.

Section EventLoop.

Variable json_loads : string -> option json.
Variable client_of : string -> http_request -> transport.
Variable clock_of : string -> nat -> Q.
Variable draw_of : string -> nat.

(** The coroutine [bounded_request(idx)]. *)
Definition bounded_request_coroutine (c : config) (idx : Z) : coroutine :=
  Acquire
    (let request_id := "req-" +:+ pretty idx in
     let prompt := generate_prompt c (draw_of request_id) in
     AwaitSendRequest request_id prompt (fun m => Release (Return m))).

(** The state in which [asyncio.gather] starts on the tasks. *)
Definition measured_phase (c : config) : result loop :=
  let concurrency := default 10%Z (concurrency (load_section c)) in
  let num_requests := default 100%Z (num_requests (load_section c)) in
  semaphore ← Semaphore concurrency;
  Ok {| sem_counter := semaphore;
        sem_waiters := [];
        loop_tasks :=
          map (fun i => Ready (bounded_request_coroutine c i))
            (range num_requests) |}.

(** One event of the loop, for the task at position [i].  A ready task
    performs the next action of its coroutine: [acquire] takes a slot at
    once when the counter is positive and no task is waiting, and suspends
    the task behind the waiting ones otherwise; [release] passes the slot to
    the task that has waited longest, which becomes ready, or increments the
    counter when no task waits (the semaphore of CPython 3.11 and later,
    which wakes waiters first in, first out).  A task suspended in
    [send_request] resumes with the metrics that the call returns.  Tasks
    may take their turns in any order. *)
Definition turn (c : config) (i : nat) (s : loop) : option loop :=
  match loop_tasks s !! i with
  | Some (Ready (Acquire k)) =>
      if (0 <? sem_counter s)%Z && is_empty (sem_waiters s) then
        Some {| sem_counter := (sem_counter s - 1)%Z;
                sem_waiters := sem_waiters s;
                loop_tasks := <[i := Ready k]> (loop_tasks s) |}
      else
        Some {| sem_counter := sem_counter s;
                sem_waiters := sem_waiters s ++ [i];
                loop_tasks := <[i := Blocked k]> (loop_tasks s) |}
  | Some (Ready (AwaitSendRequest request_id prompt k)) =>
      Some {| sem_counter := sem_counter s;
              sem_waiters := sem_waiters s;
              loop_tasks := <[i := Calling request_id prompt k]> (loop_tasks s) |}
  | Some (Calling request_id prompt k) =>
      let metrics :=
        send_request json_loads (clock_of request_id) (client_of request_id)
          request_id prompt c in
      Some {| sem_counter := sem_counter s;
              sem_waiters := sem_waiters s;
              loop_tasks := <[i := Ready (k metrics)]> (loop_tasks s) |}
  | Some (Ready (Release k)) =>
      match sem_waiters s with
      | [] =>
          Some {| sem_counter := (sem_counter s + 1)%Z;
                  sem_waiters := [];
                  loop_tasks := <[i := Ready k]> (loop_tasks s) |}
      | j :: rest =>
          match loop_tasks s !! j with
          | Some (Blocked resumed) =>
              Some {| sem_counter := sem_counter s;
                      sem_waiters := rest;
                      loop_tasks :=
                        <[j := Ready resumed]> (<[i := Ready k]> (loop_tasks s)) |}
          | _ => None
          end
      end
  | Some (Ready (Return m)) =>
      Some {| sem_counter := sem_counter s;
              sem_waiters := sem_waiters s;
              loop_tasks := <[i := Finished m]> (loop_tasks s) |}
  | Some (Blocked _) | Some (Finished _) | None => None
  end.

Definition loop_step (c : config) (s s' : loop) : Prop :=
  exists i, turn c i s = Some s'.

(** Calls of [send_request] that have started and not returned. *)
Definition is_calling (t : task) : bool :=
  match t with
  | Calling _ _ _ => true
  | _ => false
  end.

Definition calls_in_flight (s : loop) : Z :=
  Z.of_nat (length (List.filter is_calling (loop_tasks s))).

(** What [asyncio.gather] returns once every task is done: the results in
    the order of the tasks. *)
Fixpoint gathered (tasks : list task) : option (list RequestMetrics) :=
  match tasks with
  | [] => Some []
  | Finished m :: rest =>
      match gathered rest with
      | Some results => Some (m :: results)
      | None => None
      end
  | _ :: _ => None
  end.

End EventLoop.

(** *** calculate_statistics *)

Section Statistics.

(** [np.mean] and [np.percentile] of NumPy, on the samples handed to them. *)
Variable np_mean : list Q -> Q.
Variable np_percentile : list Q -> Z -> Q.

Definition percentile (data : list Q) (p : Z) : Q :=
  if negb (is_empty data) then np_percentile data p else 0.

Definition positive (x : Q) : bool :=
  if Qlt_le_dec 0 x then true else false.

Definition calculate_statistics (metrics : list RequestMetrics)
    (throughput_rps : Q) : Statistics :=
  if is_empty metrics then
    {| avg_latency_ms := 0; p50_latency_ms := 0; p95_latency_ms := 0;
       p99_latency_ms := 0; avg_ttft_ms := 0; p50_ttft_ms := 0;
       p95_ttft_ms := 0; p99_ttft_ms := 0; avg_tokens_per_second := 0;
       stat_throughput_rps := throughput_rps |}
  else
    let latencies :=
      map e2e_latency_ms
        (List.filter (fun m => positive (e2e_latency_ms m)) metrics) in
    let ttfts :=
      map ttft_ms (List.filter (fun m => positive (ttft_ms m)) metrics) in
    let tps :=
      map tokens_per_second
        (List.filter (fun m => positive (tokens_per_second m)) metrics) in
    {| avg_latency_ms := if negb (is_empty latencies) then np_mean latencies else 0;
       p50_latency_ms := percentile latencies 50;
       p95_latency_ms := percentile latencies 95;
       p99_latency_ms := percentile latencies 99;
       avg_ttft_ms := if negb (is_empty ttfts) then np_mean ttfts else 0;
       p50_ttft_ms := percentile ttfts 50;
       p95_ttft_ms := percentile ttfts 95;
       p99_ttft_ms := percentile ttfts 99;
       avg_tokens_per_second := if negb (is_empty tps) then np_mean tps else 0;
       stat_throughput_rps := throughput_rps |}.

End Statistics.

(** *** main *)

(** The parsed command line: [--config], [--concurrency], [--num-requests]
    and [--output]. *)
Record args := {
  args_config : string;
  args_concurrency : option Z;
  args_num_requests : option Z;
  args_output : option string;
}.

(** The report written as JSON: its [metadata], [summary], [latency],
    [ttft] and [throughput] entries. *)
Record report_data := {
  metadata_timestamp : string;
  metadata_config : config;
  summary_duration_seconds : Q;
  summary_total_requests : Z;
  summary_successful_requests : Z;
  summary_failed_requests : Z;
  summary_throughput_rps : Q;
  latency_avg_ms : Q;
  latency_p50_ms : Q;
  latency_p95_ms : Q;
  latency_p99_ms : Q;
  ttft_avg_ms : Q;
  ttft_p50_ms : Q;
  ttft_p95_ms : Q;
  ttft_p99_ms : Q;
  throughput_tokens_per_second : Q;
}.

(** How [main] ends: by [sys.exit(code)], after writing the report to a
    path or without a report; by an exception that nothing catches; or
    never, when the run does not return. *)
Inductive main_outcome :=
| Exit (code : Z) (written : option (string * report_data))
| Uncaught (e : exn)
| Hangs.

(** What [parser.parse_args()] makes of the command line.  [argparse] is an
    external library: as it documents, parsing returns the arguments, or
    ends the program with status 2 after a usage message when the command
    line is not accepted (an unknown option, a missing value, a value of
    [--concurrency] or [--num-requests] that is not an integer), or with
    status 0 after the help text for [-h] and [--help]. *)
Inductive parsed :=
| Parsed (a : args)
| UsageError
| HelpShown.

(** [config.setdefault("load", {})[key] = value], for the two keys that the
    command line overrides: a missing [load] section is created, the other
    keys of the section are kept. *)
Definition set_concurrency (value : Z) (c : config) : config :=
  let section := load_section c in
  {| server := server c;
     load := Some {| concurrency := Some value;
                     num_requests := num_requests section;
                     warmup_requests := warmup_requests section;
                     request_timeout := request_timeout section |};
     prompt := prompt c |}.

Definition set_num_requests (value : Z) (c : config) : config :=
  let section := load_section c in
  {| server := server c;
     load := Some {| concurrency := concurrency section;
                     num_requests := Some value;
                     warmup_requests := warmup_requests section;
                     request_timeout := request_timeout section |};
     prompt := prompt c |}.

Section Main.

(** [parser.parse_args()] on the command line [sys.argv[1:]]. *)
Variable parse_args : list string -> parsed.

(** The file system: [Path(p).exists()]; [load_config(p)], the parsed YAML
    file, and its [report.output_dir] entry; [Path(dir) / name]; and what
    creating the directory and dumping the report to the path does. *)
Variable path_exists : string -> bool.
Variable load_config_file : string -> result config.
Variable report_output_dir : option string.
Variable path_join : string -> string -> string.
Variable write_report : string -> report_data -> result unit.

(** The environment of the run, and NumPy. *)
Variable json_loads : string -> option json.
Variable client_of : string -> http_request -> transport.
Variable clock_of : string -> nat -> Q.
Variable draw_of : string -> nat.
Variable wall_start wall_end : Q.
Variable now_isoformat : string.
Variable np_mean : list Q -> Q.
Variable np_percentile : list Q -> Z -> Q.

(** [datetime.now().strftime("%Y%m%d_%H%M%S")]. *)
Variable strftime_now : string.

(** [main] on the command line [argv], with the messages it prints left
    out. *)
Definition main (argv : list string) : main_outcome :=
  match parse_args argv with
  | UsageError => Exit 2 None
  | HelpShown => Exit 0 None
  | Parsed a =>
      let config_path := args_config a in
      if negb (path_exists config_path) then Exit 1 None
      else
        match load_config_file config_path with
        | Raise e => Uncaught e
        | Ok config =>
            let config :=
              match args_concurrency a with
              | Some value => set_concurrency value config
              | None => config
              end in
            let config :=
              match args_num_requests a with
              | Some value => set_num_requests value config
              | None => config
              end in
            match run_concurrent_test json_loads client_of clock_of draw_of
                    wall_start wall_end now_isoformat config with
            | Raises e => Uncaught e
            | NeverCompletes => Hangs
            | Completes result =>
                let stats :=
                  calculate_statistics np_mean np_percentile
                    (request_metrics result) (throughput_rps result) in
                let output_dir :=
                  match args_output a with
                  | Some dir =>
                      if String.eqb dir ""
                      then default "benchmark/reports" report_output_dir
                      else dir
                  | None => default "benchmark/reports" report_output_dir
                  end in
                let json_path :=
                  path_join output_dir ("benchmark_" +:+ strftime_now +:+ ".json") in
                let report :=
                  {| metadata_timestamp := result_timestamp result;
                     metadata_config := config;
                     summary_duration_seconds := duration_seconds result;
                     summary_total_requests := total_requests result;
                     summary_successful_requests := successful_requests result;
                     summary_failed_requests := failed_requests result;
                     summary_throughput_rps := throughput_rps result;
                     latency_avg_ms := avg_latency_ms stats;
                     latency_p50_ms := p50_latency_ms stats;
                     latency_p95_ms := p95_latency_ms stats;
                     latency_p99_ms := p99_latency_ms stats;
                     ttft_avg_ms := avg_ttft_ms stats;
                     ttft_p50_ms := p50_ttft_ms stats;
                     ttft_p95_ms := p95_ttft_ms stats;
                     ttft_p99_ms := p99_ttft_ms stats;
                     throughput_tokens_per_second := avg_tokens_per_second stats |} in
                match write_report json_path report with
                | Raise e => Uncaught e
                | Ok _ =>
                    Exit (if (failed_requests result =? 0)%Z then 0%Z else 1%Z)
                      (Some (json_path, report))
                end
            end
        end
  end.

End Main.

End LoadTest.

(** * Properties *)

(** [needle] occurs in [hay]. *)
Definition contains (needle hay : string) : Prop :=
  exists pre post, hay = pre +:+ needle +:+ post.

Lemma contains_intro pre needle post : contains needle (pre +:+ needle +:+ post).
Proof. exists pre, post. reflexivity. Qed.

(** ** Facts on binary64 comparison *)

Lemma SFcompare_Lt_Gt (x y : spec_float) :
  SFcompare x y = Some Lt -> SFcompare y x = Some Gt.
Proof.
  destruct x as [sx|sx| |sx mx ex], y as [sy|sy| |sy my ey]; simpl;
    try discriminate; try (destruct sx; discriminate);
    try (destruct sy; discriminate);
    try (destruct sx, sy; simpl; congruence).
  change (PosDef.Pos.compare_cont Eq mx my) with (Pos.compare mx my).
  change (PosDef.Pos.compare_cont Eq my mx) with (Pos.compare my mx).
  rewrite (Z.compare_antisym ex ey), (Pos.compare_antisym mx my).
  destruct sx, sy; simpl; try congruence;
    destruct (ex ?= ey)%Z; simpl; try congruence;
    destruct (mx ?= my)%positive; simpl; congruence.
Qed.

Lemma ltb_not_leb (x y : float) :
  PrimFloat.ltb x y = true -> PrimFloat.leb y x = false.
Proof.
  rewrite ltb_spec, leb_spec. unfold SFltb, SFleb.
  destruct (SFcompare (Prim2SF x) (Prim2SF y)) as [[| |]|] eqn:E; try discriminate.
  intros _. now rewrite (SFcompare_Lt_Gt _ _ E).
Qed.

(** ** benchmark/metrics/calculator.py *)

Module CalculatorSpec.
Import Calculator.
Local Open Scope float_scope.

(** C7.  [verify_reproducibility] on fewer than two measurements returns
    [(True, 0.0, "Insufficient data for variance check")]; on two or more it
    returns the coefficient of variation [cv], the flag [cv <= max_cv_percent]
    (so the flag is false when [cv] exceeds the threshold), and a message
    that contains the formatted [cv] and the formatted threshold. *)
Theorem verify_reproducibility_spec
    (format_2f format_float : float -> string)
    (throughput_values : list float) (max_cv_percent : float) :
  ((length throughput_values < 2)%nat ->
     verify_reproducibility format_2f format_float throughput_values max_cv_percent
     = (true, 0, "Insufficient data for variance check")
     /\ contains "nsufficient data" "Insufficient data for variance check")
  /\ ((2 <= length throughput_values)%nat ->
      let cv := calculate_coefficient_of_variation throughput_values in
      exists message,
        verify_reproducibility format_2f format_float throughput_values max_cv_percent
        = (PrimFloat.leb cv max_cv_percent, cv, message)
        /\ (PrimFloat.ltb max_cv_percent cv = true ->
            verify_reproducibility format_2f format_float throughput_values
              max_cv_percent = (false, cv, message))
        /\ contains (format_2f cv) message
        /\ contains (format_float max_cv_percent) message).
Proof.
  split.
  - intros Hlen. unfold verify_reproducibility.
    apply Nat.ltb_lt in Hlen. rewrite Hlen. split; [reflexivity|].
    exists "I", " for variance check". reflexivity.
  - intros Hlen cv. unfold verify_reproducibility.
    assert (Hge : (length throughput_values <? 2)%nat = false)
      by (apply Nat.ltb_ge; exact Hlen).
    rewrite Hge. fold cv.
    destruct (PrimFloat.leb cv max_cv_percent) eqn:Hle.
    + eexists. split; [reflexivity|]. split; [|split].
      * intros Hlt. apply ltb_not_leb in Hlt. congruence.
      * exists "Variance within limits (CV: ",
          ("% <= " +:+ format_float max_cv_percent +:+ "%)"). reflexivity.
      * exists ("Variance within limits (CV: " +:+ format_2f cv +:+ "% <= "), "%)".
        rewrite !string_app_assoc. reflexivity.
    + eexists. split; [reflexivity|]. split; [|split].
      * intros _. reflexivity.
      * exists "Variance too high (CV: ",
          ("% > " +:+ format_float max_cv_percent +:+ "%)"). reflexivity.
      * exists ("Variance too high (CV: " +:+ format_2f cv +:+ "% > "), "%)".
        rewrite !string_app_assoc. reflexivity.
Qed.

Lemma verify_reproducibility_witness :
  verify_reproducibility (fun _ => "28.28") (fun _ => "10.0") [42] 10
  = (true, 0, "Insufficient data for variance check")
  /\ exists message,
      verify_reproducibility (fun _ => "28.28") (fun _ => "10.0") [80; 120] 10
      = (false, 28.284271247461902, message)
      /\ contains "28.28" message /\ contains "10.0" message.
Proof.
  split.
  - apply (proj1 (verify_reproducibility_spec
                    (fun _ => "28.28") (fun _ => "10.0") [42] 10)).
    simpl. lia.
  - destruct (proj2 (verify_reproducibility_spec
                       (fun _ => "28.28") (fun _ => "10.0") [80; 120] 10))
      as (message & Heq & _ & Hcv & Hmax).
    + simpl. lia.
    + exists message. split; [exact Heq | split; [exact Hcv | exact Hmax]].
Defined.

(** The dict built by a comprehension whose body does not raise. *)
Lemma dict_comprehension_ok (f : Z -> result float) (ps : list Z) :
  (forall p, p ∈ ps -> exists v, f p = Ok v) ->
  forall acc, exists m,
    dict_comprehension f ps acc = Ok m
    /\ forall p,
        (p ∈ ps -> exists v, f p = Ok v /\ m !! p = Some v)
        /\ (p ∉ ps -> m !! p = acc !! p).
Proof.
  induction ps as [|q ps IH]; intros Hf acc.
  - exists acc. split; [reflexivity|]. intros p. split.
    + intros Hin. inversion Hin.
    + reflexivity.
  - destruct (Hf q) as [v Hv]; [apply elem_of_cons; now left|].
    destruct (IH (fun p Hp => Hf p (proj2 (elem_of_cons ps p q) (or_intror Hp)))
                (<[q := v]> acc)) as (m & Hm & Hlook).
    exists m. split.
    + simpl. rewrite Hv. exact Hm.
    + intros p. split.
      * intros Hin. destruct (decide (p ∈ ps)) as [Hps|Hps].
        { apply Hlook. exact Hps. }
        apply elem_of_cons in Hin as [->|Hin]; [|contradiction].
        exists v. split; [exact Hv|].
        rewrite (proj2 (Hlook q) Hps). apply lookup_insert_eq.
      * intros Hnin. apply not_elem_of_cons in Hnin as [Hne Hnin].
        rewrite (proj2 (Hlook p) Hnin). now apply lookup_insert_ne.
Qed.

(** [np.percentile] accepts every integer percentile from 0 to 100. *)
Lemma percentile_in_range (p : Z) :
  (0 <= p <= 100)%Z ->
  negb (PrimFloat.leb 0 (float_of_Z p / 100)
        && PrimFloat.leb (float_of_Z p / 100) 1) = false.
Proof.
  intros Hp.
  assert (Hn : exists n : nat, (n <= 100)%nat /\ p = Z.of_nat n)
    by (exists (Z.to_nat p); lia).
  destruct Hn as (n & Hn & ->). clear Hp.
  do 101 (destruct n as [|n]; [vm_compute; reflexivity|]).
  lia.
Qed.

(** C8.  [calculate_percentiles] maps every requested percentile to 0.0
    when the input is empty; on non-empty input it maps each requested
    percentile [p] (0 to 100) to NumPy's linear-interpolation percentile, the
    value at rank [(n - 1) * (p / 100)] of the sorted samples, interpolated
    between the sample at the floor of the rank and the next one; and
    [calculate_percentiles([10,20,30,40,50], [50]) == {50: 30.0}]. *)
Theorem calculate_percentiles_spec :
  (forall percentiles, exists m,
      calculate_percentiles [] percentiles = Ok m
      /\ forall p, m !! p = if bool_decide (p ∈ percentiles) then Some 0 else None)
  /\ (forall values percentiles,
        values <> [] ->
        Forall (fun p => 0 <= p <= 100)%Z percentiles ->
        exists m,
          calculate_percentiles values percentiles = Ok m
          /\ forall p, p ∈ percentiles ->
               exists v, np_percentile values p = Ok v /\ m !! p = Some v)
  /\ (forall values p,
        values <> [] -> (0 <= p <= 100)%Z -> existsb is_nan values = false ->
        let sorted := np_sort values in
        let n := Z.of_nat (length sorted) in
        let rank := float_of_Z (n - 1) * (float_of_Z p / 100) in
        let lower := fst (get_indexes n rank) in
        let upper := snd (get_indexes n rank) in
        np_percentile values p =
        Ok (lerp (take_index sorted lower) (take_index sorted upper)
              (rank - float_of_Z lower)))
  /\ calculate_percentiles [10; 20; 30; 40; 50] [50%Z] = Ok {[ 50%Z := 30 ]}
  /\ calculate_percentiles [40; 10; 50; 30; 20] [0; 25; 50; 95; 100]%Z
     = Ok (<[100%Z := 50]> (<[95%Z := 48]> (<[50%Z := 30]>
             (<[25%Z := 20]> {[ 0%Z := 10 ]})))).
Proof.
  split; [|split; [|split; [|split]]].
  - intros ps. unfold calculate_percentiles. simpl.
    destruct (dict_comprehension_ok (fun _ => Ok 0) ps) with (acc := (∅ : gmap Z float))
      as (m & Hm & Hlook); [intros; eauto|].
    exists m. split; [exact Hm|]. intros p. case_bool_decide as Hin.
    + destruct (proj1 (Hlook p) Hin) as (v & Hv & Hp). now inversion Hv; subst.
    + rewrite (proj2 (Hlook p) Hin). apply lookup_empty.
  - intros values ps Hne Hall. unfold calculate_percentiles.
    destruct values as [|x values]; [contradiction|]. simpl is_empty. cbv iota.
    destruct (dict_comprehension_ok (fun p => np_percentile (x :: values) p) ps)
      with (acc := (∅ : gmap Z float)) as (m & Hm & Hlook).
    + intros p Hin. rewrite Forall_forall in Hall.
      unfold np_percentile. rewrite (percentile_in_range p (Hall p Hin)).
      destruct (existsb is_nan (x :: values) || is_empty (x :: values));
        eexists; reflexivity.
    + exists m. split; [exact Hm|]. intros p Hin. apply (proj1 (Hlook p) Hin).
  - intros values p Hne Hp Hnan sorted n rank lower upper. unfold np_percentile.
    rewrite (percentile_in_range p Hp), Hnan.
    destruct values as [|x values]; [contradiction|]. simpl is_empty. simpl orb.
    reflexivity.
  - vm_compute. reflexivity.
  - vm_compute. reflexivity.
Qed.

Lemma calculate_percentiles_witness :
  (exists m,
      calculate_percentiles [3; 1; 2] [50%Z] = Ok m
      /\ forall p, p ∈ [50%Z] ->
           exists v, np_percentile [3; 1; 2] p = Ok v /\ m !! p = Some v)
  /\ np_percentile [3; 1; 2] 75
     = Ok (lerp (take_index [1; 2; 3] 1) (take_index [1; 2; 3] 2) 0.5).
Proof.
  split.
  - apply (proj1 (proj2 calculate_percentiles_spec) [3; 1; 2] [50%Z]).
    + discriminate.
    + repeat constructor; lia.
  - apply (proj1 (proj2 (proj2 calculate_percentiles_spec)) [3; 1; 2] 75%Z).
    + discriminate.
    + lia.
    + reflexivity.
Defined.

(** C9.  [calculate_stddev] returns 0.0 for fewer than two values and
    otherwise the sample standard deviation: the square root of the sum of
    squared deviations from the mean divided by [n - 1].  On [80, 120] it is
    28.2843 to four decimals and the coefficient of variation is 28.28 to two
    decimals; the coefficient of variation is 0.0 whenever the mean is 0. *)
Theorem calculate_stddev_spec :
  (forall values, (length values < 2)%nat -> calculate_stddev values = 0)
  /\ (forall x, calculate_stddev [x] = 0)
  /\ (forall values, (2 <= length values)%nat ->
        let n := length values in
        let mean := np_sum values / float_of_nat n in
        calculate_stddev values =
        PrimFloat.sqrt
          (np_sum (map (fun v => (v - mean) * (v - mean)) values)
           / float_of_Z (Z.of_nat n - 1)))
  /\ calculate_stddev [80; 120] = 28.284271247461902
  /\ PrimFloat.ltb (abs (calculate_stddev [80; 120] - 28.2843)) 0.00005 = true
  /\ PrimFloat.ltb
       (abs (calculate_coefficient_of_variation [80; 120] - 28.28)) 0.005 = true
  /\ (forall values,
        PrimFloat.eqb (calculate_mean values) 0 = true ->
        calculate_coefficient_of_variation values = 0).
Proof.
  repeat split.
  - intros values Hlen. unfold calculate_stddev.
    apply Nat.ltb_lt in Hlen. now rewrite Hlen.
  - intros values Hlen n mean. unfold calculate_stddev, np_std.
    assert (Hge : (length values <? 2)%nat = false) by (apply Nat.ltb_ge; exact Hlen).
    rewrite Hge. fold n. fold mean.
    rewrite map_map. replace (Z.max (Z.of_nat n - 1) 0) with (Z.of_nat n - 1)%Z by lia.
    reflexivity.
  - intros values Hmean. unfold calculate_coefficient_of_variation.
    now rewrite Hmean.
Qed.

Lemma calculate_stddev_witness :
  calculate_stddev [7] = 0
  /\ calculate_stddev [80; 120]
     = PrimFloat.sqrt
         (np_sum (map (fun v => (v - 100) * (v - 100)) [80; 120]) / 1)
  /\ calculate_coefficient_of_variation [-5; 5] = 0.
Proof.
  split; [|split].
  - apply (proj1 calculate_stddev_spec [7]). simpl. lia.
  - apply (proj1 (proj2 (proj2 calculate_stddev_spec)) [80; 120]). simpl. lia.
  - apply (proj2 (proj2 (proj2 (proj2 (proj2 (proj2 calculate_stddev_spec))))) [-5; 5]).
    reflexivity.
Defined.

(** *** Percentile keys and range errors *)

(** The one exception of [np.percentile]. *)
Definition percentile_error : exn :=
  Exn "ValueError" "Percentiles must be in the range [0, 100]".

(** NumPy's range test on [q = p / 100], true when [q] is refused. *)
Definition out_of_range (p : Z) : bool :=
  negb (PrimFloat.leb 0 (float_of_Z p / 100)
        && PrimFloat.leb (float_of_Z p / 100) 1).

Lemma np_percentile_cases (values : list float) (p : Z) :
  (out_of_range p = true /\ np_percentile values p = Raise percentile_error)
  \/ (out_of_range p = false /\ exists v, np_percentile values p = Ok v).
Proof.
  unfold np_percentile, out_of_range.
  destruct (negb _).
  - left. split; reflexivity.
  - right. split; [reflexivity|].
    destruct (existsb is_nan values || is_empty values); eexists; reflexivity.
Qed.

Lemma dict_comprehension_dom (f : Z -> result float) (ps : list Z) :
  forall acc m,
    dict_comprehension f ps acc = Ok m ->
    dom m = dom acc ∪ list_to_set ps.
Proof.
  induction ps as [|p ps IH]; intros acc m Hm.
  - simpl in Hm. inversion Hm; subst.
    now rewrite list_to_set_nil, (right_id_L ∅ (∪)).
  - simpl in Hm. destruct (f p) as [v|e]; [|discriminate]. simpl in Hm.
    rewrite (IH _ _ Hm), dom_insert_L, list_to_set_cons.
    rewrite (comm_L (∪) {[p]} (dom acc)), (assoc_L (∪)). reflexivity.
Qed.

Lemma dict_comprehension_raises (f : Z -> result float) (e : exn)
    (ps : list Z) (p : Z) :
  (forall q e', f q = Raise e' -> e' = e) ->
  p ∈ ps -> f p = Raise e ->
  forall acc, dict_comprehension f ps acc = Raise e.
Proof.
  intros Hone. induction ps as [|q ps IH]; intros Hin Hp acc.
  - inversion Hin.
  - simpl. destruct (f q) as [v|e'] eqn:Hq.
    + simpl. apply IH; [|exact Hp].
      apply elem_of_cons in Hin as [->|Hin]; [congruence | exact Hin].
    + simpl. now rewrite (Hone q e' Hq).
Qed.

(** [f] holds on the [n] integers from [start] on. *)
Fixpoint all_from (f : Z -> bool) (start : Z) (n : nat) : bool :=
  match n with
  | O => true
  | S k => f start && all_from f (start + 1)%Z k
  end.

Lemma all_from_spec (f : Z -> bool) (n : nat) :
  forall start, all_from f start n = true ->
  forall p, (start <= p < start + Z.of_nat n)%Z -> f p = true.
Proof.
  induction n as [|n IH]; intros start Hall p Hp; [lia|].
  simpl in Hall. apply andb_true_iff in Hall as [Hs Hrest].
  destruct (Z.eq_dec p start) as [->|Hne]; [exact Hs|].
  apply (IH (start + 1)%Z Hrest). lia.
Qed.

Lemma out_of_range_integers (p : Z) :
  (-10000 <= p < 0 \/ 100 < p <= 10000)%Z -> out_of_range p = true.
Proof.
  intros [Hp|Hp].
  - apply (all_from_spec out_of_range (Z.to_nat 10000) (-10000)%Z); [|lia].
    vm_compute. reflexivity.
  - apply (all_from_spec out_of_range (Z.to_nat 9900) 101%Z); [|lia].
    vm_compute. reflexivity.
Qed.

(** X3.  The dict returned by [calculate_percentiles] has exactly the
    requested percentiles as keys.  On empty input no percentile is checked:
    the call returns whatever is requested.  On non-empty input a requested
    percentile that NumPy's range test refuses makes the call, and
    [calculate_latency_statistics] with it, raise [ValueError]; the test
    refuses every integer from -10000 to -1 and from 101 to 10000. *)
Theorem calculate_percentiles_keys_and_errors :
  (forall values percentiles m,
      calculate_percentiles values percentiles = Ok m ->
      dom m = list_to_set percentiles)
  /\ (forall percentiles, exists m, calculate_percentiles [] percentiles = Ok m)
  /\ (forall values percentiles p,
        values <> [] -> p ∈ percentiles -> out_of_range p = true ->
        calculate_percentiles values percentiles = Raise percentile_error
        /\ calculate_latency_statistics values (Some percentiles)
           = Raise percentile_error)
  /\ (forall p, (-10000 <= p < 0 \/ 100 < p <= 10000)%Z -> out_of_range p = true).
Proof.
  split; [|split; [|split]].
  - intros values ps m Hm. unfold calculate_percentiles in Hm.
    destruct (is_empty values);
      apply dict_comprehension_dom in Hm; rewrite Hm, dom_empty_L;
      apply (left_id_L ∅ (∪)).
  - intros ps. unfold calculate_percentiles. simpl.
    destruct (dict_comprehension_ok (fun _ => Ok 0) ps) with (acc := (∅ : gmap Z float))
      as (m & Hm & _); [intros; eauto|].
    exists m. exact Hm.
  - intros values ps p Hne Hin Hout.
    assert (Hraise : calculate_percentiles values ps = Raise percentile_error).
    { unfold calculate_percentiles.
      destruct values as [|x values]; [contradiction|]. simpl is_empty. cbv iota.
      apply dict_comprehension_raises with (p := p).
      - intros q e' Hq.
        destruct (np_percentile_cases (x :: values) q) as [[_ Hr]|[_ [v Hv]]];
          congruence.
      - exact Hin.
      - destruct (np_percentile_cases (x :: values) p) as [[_ Hr]|[Hf _]];
          [exact Hr | congruence]. }
    split; [exact Hraise|].
    unfold calculate_latency_statistics. simpl default.
    destruct values as [|x values]; [contradiction|]. simpl is_empty. cbv iota.
    rewrite Hraise. reflexivity.
  - exact out_of_range_integers.
Qed.

Lemma calculate_percentiles_keys_and_errors_witness :
  (exists m, calculate_percentiles [3; 1; 2] [50; 95; 50]%Z = Ok m
             /\ dom m = list_to_set [50; 95; 50]%Z)
  /\ calculate_percentiles [3; 1; 2] [50; 150]%Z = Raise percentile_error
  /\ calculate_latency_statistics [3; 1; 2] (Some [50; 150]%Z) = Raise percentile_error
  /\ out_of_range (-1) = true.
Proof.
  split; [|split; [|split]].
  - eexists. split; [vm_compute; reflexivity|].
    apply (proj1 calculate_percentiles_keys_and_errors [3; 1; 2] [50; 95; 50]%Z).
    vm_compute. reflexivity.
  - apply (proj1 (proj2 (proj2 calculate_percentiles_keys_and_errors))
             [3; 1; 2] [50; 150]%Z 150%Z); [discriminate | | reflexivity];
      apply elem_of_cons; right; apply elem_of_cons; now left.
  - apply (proj1 (proj2 (proj2 calculate_percentiles_keys_and_errors))
             [3; 1; 2] [50; 150]%Z 150%Z); [discriminate | | reflexivity];
      apply elem_of_cons; right; apply elem_of_cons; now left.
  - apply (proj2 (proj2 (proj2 calculate_percentiles_keys_and_errors)) (-1)%Z). lia.
Defined.

(** *** calculate_latency_statistics *)

(** The percentile that [calculate_latency_statistics] reports in the field
    for [p], for [p] among 50, 90, 95 and 99. *)
Definition reported (s : LatencyStatistics) (p : Z) : float :=
  if (p =? 50)%Z then p50_ms s
  else if (p =? 90)%Z then p90_ms s
  else if (p =? 95)%Z then p95_ms s
  else p99_ms s.

Lemma calculate_percentiles_lookup (x : float) (rest : list float)
    (percentiles : list Z) :
  Forall (fun p => 0 <= p <= 100)%Z percentiles ->
  exists m,
    calculate_percentiles (x :: rest) percentiles = Ok m
    /\ (forall p, p ∈ percentiles ->
          exists v, np_percentile (x :: rest) p = Ok v /\ m !! p = Some v)
    /\ (forall p, p ∉ percentiles -> m !! p = None).
Proof.
  intros Hall. unfold calculate_percentiles. simpl is_empty. cbv iota.
  destruct (dict_comprehension_ok (fun p => np_percentile (x :: rest) p) percentiles)
    with (acc := (∅ : gmap Z float)) as (m & Hm & Hlook).
  - intros p Hin. rewrite Forall_forall in Hall.
    unfold np_percentile. rewrite (percentile_in_range p (Hall p Hin)).
    destruct (existsb is_nan (x :: rest) || is_empty (x :: rest));
      eexists; reflexivity.
  - exists m. split; [exact Hm|]. split.
    + intros p Hin. apply (proj1 (Hlook p) Hin).
    + intros p Hnin. rewrite (proj2 (Hlook p) Hnin). apply lookup_empty.
Qed.

Lemma calculate_latency_statistics_fields (x : float) (rest : list float)
    (percentiles : option (list Z)) (m : gmap Z float) :
  calculate_percentiles (x :: rest) (default [50; 90; 95; 99]%Z percentiles) = Ok m ->
  calculate_latency_statistics (x :: rest) percentiles
  = Ok {| avg_ms := np_mean (x :: rest);
          min_ms := fold_left minimum rest x;
          max_ms := fold_left maximum rest x;
          std_ms := calculate_stddev (x :: rest);
          p50_ms := default 0 (m !! 50%Z);
          p90_ms := default 0 (m !! 90%Z);
          p95_ms := default 0 (m !! 95%Z);
          p99_ms := default 0 (m !! 99%Z) |}.
Proof.
  intros Hm. unfold calculate_latency_statistics.
  simpl is_empty. cbv iota. rewrite Hm. reflexivity.
Qed.

(** X1.  [calculate_latency_statistics] returns the all-zero summary for an
    empty list, whatever percentiles are asked for.  For a non-empty list
    and the default percentiles it never raises, and the summary holds the
    mean, NumPy's minimum and maximum, the sample standard deviation of
    [calculate_stddev], and NumPy's 50th, 90th, 95th and 99th percentiles of
    the data. *)
Theorem calculate_latency_statistics_default :
  (forall percentiles,
      calculate_latency_statistics [] percentiles
      = Ok {| avg_ms := 0; min_ms := 0; max_ms := 0; std_ms := 0;
              p50_ms := 0; p90_ms := 0; p95_ms := 0; p99_ms := 0 |})
  /\ (forall x rest,
        let latencies := x :: rest in
        exists s,
          calculate_latency_statistics latencies None = Ok s
          /\ avg_ms s = np_mean latencies
          /\ np_min latencies = Ok (min_ms s)
          /\ np_max latencies = Ok (max_ms s)
          /\ std_ms s = calculate_stddev latencies
          /\ np_percentile latencies 50 = Ok (p50_ms s)
          /\ np_percentile latencies 90 = Ok (p90_ms s)
          /\ np_percentile latencies 95 = Ok (p95_ms s)
          /\ np_percentile latencies 99 = Ok (p99_ms s)).
Proof.
  split; [intros [ps|]; reflexivity|].
  intros x rest latencies.
  destruct (calculate_percentiles_lookup x rest [50; 90; 95; 99]%Z)
    as (m & Hm & Hin & _); [repeat constructor; lia|].
  eexists. split; [apply (calculate_latency_statistics_fields x rest None m Hm)|].
  simpl.
  assert (Hp : forall p, p ∈ [50; 90; 95; 99]%Z ->
                np_percentile latencies p = Ok (default 0 (m !! p))).
  { intros p Hp. destruct (Hin p Hp) as (v & Hv & Hl). now rewrite Hl. }
  repeat split; try reflexivity; apply Hp;
    repeat (first [apply list_elem_of_here | apply list_elem_of_further]).
Qed.

(** X2.  With a custom list of percentiles (each from 0 to 100), the field
    of a standard percentile (50, 90, 95, 99) holds NumPy's value when that
    percentile is in the list, and 0.0 when it is not: a percentile left out
    of the request is reported as zero. *)
Theorem calculate_latency_statistics_custom (x : float) (rest : list float)
    (percentiles : list Z) :
  Forall (fun p => 0 <= p <= 100)%Z percentiles ->
  exists s,
    calculate_latency_statistics (x :: rest) (Some percentiles) = Ok s
    /\ forall p, p ∈ [50; 90; 95; 99]%Z ->
         (p ∈ percentiles -> np_percentile (x :: rest) p = Ok (reported s p))
         /\ (p ∉ percentiles -> reported s p = 0).
Proof.
  intros Hall.
  destruct (calculate_percentiles_lookup x rest percentiles Hall)
    as (m & Hm & Hin & Hout).
  eexists. split; [apply (calculate_latency_statistics_fields x rest (Some percentiles) m Hm)|].
  intros p Hp.
  assert (Hrep : reported
                   {| avg_ms := np_mean (x :: rest);
                      min_ms := fold_left minimum rest x;
                      max_ms := fold_left maximum rest x;
                      std_ms := calculate_stddev (x :: rest);
                      p50_ms := default 0 (m !! 50%Z);
                      p90_ms := default 0 (m !! 90%Z);
                      p95_ms := default 0 (m !! 95%Z);
                      p99_ms := default 0 (m !! 99%Z) |} p
                 = default 0 (m !! p)).
  { repeat (apply elem_of_cons in Hp as [->|Hp]; [reflexivity|]).
    inversion Hp. }
  rewrite Hrep. split.
  - intros Hreq. destruct (Hin p Hreq) as (v & Hv & Hl). now rewrite Hl.
  - intros Hnot. now rewrite (Hout p Hnot).
Qed.

Lemma calculate_latency_statistics_custom_witness :
  exists s,
    calculate_latency_statistics [30; 10; 20] (Some [50; 75]%Z) = Ok s
    /\ np_percentile [30; 10; 20] 50 = Ok (p50_ms s)
    /\ p50_ms s = 20
    /\ p90_ms s = 0 /\ p95_ms s = 0 /\ p99_ms s = 0.
Proof.
  destruct (calculate_latency_statistics_custom 30 [10; 20] [50; 75]%Z)
    as (s & Hs & Hrep); [repeat constructor; lia|].
  exists s. split; [exact Hs|].
  assert (H50 : np_percentile [30; 10; 20] 50 = Ok (p50_ms s)).
  { apply (proj1 (Hrep 50%Z ltac:(apply list_elem_of_here))).
    apply list_elem_of_here. }
  split; [exact H50|]. split.
  - vm_compute in H50. now inversion H50.
  - assert (Hno : forall p, p ∈ [90; 95; 99]%Z -> p ∉ [50; 75]%Z).
    { intros p Hp Hq.
      repeat (apply elem_of_cons in Hp as [->|Hp];
              [repeat (apply elem_of_cons in Hq as [Hq|Hq]; [discriminate|]);
               inversion Hq|]).
      inversion Hp. }
    split; [|split].
    + apply (proj2 (Hrep 90%Z ltac:(repeat (first [apply list_elem_of_here | apply list_elem_of_further])))).
      apply Hno. repeat (first [apply list_elem_of_here | apply list_elem_of_further]).
    + apply (proj2 (Hrep 95%Z ltac:(repeat (first [apply list_elem_of_here | apply list_elem_of_further])))).
      apply Hno. repeat (first [apply list_elem_of_here | apply list_elem_of_further]).
    + apply (proj2 (Hrep 99%Z ltac:(repeat (first [apply list_elem_of_here | apply list_elem_of_further])))).
      apply Hno. repeat (first [apply list_elem_of_here | apply list_elem_of_further]).
Defined.

(** X4.  When the mean of two or more measurements is zero, the
    coefficient of variation is taken to be 0.0, so [verify_reproducibility]
    reports the runs as reproducible for every threshold [>= 0], however far
    apart the measurements are. *)
Theorem verify_reproducibility_zero_mean
    (format_2f format_float : float -> string)
    (throughput_values : list float) (max_cv_percent : float) :
  (2 <= length throughput_values)%nat ->
  PrimFloat.eqb (calculate_mean throughput_values) 0 = true ->
  PrimFloat.leb 0 max_cv_percent = true ->
  verify_reproducibility format_2f format_float throughput_values max_cv_percent
  = (true, 0,
     "Variance within limits (CV: " +:+ format_2f 0 +:+ "% <= "
       +:+ format_float max_cv_percent +:+ "%)").
Proof.
  intros Hlen Hmean Hmax. unfold verify_reproducibility.
  assert (Hge : (length throughput_values <? 2)%nat = false)
    by (apply Nat.ltb_ge; exact Hlen).
  rewrite Hge. unfold calculate_coefficient_of_variation.
  rewrite Hmean, Hmax. reflexivity.
Qed.

Lemma verify_reproducibility_zero_mean_witness :
  PrimFloat.ltb 14 (calculate_stddev [-10; 10]) = true
  /\ verify_reproducibility (fun _ => "0.00") (fun _ => "10.0") [-10; 10] 10
     = (true, 0, "Variance within limits (CV: 0.00% <= 10.0%)").
Proof.
  split; [reflexivity|].
  apply (verify_reproducibility_zero_mean (fun _ => "0.00") (fun _ => "10.0")
           [-10; 10] 10); [simpl; lia | reflexivity | reflexivity].
Defined.

(** *** nan among the measurements *)

Lemma Prim2SF_nan : Prim2SF nan = S754_nan.
Proof. reflexivity. Qed.

Lemma SFcompare_refl (x : spec_float) :
  x <> S754_nan -> SFcompare x x = Some Eq.
Proof.
  destruct x as [s|s| |s m e]; simpl; intros H; try reflexivity;
    try (now destruct s); [contradiction|].
  change (PosDef.Pos.compare_cont Eq m m) with (Pos.compare m m).
  rewrite Z.compare_refl, Pos.compare_refl. now destruct s.
Qed.

Lemma is_nan_eq (x : float) : is_nan x = true -> x = nan.
Proof.
  unfold is_nan. intros H. apply negb_true_iff in H.
  rewrite FloatAxioms.eqb_spec in H. unfold SFeqb in H.
  apply Prim2SF_inj. rewrite Prim2SF_nan.
  destruct (Prim2SF x) as [s|s| |s m e] eqn:Hx; try reflexivity;
    rewrite SFcompare_refl in H by discriminate; discriminate.
Qed.

Lemma add_nan_l (x : float) : nan + x = nan.
Proof. apply Prim2SF_inj. now rewrite FloatAxioms.add_spec, Prim2SF_nan. Qed.

Lemma add_nan_r (x : float) : x + nan = nan.
Proof.
  apply Prim2SF_inj. rewrite FloatAxioms.add_spec, Prim2SF_nan.
  now destruct (Prim2SF x).
Qed.

Lemma sub_nan_r (x : float) : x - nan = nan.
Proof.
  apply Prim2SF_inj. rewrite FloatAxioms.sub_spec, Prim2SF_nan.
  now destruct (Prim2SF x).
Qed.

Lemma mul_nan_l (x : float) : nan * x = nan.
Proof. apply Prim2SF_inj. now rewrite FloatAxioms.mul_spec, Prim2SF_nan. Qed.

Lemma div_nan_l (x : float) : nan / x = nan.
Proof. apply Prim2SF_inj. now rewrite FloatAxioms.div_spec, Prim2SF_nan. Qed.

Lemma div_nan_r (x : float) : x / nan = nan.
Proof.
  apply Prim2SF_inj. rewrite FloatAxioms.div_spec, Prim2SF_nan.
  now destruct (Prim2SF x).
Qed.

Lemma fold_add_nan (r : list float) : fold_left PrimFloat.add r nan = nan.
Proof. induction r as [|y r IH]; [reflexivity|]. simpl. now rewrite add_nan_l. Qed.

Lemma fold_add_has_nan (r : list float) (x : float) :
  existsb is_nan (x :: r) = true -> fold_left PrimFloat.add r x = nan.
Proof.
  revert x. induction r as [|y r IH]; intros x H.
  - simpl in H. rewrite orb_false_r in H. now apply is_nan_eq.
  - simpl. simpl in H. apply orb_true_iff in H as [Hx|H].
    + apply is_nan_eq in Hx. subst x. rewrite add_nan_l. apply fold_add_nan.
    + apply orb_true_iff in H as [Hy|H].
      * apply is_nan_eq in Hy. subst y. rewrite add_nan_r. apply fold_add_nan.
      * apply IH. simpl. rewrite H. apply orb_true_r.
Qed.

Lemma np_sum_nan (a : list float) : existsb is_nan a = true -> np_sum a = nan.
Proof.
  destruct a as [|x r]; [discriminate|]. apply fold_add_has_nan.
Qed.

Lemma sqrt_nan : PrimFloat.sqrt nan = nan.
Proof. reflexivity. Qed.

Lemma leb_nan_l (x : float) : PrimFloat.leb nan x = false.
Proof. now rewrite FloatAxioms.leb_spec, Prim2SF_nan. Qed.

Lemma fold_extremum_nan (f : float -> float -> float) (r : list float) (x : float) :
  (forall y, f nan y = nan) -> (forall y, f y nan = nan) ->
  existsb is_nan (x :: r) = true -> fold_left f r x = nan.
Proof.
  intros Hl Hr. assert (Hfix : forall l, fold_left f l nan = nan).
  { induction l as [|y l IH]; [reflexivity|]. simpl. now rewrite Hl. }
  revert x. induction r as [|y r IH]; intros x H.
  - simpl in H. rewrite orb_false_r in H. now apply is_nan_eq.
  - simpl. simpl in H. apply orb_true_iff in H as [Hx|H].
    + apply is_nan_eq in Hx. subst x. now rewrite Hl.
    + apply orb_true_iff in H as [Hy|H].
      * apply is_nan_eq in Hy. subst y. now rewrite Hr.
      * apply IH. simpl. rewrite H. apply orb_true_r.
Qed.

Lemma calculate_mean_nan (values : list float) :
  existsb is_nan values = true -> calculate_mean values = nan.
Proof.
  intros H. unfold calculate_mean, np_mean.
  destruct values as [|x r]; [discriminate|]. simpl is_empty. cbv iota.
  rewrite (np_sum_nan _ H). apply div_nan_l.
Qed.

Lemma calculate_stddev_nan (values : list float) :
  existsb is_nan values = true -> (2 <= length values)%nat ->
  calculate_stddev values = nan.
Proof.
  intros H Hlen. unfold calculate_stddev, np_std.
  assert (Hge : (length values <? 2)%nat = false) by (apply Nat.ltb_ge; exact Hlen).
  rewrite Hge, (np_sum_nan _ H), div_nan_l.
  destruct values as [|x r]; [discriminate|].
  rewrite np_sum_nan; [now rewrite div_nan_l, sqrt_nan|].
  simpl. now rewrite sub_nan_r.
Qed.

(** X26.  A nan among the measurements spreads to every figure: the mean
    is nan; with two or more values the standard deviation and the
    coefficient of variation are nan and [verify_reproducibility] answers
    [False] with the "Variance too high" message, whatever the threshold;
    and [calculate_latency_statistics] returns nan for the mean, the minimum,
    the maximum and the four percentiles. *)
Theorem nan_measurement_contaminates (values : list float) :
  existsb is_nan values = true ->
  calculate_mean values = nan
  /\ ((2 <= length values)%nat ->
      calculate_stddev values = nan
      /\ calculate_coefficient_of_variation values = nan
      /\ forall format_2f format_float max_cv_percent,
           verify_reproducibility format_2f format_float values max_cv_percent
           = (false, nan,
              "Variance too high (CV: " +:+ format_2f nan +:+ "% > "
                +:+ format_float max_cv_percent +:+ "%)"))
  /\ exists s,
       calculate_latency_statistics values None = Ok s
       /\ avg_ms s = nan /\ min_ms s = nan /\ max_ms s = nan
       /\ p50_ms s = nan /\ p90_ms s = nan /\ p95_ms s = nan /\ p99_ms s = nan.
Proof.
  intros H. pose proof (calculate_mean_nan values H) as Hmean.
  split; [exact Hmean|]. split.
  - intros Hlen. pose proof (calculate_stddev_nan values H Hlen) as Hstd.
    assert (Hcv : calculate_coefficient_of_variation values = nan).
    { unfold calculate_coefficient_of_variation. rewrite Hmean, Hstd. reflexivity. }
    split; [exact Hstd|]. split; [exact Hcv|].
    intros format_2f format_float max_cv_percent. unfold verify_reproducibility.
    assert (Hge : (length values <? 2)%nat = false) by (apply Nat.ltb_ge; exact Hlen).
    now rewrite Hge, Hcv, leb_nan_l.
  - destruct values as [|x rest]; [discriminate|].
    destruct (calculate_percentiles_lookup x rest [50; 90; 95; 99]%Z)
      as (m & Hm & Hin & _); [repeat constructor; lia|].
    eexists. split; [apply (calculate_latency_statistics_fields x rest None m Hm)|].
    simpl avg_ms. simpl min_ms. simpl max_ms.
    simpl p50_ms. simpl p90_ms. simpl p95_ms. simpl p99_ms.
    assert (Hp : forall p, p ∈ [50; 90; 95; 99]%Z -> default 0 (m !! p) = nan).
    { intros p Hp. destruct (Hin p Hp) as (v & Hv & ->). simpl.
      unfold np_percentile in Hv.
      destruct (negb _); [discriminate|]. rewrite H in Hv. simpl in Hv.
      now inversion Hv. }
    split; [unfold calculate_mean in Hmean; exact Hmean|].
    split; [apply fold_extremum_nan; [reflexivity | | exact H];
            intros y; unfold minimum; now rewrite orb_true_r|].
    split; [apply fold_extremum_nan; [reflexivity | | exact H];
            intros y; unfold maximum; now rewrite orb_true_r|].
    repeat split; apply Hp;
      repeat (first [apply list_elem_of_here | apply list_elem_of_further]).
Qed.

Lemma nan_measurement_contaminates_witness :
  calculate_mean [100; nan; 102] = nan
  /\ verify_reproducibility (fun _ => "nan") (fun _ => "10.0") [100; nan; 102] 10
     = (false, nan, "Variance too high (CV: nan% > 10.0%)").
Proof.
  destruct (nan_measurement_contaminates [100; nan; 102] eq_refl)
    as (Hmean & Hcheck & _).
  split; [exact Hmean|].
  destruct Hcheck as (_ & _ & Hverify); [simpl; lia|].
  apply (Hverify (fun _ => "nan") (fun _ => "10.0") 10).
Defined.

End CalculatorSpec.

(** ** benchmark/metrics/collector.py *)

Module CollectorSpec.
Import Collector.
Local Open Scope float_scope.

(** The query failed, or it returned no series: [query_prometheus] gave
    [None], or a falsy value, or a dict whose ["result"] is missing or
    falsy (an empty list). *)
Definition unavailable (result : option json) : Prop :=
  match result with
  | None => True
  | Some r =>
      truthy r = false
      \/ exists fields,
           r = JObj fields
           /\ truthy (default JNull (assoc "result" fields)) = false
  end.

(** The first series of the reply carries no samples: its ["values"] is
    missing or falsy (an empty list). *)
Definition no_samples (result : option json) : Prop :=
  exists fields first rest first_fields,
    result = Some (JObj fields)
    /\ assoc "result" fields = Some (JArr (first :: rest))
    /\ first = JObj first_fields
    /\ truthy (default (JArr []) (assoc "values" first_fields)) = false.

Section Facts.

Variable float_of_string : string -> option float.

Lemma metric_value_unavailable (result : option json) :
  unavailable result -> metric_value float_of_string result = Ok None.
Proof.
  destruct result as [r|]; [|reflexivity].
  intros [Hfalsy | (fields & -> & Hres)]; unfold metric_value.
  - now rewrite Hfalsy.
  - destruct (truthy (JObj fields)); [|reflexivity].
    simpl. now rewrite Hres.
Qed.

Lemma metric_value_no_samples (result : option json) :
  no_samples result -> metric_value float_of_string result = Ok (Some 0).
Proof.
  intros (fields & first & rest & ffields & -> & Hres & -> & Hvals).
  assert (Ht : truthy (JObj fields) = true)
    by (destruct fields; [discriminate | reflexivity]).
  unfold metric_value. rewrite Ht.
  simpl. rewrite !Hres. simpl. now rewrite Hvals.
Qed.

Lemma metric_value_None_inv (result : option json) :
  metric_value float_of_string result = Ok None -> unavailable result.
Proof.
  destruct result as [r|]; [|intros _; exact I].
  unfold metric_value. simpl.
  destruct (truthy r) eqn:Hr; [|intros _; now left].
  destruct r as [| | | | | |fields]; simpl; try discriminate.
  destruct (truthy (default JNull (assoc "result" fields))) eqn:Hres.
  - destruct (assoc "result" fields) as [series|]; simpl; [|discriminate].
    destruct (subscript series 0) as [first|]; simpl; [|discriminate].
    destruct (dict_get first "values" (JArr [])) as [values|]; simpl; [|discriminate].
    destruct (truthy values); [|discriminate].
    destruct (numeric_values_of float_of_string values) as [nv|]; simpl; [|discriminate].
    destruct (negb (is_empty nv)); discriminate.
  - intros _. right. exists fields. split; [reflexivity | exact Hres].
Qed.

Variable client_get : string -> string -> float -> float -> http_result.
Variable time_before time_after : float.
Variable now_isoformat : string.
Variable prometheus_url : string.

(** The range query failed: the HTTP client raised, the status is not a
    2xx one, the body is not JSON, or the reply does not say
    ["status": "success"]. *)
Definition query_failed (reply : http_result) : Prop :=
  match reply with
  | HttpRaise _ => True
  | HttpResponse status_code json_body =>
      ~ (200 <= status_code < 300)%Z
      \/ match json_body with
         | Raise _ => True
         | Ok data =>
             match dict_get data "status" JNull with
             | Ok status => equals_str status "success" = false
             | Raise _ => True
             end
         end
  end.

Lemma query_prometheus_failed (query : string) (start_time end_time : float) :
  query_failed
    (client_get (prometheus_url +:+ "/api/v1/query_range") query
       start_time end_time) ->
  query_prometheus client_get prometheus_url query start_time end_time = None.
Proof.
  unfold query_failed, query_prometheus, query_prometheus_body.
  destruct (client_get _ query start_time end_time) as [e|status_code json_body];
    [reflexivity|].
  unfold raise_for_status.
  destruct ((200 <=? status_code)%Z && (status_code <? 300)%Z) eqn:Hrange;
    [|reflexivity].
  intros [Hstatus|Hbody].
  - apply andb_true_iff in Hrange as [Hlo Hhi].
    apply Z.leb_le in Hlo. apply Z.ltb_lt in Hhi. lia.
  - simpl. destruct json_body as [data|e]; [|reflexivity]. simpl.
    destruct (dict_get data "status" JNull) as [status|e]; [|reflexivity].
    simpl. now rewrite Hbody.
Qed.

(** What the loop stores for a metric whose template is [template]. *)
Definition stored (d : Z) (start_buffered end_buffered : float)
    (template : string) : result (option float) :=
  metric_value float_of_string
    (query_prometheus client_get prometheus_url
       (format_duration template d) start_buffered end_buffered).

Lemma collect_loop_lookup (queries : list (string * string))
    (duration sb eb : float) (d : Z) :
  int_of_float duration = Ok d ->
  NoDup (map fst queries) ->
  forall acc m,
    collect_loop client_get float_of_string prometheus_url
      queries duration sb eb acc = Ok m ->
    (forall name template, (name, template) ∈ queries ->
       exists v, stored d sb eb template = Ok v /\ m !! name = Some v)
    /\ (forall name, name ∉ map fst queries -> m !! name = acc !! name).
Proof.
  intros Hd. induction queries as [|[name0 template0] queries IH];
    intros Hnd acc m Hloop.
  - simpl in Hloop. inversion Hloop; subst. split.
    + intros name template Hin. inversion Hin.
    + reflexivity.
  - simpl in Hloop. rewrite Hd in Hloop. simpl in Hloop.
    fold (stored d sb eb template0) in Hloop.
    destruct (stored d sb eb template0) as [v0|e] eqn:Hv0; [|discriminate].
    simpl in Hloop. simpl in Hnd. apply NoDup_cons in Hnd as [Hfresh Hnd].
    destruct (IH Hnd _ _ Hloop) as [Hin Hout]. split.
    + intros name template Hmem. apply elem_of_cons in Hmem as [Heq|Hmem].
      * inversion Heq; subst. exists v0. split; [exact Hv0|].
        rewrite (Hout name0 Hfresh). apply lookup_insert_eq.
      * apply Hin. exact Hmem.
    + intros name Hnot. simpl in Hnot. apply not_elem_of_cons in Hnot as [Hne Hnot].
      rewrite (Hout name Hnot). now apply lookup_insert_ne.
Qed.

Lemma collect_loop_ok (queries : list (string * string))
    (duration sb eb : float) (d : Z) :
  int_of_float duration = Ok d ->
  (forall name template, (name, template) ∈ queries ->
     exists v, stored d sb eb template = Ok v) ->
  forall acc, exists m,
    collect_loop client_get float_of_string prometheus_url
      queries duration sb eb acc = Ok m.
Proof.
  intros Hd. induction queries as [|[name0 template0] queries IH];
    intros Hall acc.
  - exists acc. reflexivity.
  - destruct (Hall name0 template0) as [v0 Hv0]; [apply elem_of_cons; now left|].
    destruct (IH (fun n t Hin => Hall n t (proj2 (elem_of_cons _ _ _) (or_intror Hin)))
                (<[name0 := v0]> acc)) as [m Hm].
    exists m. simpl. rewrite Hd. simpl.
    fold (stored d sb eb template0). rewrite Hv0. exact Hm.
Qed.

Lemma VLLM_QUERIES_NoDup : NoDup (map fst VLLM_QUERIES).
Proof. apply (bool_decide_unpack _). vm_compute. exact I. Qed.

(** C2, as the code has it.  Let the test duration convert to an integer.
    If [collect_vllm_metrics] returns, then for every metric of the query
    table its value is [None] exactly when the range query gave nothing or
    returned no series, in particular when the query failed, and it is 0.0
    (not [None]) when the first series carries no samples.  And the
    collection does return when every metric is in one of these two
    situations. *)
Theorem collect_vllm_metrics_null_iff_unavailable
    (test_start_time test_end_time : float) (d : Z) :
  int_of_float (test_end_time - test_start_time) = Ok d ->
  let result_of template :=
    query_prometheus client_get prometheus_url (format_duration template d)
      (test_start_time - 5) (test_end_time + 5) in
  let collected :=
    collect_vllm_metrics client_get float_of_string time_before time_after
      now_isoformat prometheus_url test_start_time test_end_time in
  (forall pm, collected = Ok pm ->
     forall name template, (name, template) ∈ VLLM_QUERIES ->
       (metrics pm !! name = Some None <-> unavailable (result_of template))
       /\ (query_failed
             (client_get (prometheus_url +:+ "/api/v1/query_range")
                (format_duration template d)
                (test_start_time - 5) (test_end_time + 5)) ->
           metrics pm !! name = Some None)
       /\ (no_samples (result_of template) ->
           metrics pm !! name = Some (Some 0)))
  /\ ((forall name template, (name, template) ∈ VLLM_QUERIES ->
         unavailable (result_of template) \/ no_samples (result_of template)) ->
      exists pm, collected = Ok pm).
Proof.
  intros Hd result_of collected. split.
  - intros pm Hpm name template Hin.
    unfold collected, collect_vllm_metrics in Hpm.
    destruct (collect_loop client_get float_of_string prometheus_url VLLM_QUERIES
                (test_end_time - test_start_time) (test_start_time - 5)
                (test_end_time + 5) ∅) as [m|e] eqn:Hloop; [|discriminate].
    simpl in Hpm. inversion Hpm; subst pm. simpl.
    destruct (collect_loop_lookup _ _ _ _ _ Hd VLLM_QUERIES_NoDup _ _ Hloop)
      as [Hlook _].
    destruct (Hlook name template Hin) as (v & Hv & Hm). rewrite Hm.
    unfold stored in Hv. fold (result_of template) in Hv.
    split; [split|split].
    + intros Hnone. inversion Hnone; subst v.
      exact (metric_value_None_inv _ Hv).
    + intros Hun. rewrite (metric_value_unavailable _ Hun) in Hv. congruence.
    + intros Hfail. apply query_prometheus_failed in Hfail.
      fold (result_of template) in Hfail. rewrite Hfail in Hv.
      simpl in Hv. congruence.
    + intros Hns. rewrite (metric_value_no_samples _ Hns) in Hv. congruence.
  - intros Hall.
    destruct (collect_loop_ok VLLM_QUERIES _ (test_start_time - 5)
                (test_end_time + 5) d Hd) with (acc := (∅ : gmap string (option float)))
      as [m Hm].
    + intros name template Hin. unfold stored. fold (result_of template).
      destruct (Hall name template Hin) as [Hun|Hns].
      * exists None. exact (metric_value_unavailable _ Hun).
      * exists (Some 0%float). exact (metric_value_no_samples _ Hns).
    + eexists. unfold collected, collect_vllm_metrics. rewrite Hm. reflexivity.
Qed.

End Facts.

(** A backend that cannot be reached: every request raises. *)
Definition unreachable_backend (url query : string) (start_time end_time : float)
    : http_result :=
  HttpRaise (Exn "ConnectError" "All connection attempts failed").

(** A backend that answers every range query with one series that has no
    samples. *)
Definition empty_series_backend (url query : string)
    (start_time end_time : float) : http_result :=
  HttpResponse 200
    (Ok (JObj [ ("status", JStr "success");
                ("data", JObj [ ("resultType", JStr "matrix");
                                ("result",
                                 JArr [ JObj [ ("metric", JObj []);
                                               ("values", JArr []) ] ]) ]) ])).

Lemma collect_vllm_metrics_witness :
  int_of_float (1060 - 1000) = Ok 60%Z
  /\ exists pm,
      collect_vllm_metrics unreachable_backend (fun _ => None) 2000 2001
        "2026-01-01T00:00:00" "http://localhost:9090" 1000 1060 = Ok pm
      /\ forall name template, (name, template) ∈ VLLM_QUERIES ->
           metrics pm !! name = Some None.
Proof.
  split; [reflexivity|].
  pose proof (collect_vllm_metrics_null_iff_unavailable (fun _ => None)
                unreachable_backend 2000 2001 "2026-01-01T00:00:00"
                "http://localhost:9090" 1000 1060 60 eq_refl) as [Hvalues Hreturns].
  destruct Hreturns as [pm Hpm].
  - intros name template _. left. exact I.
  - exists pm. split; [exact Hpm|]. intros name template Hin.
    apply (Hvalues pm Hpm name template Hin). exact I.
Defined.

(** C2 as stated fails: against a backend whose series carry no samples, the
    collector stores 0.0 for the metric, not [None]. *)
Lemma collect_vllm_metrics_no_samples_is_zero :
  no_samples
    (query_prometheus empty_series_backend "http://localhost:9090"
       (format_duration "avg(vllm:waiting_queue_size)" 60) (1000 - 5) (1060 + 5))
  /\ exists pm,
      collect_vllm_metrics empty_series_backend (fun _ => None) 2000 2001
        "2026-01-01T00:00:00" "http://localhost:9090" 1000 1060 = Ok pm
      /\ metrics pm !! "queue_size" = Some (Some 0)
      /\ metrics pm !! "queue_size" <> Some None.
Proof.
  split.
  - eexists _, _, _, _. repeat split; reflexivity.
  - eexists. split; [vm_compute; reflexivity|].
    split; [vm_compute; reflexivity | vm_compute; discriminate].
Qed.

(** *** query_prometheus *)

Section QueryFacts.

Variable client_get : string -> string -> float -> float -> http_result.
Variable float_of_string : string -> option float.
Variable time_before time_after : float.
Variable now_isoformat : string.
Variable prometheus_url : string.

(** X5.  [query_prometheus] hands back the reply's ["data"] entry (the empty
    dict when the key is missing) exactly when the HTTP client answered with
    a 2xx status and a JSON object whose ["status"] is ["success"].  In every
    other case (the client raised, another status, a body that is not JSON
    or not an object, another status value) it returns [None]. *)
Theorem query_prometheus_returns (query : string) (start_time end_time : float)
    (d : json) :
  query_prometheus client_get prometheus_url query start_time end_time = Some d
  <-> exists status_code fields,
        client_get (prometheus_url +:+ "/api/v1/query_range") query
          start_time end_time
        = HttpResponse status_code (Ok (JObj fields))
        /\ (200 <= status_code < 300)%Z
        /\ assoc "status" fields = Some (JStr "success")
        /\ d = default (JObj []) (assoc "data" fields).
Proof.
  unfold query_prometheus, query_prometheus_body, raise_for_status.
  destruct (client_get _ query start_time end_time) as [e|status_code json_body].
  { split; [discriminate | intros (? & ? & H & _); discriminate]. }
  destruct ((200 <=? status_code)%Z && (status_code <? 300)%Z) eqn:Hrange.
  - apply andb_true_iff in Hrange as [Hlo Hhi].
    apply Z.leb_le in Hlo. apply Z.ltb_lt in Hhi. simpl.
    destruct json_body as [data|e]; simpl.
    2: { split; [discriminate | intros (? & ? & H & _); discriminate]. }
    destruct data as [| | | | | |fields]; simpl;
      try (split; [discriminate | intros (? & ? & H & _); discriminate]).
    destruct (assoc "status" fields) as [status|] eqn:Hstatus; simpl.
    + destruct status as [| | | |s| |]; simpl;
        try (split; [discriminate | intros (? & ? & H & _ & H' & _); inversion H; subst; congruence]).
      destruct (String.eqb s "success") eqn:Hs.
      * apply String.eqb_eq in Hs. subst s. split.
        -- intros H. inversion H; subst. exists status_code, fields.
           repeat split; assumption.
        -- intros (sc & fs & H & _ & _ & ->). now inversion H; subst.
      * apply String.eqb_neq in Hs. split; [discriminate|].
        intros (sc & fs & H & _ & H' & _). inversion H; subst. congruence.
    + split; [discriminate|].
      intros (sc & fs & H & _ & H' & _). inversion H; subst. congruence.
  - split; [discriminate|]. intros (sc & fs & H & [Hlo Hhi] & _).
    inversion H; subst. apply andb_false_iff in Hrange as [Hr|Hr].
    + apply Z.leb_gt in Hr. lia.
    + apply Z.ltb_ge in Hr. lia.
Qed.

End QueryFacts.

(** *** collect_vllm_metrics *)

Section LoopFacts.

Variable float_of_string : string -> option float.
Variable client_get : string -> string -> float -> float -> http_result.
Variable time_before time_after : float.
Variable now_isoformat : string.
Variable prometheus_url : string.

Lemma collect_loop_dom (queries : list (string * string))
    (duration sb eb : float) :
  forall acc m,
    collect_loop client_get float_of_string prometheus_url
      queries duration sb eb acc = Ok m ->
    dom m = dom acc ∪ list_to_set (map fst queries).
Proof.
  induction queries as [|[name template] queries IH]; intros acc m Hm.
  - simpl in Hm. inversion Hm; subst. simpl map.
    now rewrite list_to_set_nil, (right_id_L ∅ (∪)).
  - simpl in Hm. destruct (int_of_float duration) as [d|]; [|discriminate].
    simpl in Hm.
    destruct (metric_value float_of_string _) as [v|]; [|discriminate].
    simpl in Hm. rewrite (IH _ _ Hm), dom_insert_L. simpl map.
    rewrite list_to_set_cons.
    rewrite (comm_L (∪) {[name]} (dom acc)), (assoc_L (∪)). reflexivity.
Qed.

(** The collection returns exactly when the test duration converts to an
    integer and no reply is malformed. *)
Lemma collect_vllm_metrics_returns (test_start_time test_end_time : float) :
  (exists pm,
      collect_vllm_metrics client_get float_of_string time_before time_after
        now_isoformat prometheus_url test_start_time test_end_time = Ok pm)
  <-> exists d,
        int_of_float (test_end_time - test_start_time) = Ok d
        /\ forall name template, (name, template) ∈ VLLM_QUERIES ->
             exists v,
               stored float_of_string client_get prometheus_url d
                 (test_start_time - 5) (test_end_time + 5) template = Ok v.
Proof.
  split.
  - intros [pm Hpm]. unfold collect_vllm_metrics in Hpm.
    destruct (collect_loop client_get float_of_string prometheus_url VLLM_QUERIES
                (test_end_time - test_start_time) (test_start_time - 5)
                (test_end_time + 5) ∅) as [m|e] eqn:Hloop; [|discriminate].
    destruct (int_of_float (test_end_time - test_start_time)) as [d|e] eqn:Hd.
    + exists d. split; [reflexivity|]. intros name template Hin.
      destruct (collect_loop_lookup float_of_string client_get prometheus_url
                  _ _ _ _ d Hd VLLM_QUERIES_NoDup _ _ Hloop) as [Hlook _].
      destruct (Hlook name template Hin) as (v & Hv & _). exists v. exact Hv.
    + simpl in Hloop. rewrite Hd in Hloop. discriminate.
  - intros (d & Hd & Hall).
    destruct (collect_loop_ok float_of_string client_get prometheus_url
                VLLM_QUERIES _ (test_start_time - 5) (test_end_time + 5) d Hd Hall)
      with (acc := (∅ : gmap string (option float))) as [m Hm].
    eexists. unfold collect_vllm_metrics. rewrite Hm. reflexivity.
Qed.

End LoopFacts.

(** A sample of a range query, [[timestamp, "value"]]. *)
Definition range_sample (ts : json * string) : json :=
  JArr [fst ts; JStr (snd ts)].

Section SampleFacts.

Variable float_of_string : string -> option float.
Variable client_get : string -> string -> float -> float -> http_result.
Variable time_before time_after : float.
Variable now_isoformat : string.
Variable prometheus_url : string.

(** The samples that count: those whose value is not the string ["None"],
    as numbers. *)
Definition numeric_samples (samples : list (json * string)) : list float :=
  omap (fun ts => if String.eqb (snd ts) "None" then None
                  else float_of_string (snd ts)) samples.

Lemma numeric_values_loop_samples (samples : list (json * string)) :
  forall fs,
    numeric_values_loop float_of_string (map range_sample samples) = Ok fs ->
    fs = numeric_samples samples.
Proof.
  induction samples as [|[t s] samples IH]; intros fs Hfs.
  - simpl in Hfs. now inversion Hfs.
  - simpl in Hfs. unfold numeric_samples. simpl omap. fold (numeric_samples samples).
    unfold is_not_None_string in Hfs. simpl in Hfs.
    destruct (String.eqb s "None"); simpl in Hfs.
    + apply IH. exact Hfs.
    + destruct (float_of_string s) as [f|]; simpl in Hfs; [|discriminate].
      destruct (numeric_values_loop float_of_string (map range_sample samples))
        as [fs'|] eqn:Hrest; simpl in Hfs; [|discriminate].
      inversion Hfs; subst. now rewrite (IH fs' eq_refl).
Qed.

(** The first sample that is neither ["None"] nor a number aborts the
    comprehension. *)
Lemma numeric_values_loop_malformed (good rest : list (json * string))
    (t : json) (bad : string) :
  Forall (fun ts => snd ts = "None" \/ is_Some (float_of_string (snd ts))) good ->
  bad <> "None" -> float_of_string bad = None ->
  numeric_values_loop float_of_string
    (map range_sample (good ++ (t, bad) :: rest))
  = Raise (Exn "ValueError"
             ("could not convert string to float: '" +:+ bad +:+ "'")).
Proof.
  intros Hgood Hbad Hparse. induction Hgood as [|[t' s] good Hs _ IH].
  - simpl. unfold is_not_None_string. simpl.
    apply String.eqb_neq in Hbad. rewrite Hbad. simpl. now rewrite Hparse.
  - simpl. unfold is_not_None_string. simpl. simpl in Hs.
    destruct (String.eqb s "None") eqn:Hnone; simpl.
    + exact IH.
    + destruct Hs as [->|[f Hf]]; [discriminate|].
      rewrite Hf. simpl. simpl in IH. rewrite IH. reflexivity.
Qed.

(** The reply to a range query whose first series carries [samples]. *)
Definition first_series_has (result : option json)
    (samples : list (json * string)) : Prop :=
  exists fields first_fields rest,
    result = Some (JObj fields)
    /\ assoc "result" fields = Some (JArr (JObj first_fields :: rest))
    /\ assoc "values" first_fields = Some (JArr (map range_sample samples)).

Lemma metric_value_samples (result : option json)
    (samples : list (json * string)) :
  first_series_has result samples ->
  metric_value float_of_string result
  = (fs ← numeric_values_loop float_of_string (map range_sample samples);
     Ok (Some (if is_empty fs then 0
               else py_sum fs / float_of_nat (length fs)))).
Proof.
  intros (fields & first_fields & rest & -> & Hres & Hvals).
  assert (Ht : truthy (JObj fields) = true)
    by (destruct fields; [discriminate | reflexivity]).
  remember (map range_sample samples) as items eqn:Hitems. clear Hitems.
  unfold metric_value. rewrite Ht. simpl. rewrite !Hres. simpl.
  rewrite Hvals. simpl default.
  destruct items as [|v items]; [reflexivity|].
  change (truthy (JArr (v :: items))) with true. cbv iota.
  change (numeric_values_of float_of_string (JArr (v :: items)))
    with (numeric_values_loop float_of_string (v :: items)).
  generalize (numeric_values_loop float_of_string (v :: items)).
  intros [fs|e]; [|reflexivity].
  simpl. now destruct fs.
Qed.

End SampleFacts.

Section MetricFacts.

Variable float_of_string : string -> option float.
Variable client_get : string -> string -> float -> float -> http_result.
Variable time_before time_after : float.
Variable now_isoformat : string.
Variable prometheus_url : string.

(** X6.  Every collection that returns reports each of the eight metrics of
    the query table and no other key, stamped with the current time and with
    the time the queries took. *)
Theorem collect_vllm_metrics_reports_every_metric
    (test_start_time test_end_time : float) (pm : PrometheusMetrics) :
  collect_vllm_metrics client_get float_of_string time_before time_after
    now_isoformat prometheus_url test_start_time test_end_time = Ok pm ->
  dom (metrics pm) = list_to_set (map fst VLLM_QUERIES)
  /\ (forall name,
        is_Some (metrics pm !! name)
        <-> In name [ "request_throughput"; "avg_ttft"; "p95_ttft"; "avg_latency";
                      "p95_latency"; "gpu_cache_usage"; "queue_size";
                      "token_throughput" ])
  /\ timestamp pm = now_isoformat
  /\ query_duration_seconds pm = time_after - time_before.
Proof.
  intros Hpm. unfold collect_vllm_metrics in Hpm.
  destruct (collect_loop client_get float_of_string prometheus_url VLLM_QUERIES
              (test_end_time - test_start_time) (test_start_time - 5)
              (test_end_time + 5) ∅) as [m|e] eqn:Hloop; [|discriminate].
  simpl in Hpm. inversion Hpm; subst pm; clear Hpm. simpl.
  apply collect_loop_dom in Hloop. rewrite dom_empty_L, (left_id_L ∅ (∪)) in Hloop.
  split; [exact Hloop|]. split; [|split; reflexivity].
  intros name. rewrite <- elem_of_dom, Hloop, elem_of_list_to_set, list_elem_of_In.
  reflexivity.
Qed.

End MetricFacts.

Section CollectionFacts.

Variable float_of_string : string -> option float.
Variable client_get : string -> string -> float -> float -> http_result.
Variable time_before time_after : float.
Variable now_isoformat : string.
Variable prometheus_url : string.

(** X7.  When the reply for a metric has a first series with samples
    [[t, value]], the value stored for the metric is the arithmetic mean,
    [sum / len], of the sample values other than the string ["None"],
    converted with [float]; it is 0.0 when no sample is left.  Further
    series of the reply are not looked at. *)
Theorem collect_vllm_metrics_averages_samples
    (test_start_time test_end_time : float) (d : Z) (pm : PrometheusMetrics)
    (name template : string) (samples : list (json * string)) :
  int_of_float (test_end_time - test_start_time) = Ok d ->
  collect_vllm_metrics client_get float_of_string time_before time_after
    now_isoformat prometheus_url test_start_time test_end_time = Ok pm ->
  (name, template) ∈ VLLM_QUERIES ->
  first_series_has
    (query_prometheus client_get prometheus_url (format_duration template d)
       (test_start_time - 5) (test_end_time + 5)) samples ->
  let numeric_values := numeric_samples float_of_string samples in
  metrics pm !! name
  = Some (Some (if is_empty numeric_values then 0
                else py_sum numeric_values
                     / float_of_nat (length numeric_values))).
Proof.
  intros Hd Hpm Hin Hseries numeric_values. unfold collect_vllm_metrics in Hpm.
  destruct (collect_loop client_get float_of_string prometheus_url VLLM_QUERIES
              (test_end_time - test_start_time) (test_start_time - 5)
              (test_end_time + 5) ∅) as [m|e] eqn:Hloop; [|discriminate].
  simpl in Hpm. inversion Hpm; subst pm; clear Hpm. simpl.
  destruct (collect_loop_lookup float_of_string client_get prometheus_url
              _ _ _ _ d Hd VLLM_QUERIES_NoDup _ _ Hloop) as [Hlook _].
  destruct (Hlook name template Hin) as (v & Hv & ->).
  unfold stored in Hv. rewrite (metric_value_samples _ _ _ Hseries) in Hv.
  destruct (numeric_values_loop float_of_string (map range_sample samples))
    as [fs|e] eqn:Hfs; [|discriminate].
  apply numeric_values_loop_samples in Hfs. subst fs.
  simpl in Hv. inversion Hv. reflexivity.
Qed.

(** X8.  [collect_metrics_if_enabled] returns metrics exactly when
    collection is enabled, the test duration converts to an integer (it is
    neither nan nor infinite), and no reply makes the extraction of a metric
    raise; otherwise it returns [None]. *)
Theorem collect_metrics_if_enabled_returns (url : string) (collect_enabled : bool)
    (test_start_time test_end_time : float) :
  is_Some (collect_metrics_if_enabled client_get float_of_string time_before
             time_after now_isoformat url collect_enabled
             test_start_time test_end_time)
  <-> collect_enabled = true
      /\ exists d,
           int_of_float (test_end_time - test_start_time) = Ok d
           /\ forall name template, (name, template) ∈ VLLM_QUERIES ->
                exists v,
                  metric_value float_of_string
                    (query_prometheus client_get (__init__ url)
                       (format_duration template d)
                       (test_start_time - 5) (test_end_time + 5)) = Ok v.
Proof.
  unfold collect_metrics_if_enabled.
  pose proof (collect_vllm_metrics_returns float_of_string client_get time_before
                time_after now_isoformat (__init__ url)
                test_start_time test_end_time) as Hiff.
  destruct collect_enabled; simpl.
  - destruct (collect_vllm_metrics client_get float_of_string time_before
                time_after now_isoformat (__init__ url)
                test_start_time test_end_time) as [pm|e].
    + split; [|intros _; eexists; reflexivity].
      intros _. split; [reflexivity|]. apply Hiff. eexists. reflexivity.
    + split; [intros [x Hx]; discriminate|].
      intros [_ H]. apply Hiff in H as [pm H]. discriminate.
  - split; [intros [x Hx]; discriminate | intros [H _]; discriminate].
Qed.

(** X9.  A sample value that is neither ["None"] nor a number is not
    skipped: [float] raises on it, [collect_vllm_metrics] lets the exception
    through, and [collect_metrics_if_enabled] returns [None] for the whole
    collection, not for that metric only. *)
Theorem malformed_sample_fails_collection (url : string)
    (test_start_time test_end_time : float) (d : Z) (name template : string)
    (good rest : list (json * string)) (t : json) (bad : string) :
  int_of_float (test_end_time - test_start_time) = Ok d ->
  (name, template) ∈ VLLM_QUERIES ->
  first_series_has
    (query_prometheus client_get (__init__ url) (format_duration template d)
       (test_start_time - 5) (test_end_time + 5))
    (good ++ (t, bad) :: rest) ->
  Forall (fun ts => snd ts = "None" \/ is_Some (float_of_string (snd ts))) good ->
  bad <> "None" -> float_of_string bad = None ->
  (exists e,
      collect_vllm_metrics client_get float_of_string time_before time_after
        now_isoformat (__init__ url) test_start_time test_end_time = Raise e)
  /\ collect_metrics_if_enabled client_get float_of_string time_before
       time_after now_isoformat url true test_start_time test_end_time = None.
Proof.
  intros Hd Hin Hseries Hgood Hbad Hparse.
  assert (Hraise : exists e,
             collect_vllm_metrics client_get float_of_string time_before
               time_after now_isoformat (__init__ url)
               test_start_time test_end_time = Raise e).
  { destruct (collect_vllm_metrics client_get float_of_string time_before
                time_after now_isoformat (__init__ url)
                test_start_time test_end_time) as [pm|e] eqn:Hpm;
      [|eexists; reflexivity].
    exfalso.
    destruct (proj1 (collect_vllm_metrics_returns float_of_string client_get
                       time_before time_after now_isoformat (__init__ url)
                       test_start_time test_end_time)
                (ex_intro _ pm Hpm)) as (d' & Hd' & Hall).
    assert (d' = d) by congruence. subst d'.
    destruct (Hall name template Hin) as [v Hv]. unfold stored in Hv.
    rewrite (metric_value_samples _ _ _ Hseries) in Hv.
    rewrite (numeric_values_loop_malformed _ _ _ _ _ Hgood Hbad Hparse) in Hv.
    discriminate. }
  split; [exact Hraise|]. destruct Hraise as [e He].
  unfold collect_metrics_if_enabled. simpl. now rewrite He.
Qed.

End CollectionFacts.

Section Window.

Variable float_of_string : string -> option float.
Variable client_get client_get' : string -> string -> float -> float -> http_result.
Variable time_before time_after : float.
Variable now_isoformat : string.
Variable prometheus_url : string.

Lemma collect_loop_agree (queries : list (string * string))
    (duration sb eb : float) :
  (forall d name template,
      int_of_float duration = Ok d -> (name, template) ∈ queries ->
      client_get' (prometheus_url +:+ "/api/v1/query_range")
        (format_duration template d) sb eb
      = client_get (prometheus_url +:+ "/api/v1/query_range")
          (format_duration template d) sb eb) ->
  forall acc,
    collect_loop client_get' float_of_string prometheus_url queries duration sb eb acc
    = collect_loop client_get float_of_string prometheus_url queries duration sb eb acc.
Proof.
  induction queries as [|[name template] queries IH]; intros Hagree acc;
    [reflexivity|].
  simpl. destruct (int_of_float duration) as [d|e] eqn:Hd; [|reflexivity].
  simpl. unfold query_prometheus, query_prometheus_body.
  rewrite (Hagree d name template eq_refl) by (apply elem_of_cons; now left).
  destruct (metric_value float_of_string _) as [v|e]; [|reflexivity].
  simpl. apply IH. intros d' n' t' Hd' Hin'.
  apply (Hagree d' n' t' Hd'). apply elem_of_cons. now right.
Qed.

(** X10.  The collector looks at the backend only through the range-query
    endpoint, with the eight formatted queries, over the test window widened
    by five seconds on each side: two backends that agree there give the same
    collection. *)
Theorem collect_vllm_metrics_queries_buffered_window
    (test_start_time test_end_time : float) :
  (forall d name template,
      int_of_float (test_end_time - test_start_time) = Ok d ->
      (name, template) ∈ VLLM_QUERIES ->
      client_get' (prometheus_url +:+ "/api/v1/query_range")
        (format_duration template d) (test_start_time - 5) (test_end_time + 5)
      = client_get (prometheus_url +:+ "/api/v1/query_range")
          (format_duration template d) (test_start_time - 5) (test_end_time + 5)) ->
  collect_vllm_metrics client_get' float_of_string time_before time_after
    now_isoformat prometheus_url test_start_time test_end_time
  = collect_vllm_metrics client_get float_of_string time_before time_after
      now_isoformat prometheus_url test_start_time test_end_time.
Proof.
  intros Hagree. unfold collect_vllm_metrics.
  now rewrite (collect_loop_agree VLLM_QUERIES _ _ _ Hagree).
Qed.

End Window.

(** A backend that answers every range query with one series carrying the
    given samples. *)
Definition series_backend (samples : list (json * string))
    (url query : string) (start_time end_time : float) : http_result :=
  HttpResponse 200
    (Ok (JObj [ ("status", JStr "success");
                ("data", JObj [ ("resultType", JStr "matrix");
                                ("result",
                                 JArr [ JObj [ ("metric", JObj []);
                                               ("values",
                                                JArr (map range_sample samples)) ] ]) ]) ])).

(** A stand-in for [float] on strings that reads two numerals. *)
Definition toy_float (s : string) : option float :=
  if String.eqb s "1.5" then Some 1.5
  else if String.eqb s "2.5" then Some 2.5
  else None.

Lemma collect_vllm_metrics_reports_every_metric_witness :
  exists pm,
    collect_vllm_metrics empty_series_backend toy_float 2000 2001
      "2026-01-01T00:00:00" "http://localhost:9090" 1000 1060 = Ok pm
    /\ dom (metrics pm) = list_to_set (map fst VLLM_QUERIES)
    /\ query_duration_seconds pm = 2001 - 2000.
Proof.
  eexists. split; [vm_compute; reflexivity|].
  destruct (collect_vllm_metrics_reports_every_metric toy_float
              empty_series_backend 2000 2001 "2026-01-01T00:00:00"
              "http://localhost:9090" 1000 1060 _ eq_refl) as (Hdom & _ & _ & Hdur).
  split; [exact Hdom | exact Hdur].
Defined.

Lemma collect_vllm_metrics_averages_samples_witness :
  exists pm,
    collect_vllm_metrics
      (series_backend [(JInt 1000, "1.5"); (JInt 1015, "None"); (JInt 1030, "2.5")])
      toy_float 2000 2001 "2026-01-01T00:00:00" "http://localhost:9090" 1000 1060
    = Ok pm
    /\ metrics pm !! "queue_size" = Some (Some 2).
Proof.
  eexists. split; [vm_compute; reflexivity|].
  apply (collect_vllm_metrics_averages_samples toy_float
           (series_backend [(JInt 1000, "1.5"); (JInt 1015, "None"); (JInt 1030, "2.5")])
           2000 2001 "2026-01-01T00:00:00" "http://localhost:9090" 1000 1060 60 _
           "queue_size" "avg(vllm:waiting_queue_size)"
           [(JInt 1000, "1.5"); (JInt 1015, "None"); (JInt 1030, "2.5")]).
  - reflexivity.
  - reflexivity.
  - apply list_elem_of_In. simpl. tauto.
  - eexists _, _, _. repeat split; reflexivity.
Defined.

Lemma malformed_sample_fails_collection_witness :
  collect_metrics_if_enabled
    (series_backend [(JInt 1000, "1.5"); (JInt 1015, "abc")])
    toy_float 2000 2001 "2026-01-01T00:00:00" "http://localhost:9090/" true
    1000 1060 = None.
Proof.
  apply (malformed_sample_fails_collection toy_float
           (series_backend [(JInt 1000, "1.5"); (JInt 1015, "abc")])
           2000 2001 "2026-01-01T00:00:00" "http://localhost:9090/" 1000 1060 60
           "queue_size" "avg(vllm:waiting_queue_size)"
           [(JInt 1000, "1.5")] [] (JInt 1015) "abc").
  - reflexivity.
  - apply list_elem_of_In. simpl. tauto.
  - eexists _, _, _. repeat split; reflexivity.
  - constructor; [right; eexists; reflexivity | constructor].
  - discriminate.
  - reflexivity.
Defined.

(** A backend that answers like [empty_series_backend] over one window and
    fails everywhere else. *)
Definition window_backend (lo hi : float) (url query : string)
    (start_time end_time : float) : http_result :=
  if PrimFloat.eqb start_time lo && PrimFloat.eqb end_time hi
  then empty_series_backend url query start_time end_time
  else HttpRaise (Exn "ConnectError" "All connection attempts failed").

Lemma collect_vllm_metrics_queries_buffered_window_witness :
  collect_vllm_metrics (window_backend 995 1065) toy_float 2000 2001
    "2026-01-01T00:00:00" "http://localhost:9090" 1000 1060
  = collect_vllm_metrics empty_series_backend toy_float 2000 2001
      "2026-01-01T00:00:00" "http://localhost:9090" 1000 1060.
Proof.
  apply (collect_vllm_metrics_queries_buffered_window toy_float
           empty_series_backend (window_backend 995 1065)).
  intros d name template _ _. reflexivity.
Defined.

(** *** PrometheusCollector.__init__ *)

(** [k] slashes. *)
Fixpoint slashes (k : nat) : string :=
  match k with
  | O => ""
  | S n => String "/" (slashes n)
  end.

Lemma rstrip_nil_inv (s : string) :
  rstrip "/" s = "" -> exists k, s = slashes k.
Proof.
  induction s as [|c s IH]; [exists 0%nat; reflexivity|].
  simpl. destruct (rstrip "/" s) eqn:Hr; [|discriminate].
  destruct (Ascii.eqb c "/") eqn:Hc; simpl; [|discriminate].
  intros _. destruct IH as [k ->]; [reflexivity|].
  apply Ascii.eqb_eq in Hc. subst c. exists (S k). reflexivity.
Qed.

Lemma rstrip_decompose (s : string) :
  exists k, s = rstrip "/" s +:+ slashes k.
Proof.
  induction s as [|c s IH]; [exists 0%nat; reflexivity|].
  simpl. destruct (rstrip "/" s) as [|c' kept] eqn:Hr.
  - destruct (rstrip_nil_inv s Hr) as [k ->].
    destruct (Ascii.eqb c "/") eqn:Hc; simpl.
    + apply Ascii.eqb_eq in Hc. subst c. exists (S k). reflexivity.
    + exists k. reflexivity.
  - destruct IH as [k IH]. exists k.
    change (String c s = String c (String c' kept +:+ slashes k)).
    now rewrite <- IH.
Qed.

Lemma rstrip_no_trailing (s pre : string) : rstrip "/" s <> pre +:+ "/".
Proof.
  revert pre. induction s as [|c s IH]; intros pre.
  - destruct pre; discriminate.
  - simpl. destruct (rstrip "/" s) as [|c' kept] eqn:Hr.
    + destruct (Ascii.eqb c "/") eqn:Hc; simpl.
      * destruct pre; discriminate.
      * destruct pre as [|a [|b pre]]; try discriminate.
        intros H. inversion H; subst. now rewrite Ascii.eqb_refl in Hc.
    + destruct pre as [|a pre]; [discriminate|].
      change (String c (String c' kept) <> String a (pre +:+ "/")).
      intros H. inversion H; subst. now apply (IH pre).
Qed.

Lemma rstrip_app_slash (s : string) : rstrip "/" (s +:+ "/") = rstrip "/" s.
Proof.
  induction s as [|c s IH]; [reflexivity|].
  change (rstrip "/" (String c (s +:+ "/")) = rstrip "/" (String c s)).
  simpl. now rewrite IH.
Qed.

Lemma rstrip_fixed (s : string) :
  (forall pre, s <> pre +:+ "/") -> rstrip "/" s = s.
Proof.
  intros Hs. destruct (rstrip_decompose s) as [[|k] Hk].
  - rewrite string_app_nil_r in Hk. congruence.
  - exfalso. clear -Hs Hk. revert Hk. generalize (rstrip "/" s). intros r Hk.
    assert (Hend : forall n r, exists pre, r +:+ slashes (S n) = pre +:+ "/").
    { induction n as [|n IH]; intros r'.
      - exists r'. reflexivity.
      - destruct (IH (r' +:+ "/")) as [pre Hpre]. exists pre.
        rewrite <- Hpre, string_app_assoc. reflexivity. }
    destruct (Hend k r) as [pre Hpre]. apply (Hs pre). congruence.
Qed.

Section InitFacts.

Variable client_get : string -> string -> float -> float -> http_result.
Variable float_of_string : string -> option float.
Variable time_before time_after : float.
Variable now_isoformat : string.

(** X11.  The constructor stores the URL without its trailing slashes: the
    given URL is the stored one followed by slashes only, the stored one
    does not end with a slash, storing is idempotent, and a slash appended to
    the configured URL changes nothing, also for
    [collect_metrics_if_enabled]. *)
Theorem collector_url_without_trailing_slashes (prometheus_url : string) :
  (exists k, prometheus_url = __init__ prometheus_url +:+ slashes k)
  /\ (forall pre, __init__ prometheus_url <> pre +:+ "/")
  /\ __init__ (__init__ prometheus_url) = __init__ prometheus_url
  /\ __init__ (prometheus_url +:+ "/") = __init__ prometheus_url
  /\ (forall collect_enabled test_start_time test_end_time,
        collect_metrics_if_enabled client_get float_of_string time_before
          time_after now_isoformat (prometheus_url +:+ "/") collect_enabled
          test_start_time test_end_time
        = collect_metrics_if_enabled client_get float_of_string time_before
            time_after now_isoformat prometheus_url collect_enabled
            test_start_time test_end_time).
Proof.
  unfold __init__. split; [apply rstrip_decompose|].
  split; [intros pre; apply rstrip_no_trailing|].
  split; [apply rstrip_fixed; intros pre; apply rstrip_no_trailing|].
  split; [apply rstrip_app_slash|].
  intros enabled t0 t1. unfold collect_metrics_if_enabled, __init__.
  now rewrite rstrip_app_slash.
Qed.

End InitFacts.

End CollectorSpec.

(** ** benchmark/load_test.py *)

Module LoadTestSpec.
Import LoadTest.

(** *** generate_prompt *)

Lemma str_take_length (n : nat) (s : string) :
  String.length (str_take n s) = Nat.min n (String.length s).
Proof.
  revert s. induction n as [|n IH]; intros [|c s]; simpl; try reflexivity.
  now rewrite IH.
Qed.

Lemma string_length_zero (s : string) : String.length s = 0%nat <-> s = "".
Proof. destruct s; simpl; split; congruence. Qed.

(** The loop stops with the target reached, never shortens the prompt, and
    does nothing when the target is already reached. *)
Lemma elaborate_spec (topic : string) (input_length : Z) (prompt : string) :
  below_target (elaborate topic input_length prompt) input_length = false
  /\ (String.length prompt <= String.length (elaborate topic input_length prompt))%nat
  /\ (below_target prompt input_length = false ->
      elaborate topic input_length prompt = prompt).
Proof.
  funelim (elaborate topic input_length prompt).
  - destruct H0 as (Hstop & Hlen & _). split; [exact Hstop|]. split.
    + rewrite string_length_app in Hlen. lia.
    + intros Hstop'. congruence.
  - split; [assumption|]. split; [lia | reflexivity].
Qed.

Lemma generate_prompt_unfold (c : config) (draw : nat) :
  generate_prompt c draw =
  let prompt_type := default "random" (prompt_type (prompt_section c)) in
  let n := default 512 (input_length (prompt_section c)) in
  let fixed := default "" (fixed_prompt (prompt_section c)) in
  if String.eqb prompt_type "fixed" && negb (String.eqb fixed "") then fixed
  else slice_to
         (elaborate (random_choice draw) n
            (base_phrase +:+ random_choice draw +:+ ". ")) (n * 3).
Proof. reflexivity. Qed.

Lemma fixed_mode_reflect (prompt_type fixed : string) :
  String.eqb prompt_type "fixed" && negb (String.eqb fixed "") = true
  <-> prompt_type = "fixed" /\ fixed <> "".
Proof.
  rewrite andb_true_iff, negb_true_iff, String.eqb_eq, String.eqb_neq.
  reflexivity.
Qed.

(** C3, as the code has it.  With a non-empty fixed prompt in fixed mode the
    result is that prompt; otherwise, for [input_length >= 1], it is a
    string of exactly [3 * input_length] characters.  The result is
    non-empty exactly in these two cases and when [input_length] is negative
    with [3 * |input_length|] below the length of the seed sentence. *)
Theorem generate_prompt_spec (c : config) (draw : nat) :
  let prompt_type := default "random" (prompt_type (prompt_section c)) in
  let n := default 512 (input_length (prompt_section c)) in
  let fixed := default "" (fixed_prompt (prompt_section c)) in
  let seed := base_phrase +:+ random_choice draw +:+ ". " in
  (prompt_type = "fixed" /\ fixed <> "" -> generate_prompt c draw = fixed)
  /\ (~ (prompt_type = "fixed" /\ fixed <> "") -> 1 <= n ->
      Z.of_nat (String.length (generate_prompt c draw)) = 3 * n)
  /\ (generate_prompt c draw <> "" <->
      (prompt_type = "fixed" /\ fixed <> "")
      \/ 1 <= n
      \/ (n < 0 /\ - (3 * n) < Z.of_nat (String.length seed))).
Proof.
  intros prompt_type n fixed seed. rewrite generate_prompt_unfold.
  fold prompt_type. fold n. fold fixed. cbv zeta. fold seed.
  pose proof (fixed_mode_reflect prompt_type fixed) as Hmode.
  destruct (elaborate_spec (random_choice draw) n seed) as (Hstop & Hgrow & Hsame).
  set (r := elaborate (random_choice draw) n seed) in *.
  assert (Hreached : 10 * n <= 3 * Z.of_nat (String.length r)).
  { destruct (Z.le_gt_cases (10 * n) (3 * Z.of_nat (String.length r))) as [|Hlt];
      [assumption|].
    apply below_target_spec in Hlt. congruence. }
  destruct (String.eqb prompt_type "fixed" && negb (String.eqb fixed "")) eqn:Hfix.
  - assert (Hfixed : prompt_type = "fixed" /\ fixed <> "") by now apply Hmode.
    split; [reflexivity|]. split; [intros Hn; contradiction|].
    split; [intros _; now left | intros _; apply Hfixed].
  - assert (Hnot : ~ (prompt_type = "fixed" /\ fixed <> ""))
      by (intros H; apply Hmode in H; discriminate).
    assert (Hneg : n < 0 ->
              Z.of_nat (String.length (slice_to r (n * 3))) =
              Z.max 0 (Z.of_nat (String.length seed) + n * 3)).
    { intros Hn. assert (Hr : r = seed).
      { apply Hsame. destruct (below_target seed n) eqn:Hb; [|reflexivity].
        apply below_target_spec in Hb. lia. }
      rewrite Hr. unfold slice_to.
      assert (Hb : (n * 3 <? 0) = true) by lia.
      rewrite Hb, str_take_length. lia. }
    assert (Hpos : 0 <= n ->
              Z.of_nat (String.length (slice_to r (n * 3))) = n * 3).
    { intros Hn. unfold slice_to.
      assert (Hb : (n * 3 <? 0) = false) by lia.
      rewrite Hb, str_take_length. lia. }
    split; [intros H; contradiction|]. split.
    + intros _ Hn. rewrite Hpos; lia.
    + rewrite <- string_length_zero. split.
      * intros Hne. right. destruct (Z.lt_ge_cases n 0) as [Hn|Hn].
        -- right. specialize (Hneg Hn). lia.
        -- left. specialize (Hpos Hn). lia.
      * intros [H|[Hn|[Hn Hseed]]]; [contradiction| |].
        -- assert (0 <= n) as H0 by lia. specialize (Hpos H0). lia.
        -- specialize (Hneg Hn). lia.
Qed.

Definition random_mode (input_length : Z) : config :=
  {| server := None; load := None;
     prompt := Some {| prompt_type := Some "random";
                       input_length := Some input_length;
                       fixed_prompt := None; output_length := None |} |}.

Definition fixed_mode (text : string) : config :=
  {| server := None; load := None;
     prompt := Some {| prompt_type := Some "fixed";
                       input_length := Some 0;
                       fixed_prompt := Some text; output_length := None |} |}.

Lemma generate_prompt_witness :
  generate_prompt (fixed_mode "Hello") 0 = "Hello"
  /\ Z.of_nat (String.length (generate_prompt (random_mode 7) 3)) = 21
  /\ generate_prompt (random_mode (-2)) 3 <> "".
Proof.
  split; [|split].
  - apply (proj1 (generate_prompt_spec (fixed_mode "Hello") 0)).
    split; [reflexivity | discriminate].
  - apply (proj1 (proj2 (generate_prompt_spec (random_mode 7) 3))).
    + intros [H _]. discriminate H.
    + simpl. lia.
  - apply (proj2 (proj2 (generate_prompt_spec (random_mode (-2)) 3))).
    right. right. simpl. lia.
Defined.

(** C3 as stated fails: in random mode with [input_length = 0] the prompt
    is the empty string. *)
Lemma generate_prompt_empty_at_zero :
  generate_prompt (random_mode 0) 0 = "".
Proof. reflexivity. Qed.


(** *** send_request *)

Section SendRequestFacts.

Local Open Scope Q_scope.

Variable json_loads : string -> option json.
Variable clock : nat -> Q.
Variable client : http_request -> transport.

(** The first-token time, when set, is a clock reading taken after the
    [lo]-th one and before the [hi]-th one. *)
Definition read_between (lo hi : nat) (t : option Q) : Prop :=
  match t with
  | None => True
  | Some x => exists j, (lo <= j < hi)%nat /\ x = clock j
  end.

Lemma read_between_mono (lo hi hi' : nat) (t : option Q) :
  (hi <= hi')%nat -> read_between lo hi t -> read_between lo hi' t.
Proof.
  destruct t as [x|]; [|trivial].
  intros Hle (j & Hj & ->). exists j. split; [lia | reflexivity].
Qed.

Lemma read_lines_cons (line : string) (rest : list string)
    (stream_end : option exn) (st : stream_state) :
  read_lines json_loads clock (line :: rest) stream_end st =
  if String.prefix "data: " line then
    let data := str_drop 6 line in
    if String.eqb data "[DONE]" then io_ret st
    else
      match json_loads data with
      | None => read_lines json_loads clock rest stream_end st
      | Some chunk =>
          io_bind (lift (dict_get chunk "choices" (JArr [JObj []]))) (fun choices =>
          io_bind (lift (subscript choices 0)) (fun first =>
          io_bind (lift (dict_get first "delta" (JObj []))) (fun delta =>
          io_bind (lift (dict_get delta "content" (JStr ""))) (fun content =>
          io_bind (if truthy content
                      && negb (is_Some_bool (first_token_time st))
                   then io_bind (time_time clock) (fun t => io_ret (Some t))
                   else io_ret (first_token_time st)) (fun ftt =>
          read_lines json_loads clock rest stream_end
            {| first_token_time := ftt;
               output_text := output_text st ++ [content] |})))))
      end
  else read_lines json_loads clock rest stream_end st.
Proof. reflexivity. Qed.

Lemma read_lines_clock (lines : list string) (stream_end : option exn) :
  forall (st : stream_state) (k : nat) (lo : nat) st' k',
    (lo <= k)%nat ->
    read_between lo k (first_token_time st) ->
    read_lines json_loads clock lines stream_end st k = (Ok st', k') ->
    (k <= k')%nat /\ read_between lo k' (first_token_time st').
Proof.
  induction lines as [|line rest IH]; intros st k lo st' k' Hlo Hst Hrun.
  - simpl in Hrun. destruct stream_end as [e|]; [discriminate|].
    unfold io_ret in Hrun. inversion Hrun; subst. split; [lia | exact Hst].
  - rewrite read_lines_cons in Hrun. cbv zeta in Hrun.
    destruct (String.prefix "data: " line); [|eauto].
    destruct (String.eqb (str_drop 6 line) "[DONE]").
    { unfold io_ret in Hrun. inversion Hrun; subst. split; [lia | exact Hst]. }
    destruct (json_loads (str_drop 6 line)) as [chunk|]; [|eauto].
    unfold io_bind at 1, lift at 1 in Hrun.
    destruct (dict_get chunk "choices" (JArr [JObj []])) as [choices|]; [|discriminate].
    unfold io_bind at 1, lift at 1 in Hrun.
    destruct (subscript choices 0) as [first|]; [|discriminate].
    unfold io_bind at 1, lift at 1 in Hrun.
    destruct (dict_get first "delta" (JObj [])) as [delta|]; [|discriminate].
    unfold io_bind at 1, lift at 1 in Hrun.
    destruct (dict_get delta "content" (JStr "")) as [content|]; [|discriminate].
    unfold io_bind at 1 in Hrun.
    destruct (truthy content && negb (is_Some_bool (first_token_time st))).
    + unfold io_bind at 1, time_time, io_ret at 1 in Hrun.
      apply IH with (lo := lo) in Hrun; [| lia |].
      * split; [lia | apply Hrun].
      * simpl. exists k. split; [lia | reflexivity].
    + unfold io_ret at 1 in Hrun.
      apply IH with (lo := lo) in Hrun; [exact Hrun | lia | exact Hst].
Qed.

(** Lines that are not data lines, or whose payload is not JSON, leave the
    state of the loop unchanged. *)
Lemma read_lines_skips (lines : list string) :
  Forall (fun line => String.prefix "data: " line = false
                      \/ json_loads (str_drop 6 line) = None) lines ->
  forall st k, read_lines json_loads clock lines None st k = (Ok st, k).
Proof.
  induction 1 as [|line rest Hline _ IH]; intros st k; [reflexivity|].
  rewrite read_lines_cons. cbv zeta.
  destruct Hline as [Hprefix|Hjson].
  - rewrite Hprefix. apply IH.
  - destruct (String.prefix "data: " line); [|apply IH].
    destruct (String.eqb (str_drop 6 line) "[DONE]"); [reflexivity|].
    rewrite Hjson. apply IH.
Qed.

(** What a run of the [try] block that does not raise has done. *)
Lemma send_request_body_ok (tr : transport) (prompt : string)
    (metrics m : RequestMetrics) (k : nat) :
  send_request_body json_loads clock tr prompt metrics 1%nat = (Ok m, k) ->
  exists resp st k1 out,
    tr = Connected resp
    /\ status_code resp = 200%Z
    /\ read_lines json_loads clock (aiter_lines resp) (stream_error resp)
         {| first_token_time := None; output_text := [] |} 2%nat = (Ok st, k1)
    /\ join (output_text st) = Ok out
    /\ m = {| request_id := request_id metrics;
              start_time := start_time metrics;
              end_time := clock k1;
              ttft_ms :=
                match first_token_time st with
                | Some t => if truthy_time (Some t) then (t - clock 1%nat) * 1000 else 0
                | None => 0
                end;
              e2e_latency_ms := (clock k1 - clock 1%nat) * 1000;
              output_tokens := (Z.of_nat (String.length out) / 4)%Z;
              input_tokens := (Z.of_nat (String.length prompt) / 4)%Z;
              tokens_per_second :=
                if Qlt_le_dec 0 ((clock k1 - clock 1%nat) * 1000)
                then (inject_Z (Z.of_nat (String.length out) / 4)
                      / ((clock k1 - clock 1%nat) * 1000)) * 1000
                else tokens_per_second metrics;
              error := error metrics |}.
Proof.
  unfold send_request_body. unfold io_bind at 1, time_time at 1.
  destruct tr as [e|resp]; [discriminate|].
  unfold io_bind at 1.
  destruct (negb (status_code resp =? 200)%Z) eqn:Hstatus.
  { unfold io_bind at 1, lift at 1.
    destruct (aread_decode resp); discriminate. }
  destruct (read_lines json_loads clock (aiter_lines resp) (stream_error resp)
              {| first_token_time := None; output_text := [] |} 2%nat)
    as [[st|e] k1] eqn:Hread; [|discriminate].
  unfold io_bind at 1, time_time at 1. unfold io_bind at 1, lift at 1.
  destruct (join (output_text st)) as [out|e] eqn:Hjoin; [|discriminate].
  unfold io_ret. intros Heq. inversion Heq; subst.
  exists resp, st, k1, out. repeat split; try assumption.
  apply negb_false_iff, Z.eqb_eq in Hstatus. exact Hstatus.
Qed.

(** A failed request is counted as failed and is left out of
    [request_metrics]. *)
Lemma summarize_counts_failure (wall_start wall_end : Q) (now_isoformat : string)
    (c : config) (n : Z) (before after : list RequestMetrics)
    (m : RequestMetrics) :
  has_error m = true ->
  failed_requests
    (summarize wall_start wall_end now_isoformat c n (before ++ m :: after)%list)
  = (failed_requests
       (summarize wall_start wall_end now_isoformat c n (before ++ after)%list)
     + 1)%Z
  /\ ~ In m (request_metrics
               (summarize wall_start wall_end now_isoformat c n
                  (before ++ m :: after)%list)).
Proof.
  intros Hm. unfold summarize. simpl. split.
  - rewrite !List.filter_app, !length_app. simpl. rewrite Hm. simpl. lia.
  - intros Hin. apply filter_In in Hin as [_ Hkeep]. now rewrite Hm in Hkeep.
Qed.

(** C4, as the code has it.  [send_request] returns metrics whatever the
    transport does: either its [try] block ran to its end, and the metrics
    carry no error, or it raised an exception [e], and the metrics carry
    [error = str(e)] with [end_time] the time of the failure.  Whenever
    [error] is set, the latency, TTFT, token and tokens-per-second fields are
    zero.  A connection failure, a stream that breaks off before its first
    line, and a response with a status other than 200 are such failures; for
    the last one, when the body is read as text, [error] is
    ["HTTP <status>: <body>"] and the request counts as failed.  Lines of a
    200 response that are not data lines or do not hold JSON are skipped: a
    body made of such lines is no failure. *)
Theorem send_request_captures_failures (request_id prompt : string)
    (c : config) :
  let tr := client (build_request c prompt) in
  let m := send_request json_loads clock client request_id prompt c in
  let body :=
    send_request_body json_loads clock tr prompt
      (initial_metrics clock request_id) 1%nat in
  ((exists k, body = (Ok m, k) /\ error m = None)
   \/ (exists e k, body = (Raise e, k)
                   /\ error m = Some (exn_str e) /\ end_time m = clock k))
  /\ (error m <> None ->
      ttft_ms m = 0 /\ e2e_latency_ms m = 0 /\ output_tokens m = 0%Z
      /\ input_tokens m = 0%Z /\ tokens_per_second m = 0)
  /\ (forall e, tr = ConnectFailed e -> error m = Some (exn_str e))
  /\ (forall resp e,
        tr = Connected resp -> status_code resp = 200%Z ->
        aiter_lines resp = [] -> stream_error resp = Some e ->
        error m = Some (exn_str e))
  /\ (forall resp, tr = Connected resp -> status_code resp <> 200%Z ->
        error m <> None)
  /\ (forall resp text,
        tr = Connected resp -> status_code resp <> 200%Z ->
        aread_decode resp = Ok text ->
        error m = Some ("HTTP " +:+ pretty (status_code resp) +:+ ": " +:+ text)
        /\ contains (pretty (status_code resp)) (default "" (error m))
        /\ contains text (default "" (error m))
        /\ has_error m = true
        /\ forall wall_start wall_end now_isoformat c n before after,
             failed_requests
               (summarize wall_start wall_end now_isoformat c n
                  (before ++ m :: after)%list)
             = (failed_requests
                  (summarize wall_start wall_end now_isoformat c n
                     (before ++ after)%list) + 1)%Z
             /\ ~ In m (request_metrics
                          (summarize wall_start wall_end now_isoformat c n
                             (before ++ m :: after)%list)))
  /\ (forall resp,
        tr = Connected resp -> status_code resp = 200%Z ->
        stream_error resp = None ->
        Forall (fun line => String.prefix "data: " line = false
                            \/ json_loads (str_drop 6 line) = None)
          (aiter_lines resp) ->
        error m = None /\ output_tokens m = 0%Z /\ ttft_ms m = 0).
Proof.
  intros tr m body. unfold send_request in m. fold tr in m.
  clearbody tr.
  assert (Hnot200 : forall resp, tr = Connected resp -> status_code resp <> 200%Z ->
            body = (match aread_decode resp with
                    | Ok text =>
                        Raise (Exn "Exception"
                                 ("HTTP " +:+ pretty (status_code resp) +:+ ": "
                                    +:+ text))
                    | Raise e => Raise e
                    end, 2%nat)).
  { intros resp Htr Hstatus. unfold body. rewrite Htr.
    unfold send_request_body. unfold io_bind at 1, time_time at 1.
    unfold io_bind at 1.
    apply Z.eqb_neq in Hstatus. rewrite Hstatus. simpl negb. cbv iota.
    unfold io_bind at 1, lift at 1.
    destruct (aread_decode resp); reflexivity. }
  split; [|split; [|split; [|split; [|split; [|split]]]]].
  - unfold m. fold body.
    destruct body as [[m'|e] k] eqn:Hbody.
    + left. exists k. split; [reflexivity|].
      apply send_request_body_ok in Hbody
        as (resp & st & k1 & out & _ & _ & _ & _ & ->). reflexivity.
    + right. exists e, k. repeat split; reflexivity.
  - unfold m. fold body.
    destruct body as [[m'|e] k] eqn:Hbody.
    + apply send_request_body_ok in Hbody
        as (resp & st & k1 & out & _ & _ & _ & _ & ->).
      simpl. intros H. now contradiction H.
    + intros _. simpl. repeat split; reflexivity.
  - intros e Htr. unfold m. rewrite Htr. reflexivity.
  - intros resp e Htr Hstatus Hlines Hend. unfold m. rewrite Htr.
    assert (Hok : negb (status_code resp =? 200)%Z = false)
      by (rewrite Hstatus; reflexivity).
    unfold send_request_body, io_bind, time_time, lift, io_ret.
    rewrite Hok, Hlines, Hend. reflexivity.
  - intros resp Htr Hstatus. unfold m. fold body.
    rewrite (Hnot200 resp Htr Hstatus).
    destruct (aread_decode resp); discriminate.
  - intros resp text Htr Hstatus Htext.
    assert (Herr : error m
                   = Some ("HTTP " +:+ pretty (status_code resp) +:+ ": " +:+ text)).
    { unfold m. fold body.
      rewrite (Hnot200 resp Htr Hstatus), Htext. reflexivity. }
    assert (Hfailed : has_error m = true) by (unfold has_error; now rewrite Herr).
    rewrite Herr. simpl default. split; [reflexivity|]. split; [|split; [|split]].
    + exists "HTTP ", (": " +:+ text). reflexivity.
    + exists ("HTTP " +:+ pretty (status_code resp) +:+ ": "), "".
      rewrite !string_app_assoc, string_app_nil_r. reflexivity.
    + exact Hfailed.
    + intros. now apply summarize_counts_failure.
  - intros resp Htr Hstatus Hend Hskip. unfold m. rewrite Htr.
    assert (Hok : negb (status_code resp =? 200)%Z = false)
      by (rewrite Hstatus; reflexivity).
    unfold send_request_body, io_bind, time_time, lift, io_ret.
    rewrite Hok, Hend, (read_lines_skips _ Hskip). simpl.
    repeat split; reflexivity.
Qed.

End SendRequestFacts.

(** A stand-in for [json.loads] that reads a payload as one chunk whose
    content delta is the payload itself; payloads that start with ["{"] are
    not JSON for it. *)
Definition toy_loads (data : string) : option json :=
  if String.prefix "{" data then None
  else Some (JObj [ ("choices",
                     JArr [ JObj [ ("delta", JObj [ ("content", JStr data) ]) ] ]) ]).

(** A clock that advances by one second per reading. *)
Definition ticking (k : nat) : Q := inject_Z (Z.of_nat k).

Lemma ticking_mono (i j : nat) : (i <= j)%nat -> (ticking i <= ticking j)%Q.
Proof. intros H. unfold ticking, Qle. simpl. lia. Qed.

(** A server that streams [lines] as the body of a 200 response, and one
    that answers with [status] and the text [body]. *)
Definition streamed (lines : list string) (request : http_request) : transport :=
  Connected {| status_code := 200; aread_decode := Ok "";
               aiter_lines := lines; stream_error := None |}.

Definition answered (status : Z) (body : string) (request : http_request)
    : transport :=
  Connected {| status_code := status; aread_decode := Ok body;
               aiter_lines := []; stream_error := None |}.

(** A client whose requests time out with an exception of empty message. *)
Definition timing_out (request : http_request) : transport :=
  ConnectFailed (Exn "ReadTimeout" "").

Definition no_config : config := {| server := None; load := None; prompt := None |}.

(** A client that fails to connect, and one whose stream breaks off before
    the first line. *)
Definition refusing (request : http_request) : transport :=
  ConnectFailed (Exn "ConnectError" "All connection attempts failed").

Definition stalling (request : http_request) : transport :=
  Connected {| status_code := 200; aread_decode := Ok "";
               aiter_lines := []; stream_error := Some (Exn "ReadTimeout" "") |}.

Lemma send_request_failure_witness :
  (let m := send_request toy_loads ticking (answered 500 "Internal Server Error")
              "req-0" "Say hello" no_config in
   error m = Some "HTTP 500: Internal Server Error"
   /\ contains (pretty 500%Z) (default "" (error m))
   /\ contains "Internal Server Error" (default "" (error m))
   /\ has_error m = true
   /\ forall wall_start wall_end now_isoformat c n before after,
        failed_requests
          (summarize wall_start wall_end now_isoformat c n
             (before ++ m :: after)%list)
        = (failed_requests
             (summarize wall_start wall_end now_isoformat c n
                (before ++ after)%list) + 1)%Z
        /\ ~ In m (request_metrics
                     (summarize wall_start wall_end now_isoformat c n
                        (before ++ m :: after)%list)))
  /\ error (send_request toy_loads ticking refusing "req-1" "Say hello" no_config)
     = Some "All connection attempts failed"
  /\ error (send_request toy_loads ticking stalling "req-2" "Say hello" no_config)
     = Some ""
  /\ (let m := send_request toy_loads ticking
                 (streamed ["event: ping"; "data: {half a chunk"])
                 "req-3" "Say hello" no_config in
      error m = None /\ output_tokens m = 0%Z /\ ttft_ms m = 0%Q)
  /\ (let m := send_request toy_loads ticking refusing "req-1" "Say hello"
                 no_config in
      ttft_ms m = 0%Q /\ e2e_latency_ms m = 0%Q /\ output_tokens m = 0%Z
      /\ input_tokens m = 0%Z /\ tokens_per_second m = 0%Q).
Proof.
  split; [|split; [|split; [|split]]].
  - apply (proj1 (proj2 (proj2 (proj2 (proj2 (proj2
             (send_request_captures_failures toy_loads ticking
                (answered 500 "Internal Server Error") "req-0" "Say hello"
                no_config))))))
             _ "Internal Server Error" eq_refl).
    + simpl. lia.
    + reflexivity.
  - apply (proj1 (proj2 (proj2
             (send_request_captures_failures toy_loads ticking refusing
                "req-1" "Say hello" no_config)))
             (Exn "ConnectError" "All connection attempts failed") eq_refl).
  - apply (proj1 (proj2 (proj2 (proj2
             (send_request_captures_failures toy_loads ticking stalling
                "req-2" "Say hello" no_config))))
             _ (Exn "ReadTimeout" "") eq_refl);
      reflexivity.
  - apply (proj2 (proj2 (proj2 (proj2 (proj2 (proj2
             (send_request_captures_failures toy_loads ticking
                (streamed ["event: ping"; "data: {half a chunk"])
                "req-3" "Say hello" no_config)))))) _ eq_refl);
      [reflexivity | reflexivity |].
    constructor; [left; reflexivity|].
    constructor; [right; reflexivity | constructor].
  - apply (proj1 (proj2
             (send_request_captures_failures toy_loads ticking refusing
                "req-1" "Say hello" no_config))).
    discriminate.
Defined.

(** C4 as stated fails: a 200 response whose body is not JSON is not
    recorded as an error. *)
Lemma send_request_non_json_body_is_no_error :
  error (send_request toy_loads ticking
           (streamed ["<html>502 Bad Gateway</html>"; "data: {half a chunk"])
           "req-0" "Say hello" no_config) = None.
Proof. reflexivity. Qed.

(** *** run_concurrent_test: the result *)

Lemma filter_split_length {A} (f : A -> bool) (l : list A) :
  (length (List.filter (fun x => negb (f x)) l) + length (List.filter f l))%nat
  = length l.
Proof.
  induction l as [|x l IH]; [reflexivity|]. simpl.
  destruct (f x); simpl; lia.
Qed.

Lemma range_length (n : Z) : Z.of_nat (length (range n)) = Z.max 0 n.
Proof. unfold range. rewrite length_map, length_seq. lia. Qed.

Lemma has_error_None (m : RequestMetrics) : error m = None -> has_error m = false.
Proof. unfold has_error. now intros ->. Qed.

Lemma has_error_message (m : RequestMetrics) (msg : string) :
  error m = Some msg -> msg <> "" -> has_error m = true.
Proof.
  unfold has_error. intros -> Hmsg.
  apply negb_true_iff, String.eqb_neq. exact Hmsg.
Qed.

Section RunFacts.

Local Open Scope Q_scope.

Variable json_loads : string -> option json.
Variable client_of : string -> http_request -> transport.
Variable clock_of : string -> nat -> Q.
Variable draw_of : string -> nat.
Variable wall_start wall_end : Q.
Variable now_isoformat : string.

(** X18.  The counts of a completed run with [num_requests = N >= 0]:
    [successful_requests + failed_requests = total_requests = N], the number
    of requests dispatched; [request_metrics] is the sub-list, in dispatch
    order, of the metrics that the test [not m.error] keeps, so it holds every
    metric without an error and no metric with a non-empty error message;
    [throughput_rps] is [successful_requests / duration] when the duration is
    positive and 0 otherwise. *)
Theorem run_concurrent_test_result (c : config) (r : TestResult) :
  let N := default 100%Z (num_requests (load_section c)) in
  let all_metrics :=
    map (bounded_request json_loads client_of clock_of draw_of c) (range N) in
  run_concurrent_test json_loads client_of clock_of draw_of
    wall_start wall_end now_isoformat c = Completes r ->
  (0 <= N)%Z ->
  (successful_requests r + failed_requests r = total_requests r)%Z
  /\ total_requests r = N
  /\ Z.of_nat (length all_metrics) = N
  /\ request_metrics r = List.filter (fun m => negb (has_error m)) all_metrics
  /\ successful_requests r = Z.of_nat (length (request_metrics r))
  /\ (forall m, In m all_metrics -> error m = None -> In m (request_metrics r))
  /\ (forall m msg, error m = Some msg -> msg <> "" -> ~ In m (request_metrics r))
  /\ duration_seconds r = wall_end - wall_start
  /\ throughput_rps r =
     (if Qlt_le_dec 0 (duration_seconds r)
      then inject_Z (successful_requests r) / duration_seconds r
      else 0).
Proof.
  intros N all_metrics Hrun HN. unfold run_concurrent_test in Hrun.
  fold N in Hrun.
  destruct (Semaphore (default 10%Z (concurrency (load_section c)))) as [value|e];
    [|discriminate].
  destruct ((value =? 0)%Z && (0 <? N)%Z); [discriminate|].
  fold all_metrics in Hrun. inversion Hrun; subst r; clear Hrun. simpl.
  assert (Hlen : Z.of_nat (length all_metrics) = N).
  { unfold all_metrics. rewrite length_map, range_length. lia. }
  repeat split.
  - pose proof (filter_split_length (fun m => has_error m) all_metrics). lia.
  - exact Hlen.
  - intros m Hin Herr. apply filter_In. split; [exact Hin|].
    now rewrite (has_error_None m Herr).
  - intros m msg Herr Hmsg Hin. apply filter_In in Hin as [_ Hkeep].
    now rewrite (has_error_message m msg Herr Hmsg) in Hkeep.
Qed.

End RunFacts.

Definition load_only (concurrency num_requests : Z) : config :=
  {| server := None;
     load := Some {| concurrency := Some concurrency;
                     num_requests := Some num_requests;
                     warmup_requests := Some 0%Z;
                     request_timeout := None |};
     prompt := None |}.

Lemma run_concurrent_test_witness :
  exists r,
    run_concurrent_test toy_loads
      (fun _ => streamed ["data: Hello"; "data: [DONE]"])
      (fun _ => ticking) (fun _ => 0%nat) 0 10 "2026-01-01T00:00:00"
      (load_only 2 3) = Completes r
    /\ (successful_requests r + failed_requests r = total_requests r)%Z
    /\ total_requests r = 3%Z
    /\ successful_requests r = Z.of_nat (length (request_metrics r)).
Proof.
  eexists. split; [reflexivity|].
  pose proof (run_concurrent_test_result toy_loads
                (fun _ => streamed ["data: Hello"; "data: [DONE]"])
                (fun _ => ticking) (fun _ => 0%nat) 0 10 "2026-01-01T00:00:00"
                (load_only 2 3) _ eq_refl) as H.
  simpl in H. destruct H as (Hsum & Htotal & _ & _ & Hsucc & _); [lia|].
  split; [exact Hsum | split; [exact Htotal | exact Hsucc]].
Defined.

(** [total_requests] is the configured number as it is: with
    [num_requests = -1] no request is dispatched, the counts of successful
    and failed requests are 0, and [total_requests] is -1. *)
Lemma run_concurrent_test_negative_total :
  exists r,
    run_concurrent_test toy_loads (fun _ => streamed []) (fun _ => ticking)
      (fun _ => 0%nat) 0 10 "2026-01-01T00:00:00" (load_only 2 (-1))
    = Completes r
    /\ request_metrics r = []
    /\ (successful_requests r + failed_requests r)%Z = 0%Z
    /\ total_requests r = (-1)%Z.
Proof. eexists. repeat split; reflexivity. Qed.

(** C5.  The code at an input where it departs from the claim: a request
    that fails with an exception whose [str()] is empty, as a timeout's is,
    gets [error = ""]; the test [not m.error] keeps it, so the failed
    request is counted as successful and its metrics are part of
    [request_metrics]. *)
Lemma run_concurrent_test_empty_error_message :
  exists r m,
    run_concurrent_test toy_loads
      (fun _ => timing_out)
      (fun _ => ticking) (fun _ => 0%nat) 0 10 "2026-01-01T00:00:00"
      (load_only 1 1) = Completes r
    /\ request_metrics r = [m]
    /\ error m = Some ""
    /\ successful_requests r = 1%Z
    /\ failed_requests r = 0%Z.
Proof. eexists _, _. repeat split; reflexivity. Qed.

(** *** calculate_statistics *)

Section StatisticsFacts.

Local Open Scope Q_scope.

Variable np_mean : list Q -> Q.
Variable np_percentile : list Q -> Z -> Q.

Lemma positive_spec (x : Q) : positive x = true <-> 0 < x.
Proof.
  unfold positive. destruct (Qlt_le_dec 0 x) as [H|H]; split; intros H';
    try assumption; try reflexivity; try discriminate.
  exfalso. apply (Qlt_not_le _ _ H' H).
Qed.

(** The samples of a field [f] that reach NumPy. *)
Definition kept (f : RequestMetrics -> Q) (metrics : list RequestMetrics)
    : list Q :=
  map f (List.filter (fun m => positive (f m)) metrics).

Lemma kept_positive (f : RequestMetrics -> Q) (metrics : list RequestMetrics) :
  Forall (fun x => 0 < x) (kept f metrics).
Proof.
  unfold kept. apply Forall_forall. intros x Hx.
  apply list_elem_of_In, in_map_iff in Hx as (m & <- & Hm).
  apply filter_In in Hm as [_ Hm]. now apply positive_spec.
Qed.

Lemma kept_drop (f : RequestMetrics -> Q) (before after : list RequestMetrics)
    (m : RequestMetrics) :
  ~ 0 < f m -> kept f (before ++ m :: after)%list = kept f (before ++ after)%list.
Proof.
  intros Hm. unfold kept. rewrite !List.filter_app. simpl.
  destruct (positive (f m)) eqn:Hpos; [|reflexivity].
  apply positive_spec in Hpos. contradiction.
Qed.

(** C10.  Every figure of [calculate_statistics] is computed from the
    positive samples only: the latency mean and percentiles from the
    [e2e_latency_ms > 0] samples, the TTFT figures from the [ttft_ms > 0]
    samples, the tokens-per-second mean from the [tokens_per_second > 0]
    samples (0 when no sample is left).  So a request whose [ttft_ms] is not
    positive does not change the TTFT figures. *)
Theorem calculate_statistics_positive_samples
    (metrics : list RequestMetrics) (throughput_rps : Q) :
  let s := calculate_statistics np_mean np_percentile metrics throughput_rps in
  let latencies := kept e2e_latency_ms metrics in
  let ttfts := kept ttft_ms metrics in
  let tps := kept tokens_per_second metrics in
  let mean data := if is_empty data then 0 else np_mean data in
  let pct data p := if is_empty data then 0 else np_percentile data p in
  (avg_latency_ms s = mean latencies
   /\ p50_latency_ms s = pct latencies 50%Z
   /\ p95_latency_ms s = pct latencies 95%Z
   /\ p99_latency_ms s = pct latencies 99%Z)
  /\ (avg_ttft_ms s = mean ttfts
      /\ p50_ttft_ms s = pct ttfts 50%Z
      /\ p95_ttft_ms s = pct ttfts 95%Z
      /\ p99_ttft_ms s = pct ttfts 99%Z)
  /\ avg_tokens_per_second s = mean tps
  /\ (Forall (fun x => 0 < x) latencies
      /\ Forall (fun x => 0 < x) ttfts
      /\ Forall (fun x => 0 < x) tps)
  /\ (forall (before : list RequestMetrics) m after,
        metrics = (before ++ m :: after)%list -> ~ 0 < ttft_ms m ->
        let s' := calculate_statistics np_mean np_percentile
                    (before ++ after)%list throughput_rps in
        avg_ttft_ms s = avg_ttft_ms s' /\ p50_ttft_ms s = p50_ttft_ms s'
        /\ p95_ttft_ms s = p95_ttft_ms s' /\ p99_ttft_ms s = p99_ttft_ms s').
Proof.
  assert (Hfields : forall l,
    let s := calculate_statistics np_mean np_percentile l throughput_rps in
    let mean data := if is_empty data then 0 else np_mean data in
    let pct data p := if is_empty data then 0 else np_percentile data p in
    (avg_latency_ms s = mean (kept e2e_latency_ms l)
     /\ p50_latency_ms s = pct (kept e2e_latency_ms l) 50%Z
     /\ p95_latency_ms s = pct (kept e2e_latency_ms l) 95%Z
     /\ p99_latency_ms s = pct (kept e2e_latency_ms l) 99%Z)
    /\ (avg_ttft_ms s = mean (kept ttft_ms l)
        /\ p50_ttft_ms s = pct (kept ttft_ms l) 50%Z
        /\ p95_ttft_ms s = pct (kept ttft_ms l) 95%Z
        /\ p99_ttft_ms s = pct (kept ttft_ms l) 99%Z)
    /\ avg_tokens_per_second s = mean (kept tokens_per_second l)).
  { intros l. unfold calculate_statistics, percentile.
    destruct l as [|m l]; [repeat split; reflexivity|].
    change (is_empty (m :: l)) with false. cbv iota. unfold kept.
    generalize (map e2e_latency_ms
                  (List.filter (fun m => positive (e2e_latency_ms m)) (m :: l))).
    generalize (map ttft_ms
                  (List.filter (fun m => positive (ttft_ms m)) (m :: l))).
    generalize (map tokens_per_second
                  (List.filter (fun m => positive (tokens_per_second m)) (m :: l))).
    intros [|] [|] [|]; repeat split; reflexivity. }
  intros s latencies ttfts tps mean pct.
  destruct (Hfields metrics) as (Hlat & Httft & Htps).
  split; [exact Hlat|]. split; [exact Httft|]. split; [exact Htps|].
  split; [repeat split; apply kept_positive|].
  intros before m after -> Hm s'.
  destruct (Hfields (before ++ after)%list) as (_ & (Ha & H50 & H95 & H99) & _).
  destruct Httft as (Ha' & H50' & H95' & H99').
  unfold s'. rewrite Ha, H50, H95, H99. unfold s.
  rewrite Ha', H50', H95', H99'.
  rewrite (kept_drop ttft_ms before after m Hm). repeat split; reflexivity.
Qed.

End StatisticsFacts.

Definition sample (ttft e2e : Q) : RequestMetrics :=
  {| request_id := "req"; start_time := 0%Q; end_time := 0%Q; ttft_ms := ttft;
     e2e_latency_ms := e2e; output_tokens := 0; input_tokens := 0;
     tokens_per_second := 0%Q; error := None |}.

(** Stand-ins for NumPy on rationals: the sum of the samples, and the
    first sample scaled by the percentile. *)
Definition toy_mean (data : list Q) : Q := fold_right Qplus 0%Q data.
Definition toy_percentile (data : list Q) (p : Z) : Q :=
  (hd 0%Q data * inject_Z p)%Q.

Lemma calculate_statistics_witness :
  let s := calculate_statistics toy_mean toy_percentile
             [sample 20%Q 100%Q; sample 0%Q 80%Q; sample 30%Q 120%Q] 3%Q in
  let s' := calculate_statistics toy_mean toy_percentile
              [sample 20%Q 100%Q; sample 30%Q 120%Q] 3%Q in
  avg_ttft_ms s = avg_ttft_ms s' /\ p50_ttft_ms s = p50_ttft_ms s'
  /\ p95_ttft_ms s = p95_ttft_ms s' /\ p99_ttft_ms s = p99_ttft_ms s'.
Proof.
  apply (proj2 (proj2 (proj2 (proj2
           (calculate_statistics_positive_samples toy_mean toy_percentile
              [sample 20%Q 100%Q; sample 0%Q 80%Q; sample 30%Q 120%Q] 3%Q))))
           [sample 20%Q 100%Q] (sample 0%Q 80%Q) [sample 30%Q 120%Q] eq_refl).
  unfold Qlt. simpl. lia.
Defined.

(** *** run_concurrent_test: the concurrency gate *)

Lemma count_state_cons (st x : task_state) (l : list task_state) :
  count_state st (x :: l) = (if decide (x = st) then 1 else 0) + count_state st l.
Proof.
  unfold count_state. rewrite filter_cons.
  destruct (decide (x = st)); simpl length; lia.
Qed.

Lemma count_state_nonneg (st : task_state) (l : list task_state) :
  0 <= count_state st l.
Proof. unfold count_state. lia. Qed.

Lemma count_state_insert (st a b : task_state) (l : list task_state) (i : nat) :
  l !! i = Some a ->
  count_state st (<[i := b]> l)
  = count_state st l - (if decide (a = st) then 1 else 0)
    + (if decide (b = st) then 1 else 0).
Proof.
  revert i. induction l as [|x l IH]; intros [|i] Hi; simpl in Hi;
    try discriminate.
  - inversion Hi; subst. simpl. rewrite !count_state_cons. lia.
  - simpl. rewrite !count_state_cons, (IH i Hi). lia.
Qed.

Lemma count_state_replicate (st a : task_state) (n : nat) :
  a <> st -> count_state st (replicate n a) = 0.
Proof.
  intros Hne. induction n as [|n IH]; [reflexivity|].
  simpl. rewrite count_state_cons, IH. destruct (decide (a = st)); [contradiction|lia].
Qed.

Lemma count_state_pos_lookup (st : task_state) (l : list task_state) :
  0 < count_state st l -> exists i, l !! i = Some st.
Proof.
  induction l as [|x l IH]; [unfold count_state; simpl; lia|].
  rewrite count_state_cons. destruct (decide (x = st)) as [->|Hne].
  - intros _. exists 0%nat. reflexivity.
  - intros Hpos. destruct IH as [i Hi]; [lia|]. exists (S i). exact Hi.
Qed.

Lemma count_state_zero_settled (l : list task_state) :
  count_state Queued l = 0 -> count_state InFlight l = 0 ->
  Forall (fun x => x = Settled) l.
Proof.
  induction l as [|x l IH]; [constructor|].
  rewrite !count_state_cons. intros Hq Hf.
  pose proof (count_state_nonneg Queued l).
  pose proof (count_state_nonneg InFlight l).
  destruct x; simpl in *; try lia.
  constructor; [reflexivity | apply IH; lia].
Qed.

(** The gate's invariant: the slots handed out and the slots left add up to
    the initial value of the semaphore. *)
Definition gate_inv (concurrency : Z) (s : sched) : Prop :=
  sem_value s + in_flight s = concurrency /\ 0 <= sem_value s.

Lemma gate_inv_initial (concurrency num_requests : Z) :
  0 <= concurrency -> gate_inv concurrency (initial concurrency num_requests).
Proof.
  intros Hc. unfold gate_inv, in_flight, initial. simpl.
  rewrite count_state_replicate by discriminate. lia.
Qed.

Lemma gate_inv_step (concurrency : Z) (s s' : sched) :
  gate_inv concurrency s -> step s s' -> gate_inv concurrency s'.
Proof.
  intros [Hsum Hpos] Hstep. unfold gate_inv, in_flight in *.
  destruct Hstep as [s i Hi Hfree | s i Hi]; simpl;
    rewrite (count_state_insert _ _ _ _ _ Hi); simpl; lia.
Qed.

Lemma gate_inv_reachable (concurrency : Z) (s s' : sched) :
  gate_inv concurrency s -> rtc step s s' -> gate_inv concurrency s'.
Proof. intros Hinv Hrun. induction Hrun; eauto using gate_inv_step. Qed.

(** Number of scheduling events still to come. *)
Definition pending (s : sched) : Z :=
  2 * count_state Queued (tasks s) + count_state InFlight (tasks s).

Lemma gate_drains (concurrency : Z) :
  0 < concurrency ->
  forall (n : nat) (s : sched),
    pending s = Z.of_nat n -> gate_inv concurrency s ->
    exists s', rtc step s s' /\ all_settled s'.
Proof.
  intros Hc. induction n as [n IH] using lt_wf_ind. intros s Hn Hinv.
  pose proof (count_state_nonneg Queued (tasks s)) as Hq.
  pose proof (count_state_nonneg InFlight (tasks s)) as Hf.
  destruct (Z.eq_dec (count_state InFlight (tasks s)) 0) as [Hnone|Hsome].
  - destruct (Z.eq_dec (count_state Queued (tasks s)) 0) as [Hdone|Hwait].
    + exists s. split; [reflexivity|].
      now apply count_state_zero_settled.
    + destruct (count_state_pos_lookup Queued (tasks s)) as [i Hi]; [lia|].
      assert (Hfree : 0 < sem_value s).
      { destruct Hinv as [Hsum _]. unfold in_flight in Hsum. lia. }
      pose proof (step_acquire s i Hi Hfree) as Hstep.
      destruct (IH (Z.to_nat (pending s - 1))) with
        (s := {| sem_value := sem_value s - 1;
                 tasks := <[i := InFlight]> (tasks s) |}) as (s' & Hrun & Hall).
      * unfold pending in *. lia.
      * unfold pending in *. simpl.
        rewrite !(count_state_insert _ _ _ _ _ Hi). simpl. lia.
      * eapply gate_inv_step; eassumption.
      * exists s'. split; [|exact Hall]. eapply rtc_l; eassumption.
  - destruct (count_state_pos_lookup InFlight (tasks s)) as [i Hi]; [lia|].
    pose proof (step_release s i Hi) as Hstep.
    destruct (IH (Z.to_nat (pending s - 1))) with
      (s := {| sem_value := sem_value s + 1;
               tasks := <[i := Settled]> (tasks s) |}) as (s' & Hrun & Hall).
    + unfold pending in *. lia.
    + unfold pending in *. simpl.
      rewrite !(count_state_insert _ _ _ _ _ Hi). simpl. lia.
    + eapply gate_inv_step; eassumption.
    + exists s'. split; [|exact Hall]. eapply rtc_l; eassumption.
Qed.

(** With no slot at all nothing ever happens: the tasks stay queued, which
    is why [run_concurrent_test] never completes for [concurrency = 0] and a
    positive number of requests. *)
Lemma gate_closed_stays_initial (num_requests : Z) (s : sched) :
  rtc step (initial 0 num_requests) s -> s = initial 0 num_requests.
Proof.
  intros Hrun. remember (initial 0 num_requests) as s0 eqn:Hs0.
  induction Hrun as [|s1 s2 s3 Hstep _ _]; [reflexivity|].
  exfalso. destruct Hstep as [s i Hi Hfree | s i Hi]; subst s.
  - simpl in Hfree. lia.
  - simpl in Hi. apply lookup_replicate in Hi as [Hi _]. discriminate.
Qed.

Lemma gate_closed_never_settles (num_requests : Z) (s : sched) :
  0 < num_requests ->
  rtc step (initial 0 num_requests) s -> ~ all_settled s.
Proof.
  intros Hn Hrun Hall. rewrite (gate_closed_stays_initial _ _ Hrun) in Hall.
  unfold all_settled, initial in Hall. simpl in Hall.
  destruct (Z.to_nat num_requests) as [|n] eqn:Hz; [lia|].
  simpl in Hall. inversion Hall; discriminate.
Qed.

(** *** run_concurrent_test: the semaphore on the event loop *)

(** The stages that a task of the measured phase goes through: not started;
    waiting for the semaphore; admitted, about to call [send_request]; in
    the call; back from the call, about to release the semaphore; about to
    return; over. *)
Inductive phase := NotStarted | Waiting | Granted | InCall | Returned | Leaving | Over.

#[global] Instance phase_eq_dec : EqDecision phase.
Proof. solve_decision. Defined.

(** Whether a task at this stage holds a slot of the semaphore, and the
    number of turns it still has to take. *)
Definition held (p : phase) : nat :=
  match p with
  | Granted | InCall | Returned => 1%nat
  | _ => 0%nat
  end.

Definition turns_left (p : phase) : nat :=
  match p with
  | NotStarted => 6%nat
  | Waiting => 5%nat
  | Granted => 4%nat
  | InCall => 3%nat
  | Returned => 2%nat
  | Leaving => 1%nat
  | Over => 0%nat
  end.

Definition task_rank (t : task) : nat :=
  match t with
  | Ready (Acquire _) => 6%nat
  | Blocked _ => 5%nat
  | Ready (AwaitSendRequest _ _ _) => 4%nat
  | Calling _ _ _ => 3%nat
  | Ready (Release _) => 2%nat
  | Ready (Return _) => 1%nat
  | Finished _ => 0%nat
  end.

(** The turns that the tasks of a state have yet to take, at most. *)
Definition remaining (s : loop) : nat :=
  list_sum (map task_rank (loop_tasks s)).

Fixpoint total {A} (f : A -> nat) (l : list A) : nat :=
  match l with
  | [] => 0%nat
  | x :: r => (f x + total f r)%nat
  end.

Lemma total_insert {A} (f : A -> nat) (l : list A) (i : nat) (a b : A) :
  l !! i = Some a -> (total f (<[i := b]> l) + f a = total f l + f b)%nat.
Proof.
  revert i. induction l as [|x l IH]; intros [|i] Hi; simpl in Hi;
    try discriminate.
  - inversion Hi; subst. simpl. lia.
  - simpl. specialize (IH i Hi). lia.
Qed.

Lemma total_pos_lookup {A} (f : A -> nat) (l : list A) :
  (0 < total f l)%nat -> exists i a, l !! i = Some a /\ (0 < f a)%nat.
Proof.
  induction l as [|x l IH]; simpl; [lia|]. intros Hpos.
  destruct (Nat.eq_dec (f x) 0%nat) as [Hz|Hnz].
  - destruct IH as (i & a & Hi & Ha); [lia|]. exists (S i), a. split; assumption.
  - exists 0%nat, x. split; [reflexivity | lia].
Qed.

Lemma total_zero {A} (f : A -> nat) (l : list A) :
  total f l = 0%nat -> Forall (fun a => f a = 0%nat) l.
Proof.
  induction l as [|x l IH]; simpl; intros H; constructor; [lia | apply IH; lia].
Qed.

Lemma total_imap {A B} (g : B -> nat) (h : A -> nat) (l : list A) :
  forall f : nat -> A -> B,
    (forall i a, g (f i a) = h a) -> total g (imap f l) = total h l.
Proof.
  induction l as [|x l IH]; intros f Hf; [reflexivity|].
  simpl. rewrite Hf. f_equal. apply IH. intros i a. apply Hf.
Qed.

Lemma list_sum_total {A} (f : A -> nat) (l : list A) :
  list_sum (map f l) = total f l.
Proof. induction l as [|x l IH]; simpl; [reflexivity | now rewrite IH]. Qed.

Lemma filter_length_total {A} (g : A -> bool) (l : list A) :
  length (List.filter g l) = total (fun a => if g a then 1%nat else 0%nat) l.
Proof.
  induction l as [|x l IH]; simpl; [reflexivity|].
  destruct (g x); simpl; now rewrite IH.
Qed.

Lemma imap_insert {A B} (l : list A) :
  forall (f : nat -> A -> B) (i : nat) (a : A),
    <[i := f i a]> (imap f l) = imap f (<[i := a]> l).
Proof.
  induction l as [|x l IH]; intros f i a; [reflexivity|].
  destruct i as [|i]; simpl; [reflexivity|].
  f_equal. apply (IH (f ∘ S) i a).
Qed.

Lemma insert_lookup {A} (l : list A) :
  forall (i k : nat) (a b : A),
    l !! i = Some a ->
    <[i := b]> l !! k = if decide (k = i) then Some b else l !! k.
Proof.
  induction l as [|x l IH]; intros [|i] [|k] a b Hi; simpl in *;
    try discriminate; try reflexivity.
  rewrite (IH i k a b Hi).
  destruct (decide (k = i)), (decide (S k = S i)); try reflexivity; lia.
Qed.

Section Dispatch.

Variable json_loads : string -> option json.
Variable client_of : string -> http_request -> transport.
Variable clock_of : string -> nat -> Q.
Variable draw_of : string -> nat.
Variable c : config.

(** The request that the task at position [i] sends, and what the task
    returns. *)
Definition request_of (i : nat) : string := "req-" +:+ pretty (Z.of_nat i).

Definition prompt_of (i : nat) : string :=
  generate_prompt c (draw_of (request_of i)).

Definition metrics_of (i : nat) : RequestMetrics :=
  bounded_request json_loads client_of clock_of draw_of c (Z.of_nat i).

Definition leave (m : RequestMetrics) : coroutine := Release (Return m).

(** The task at position [i] when it is at a given stage. *)
Definition task_in (i : nat) (p : phase) : task :=
  match p with
  | NotStarted => Ready (bounded_request_coroutine draw_of c (Z.of_nat i))
  | Waiting => Blocked (AwaitSendRequest (request_of i) (prompt_of i) leave)
  | Granted => Ready (AwaitSendRequest (request_of i) (prompt_of i) leave)
  | InCall => Calling (request_of i) (prompt_of i) leave
  | Returned => Ready (Release (Return (metrics_of i)))
  | Leaving => Ready (Return (metrics_of i))
  | Over => Finished (metrics_of i)
  end.

(** What holds of every state of the measured phase with a semaphore of
    [C] slots and [N] tasks: each task is at one of the stages, the counter
    of the semaphore is the number of slots not held, the waiting tasks are
    those queued on the semaphore, and tasks wait only when the counter is
    zero. *)
Definition dispatch_inv (C : Z) (N : nat) (s : loop) (ps : list phase) : Prop :=
  loop_tasks s = imap task_in ps /\
  length ps = N /\
  sem_counter s + Z.of_nat (total held ps) = C /\
  0 <= sem_counter s /\
  NoDup (sem_waiters s) /\
  (forall i, i ∈ sem_waiters s <-> ps !! i = Some Waiting) /\
  (sem_waiters s <> [] -> sem_counter s = 0) /\
  (C = 0 -> Forall (fun p => p = NotStarted \/ p = Waiting) ps).

Lemma inv_lookup C N s ps i :
  dispatch_inv C N s ps -> loop_tasks s !! i = task_in i <$> ps !! i.
Proof. intros (Ht & _). rewrite Ht. apply list_lookup_imap. Qed.

Lemma inv_initial C N :
  0 <= C ->
  dispatch_inv C N
    {| sem_counter := C; sem_waiters := [];
       loop_tasks :=
         map (fun i => Ready (bounded_request_coroutine draw_of c i))
           (map Z.of_nat (seq 0 N)) |}
    (replicate N NotStarted).
Proof.
  intros HC. unfold dispatch_inv. simpl.
  assert (Htot : forall n, total held (replicate n NotStarted) = 0%nat).
  { induction n; simpl; auto. }
  repeat split.
  - apply list_eq. intros i. rewrite list_lookup_imap, !list_lookup_fmap.
    destruct (decide (i < N)%nat) as [Hlt|Hge].
    + rewrite lookup_seq_lt by assumption.
      rewrite lookup_replicate_2 by assumption. reflexivity.
    + rewrite lookup_seq_ge by lia.
      rewrite (proj1 (lookup_replicate_None N NotStarted i)) by lia. reflexivity.
  - apply length_replicate.
  - rewrite Htot. lia.
  - assumption.
  - constructor.
  - intros H. inversion H.
  - intros H. apply lookup_replicate in H. destruct H as [H _]. discriminate.
  - congruence.
  - intros _. apply Forall_replicate. now left.
Qed.

(** The turn of the task at position [i], by the stage the task is at. *)
Lemma turn_phase C N s ps i p :
  dispatch_inv C N s ps -> ps !! i = Some p ->
  turn json_loads client_of clock_of c i s =
  match p with
  | NotStarted =>
      if (0 <? sem_counter s) && is_empty (sem_waiters s) then
        Some {| sem_counter := sem_counter s - 1;
                sem_waiters := sem_waiters s;
                loop_tasks := <[i := task_in i Granted]> (loop_tasks s) |}
      else
        Some {| sem_counter := sem_counter s;
                sem_waiters := sem_waiters s ++ [i];
                loop_tasks := <[i := task_in i Waiting]> (loop_tasks s) |}
  | Waiting => None
  | Granted =>
      Some {| sem_counter := sem_counter s;
              sem_waiters := sem_waiters s;
              loop_tasks := <[i := task_in i InCall]> (loop_tasks s) |}
  | InCall =>
      Some {| sem_counter := sem_counter s;
              sem_waiters := sem_waiters s;
              loop_tasks := <[i := task_in i Returned]> (loop_tasks s) |}
  | Returned =>
      match sem_waiters s with
      | [] =>
          Some {| sem_counter := sem_counter s + 1;
                  sem_waiters := [];
                  loop_tasks := <[i := task_in i Leaving]> (loop_tasks s) |}
      | j :: rest =>
          Some {| sem_counter := sem_counter s;
                  sem_waiters := rest;
                  loop_tasks :=
                    <[j := task_in j Granted]>
                      (<[i := task_in i Leaving]> (loop_tasks s)) |}
      end
  | Leaving =>
      Some {| sem_counter := sem_counter s;
              sem_waiters := sem_waiters s;
              loop_tasks := <[i := task_in i Over]> (loop_tasks s) |}
  | Over => None
  end.
Proof.
  intros Hinv Hp. unfold turn. rewrite (inv_lookup _ _ _ _ i Hinv), Hp.
  destruct p; try reflexivity. simpl.
  destruct (sem_waiters s) as [|j rest] eqn:Hw; [reflexivity|].
  assert (Hj : ps !! j = Some Waiting).
  { destruct Hinv as (_ & _ & _ & _ & _ & Hwait & _).
    apply Hwait. rewrite Hw. apply elem_of_cons. now left. }
  rewrite (inv_lookup _ _ _ _ j Hinv), Hj. reflexivity.
Qed.

Lemma is_empty_true {A} (l : list A) : is_empty l = true -> l = [].
Proof. destruct l; [reflexivity | discriminate]. Qed.

Lemma total_held_closed (ps : list phase) :
  Forall (fun p => p = NotStarted \/ p = Waiting) ps -> total held ps = 0%nat.
Proof.
  induction 1 as [|p ps [-> | ->] _ IH]; simpl; [reflexivity | exact IH | exact IH].
Qed.

(** Every turn keeps the invariant and brings the tasks closer to their
    end. *)
Lemma inv_turn C N s ps i s' :
  dispatch_inv C N s ps ->
  turn json_loads client_of clock_of c i s = Some s' ->
  exists ps', dispatch_inv C N s' ps' /\ (total turns_left ps' < total turns_left ps)%nat.
Proof.
  intros Hinv Ht.
  destruct (ps !! i) as [p|] eqn:Hp.
  2: { unfold turn in Ht. rewrite (inv_lookup _ _ _ _ i Hinv), Hp in Ht.
       discriminate. }
  rewrite (turn_phase _ _ _ _ _ _ Hinv Hp) in Ht.
  destruct Hinv as (Htasks & Hlen & Hslots & Hpos & Hnd & Hwait & Hlock & Hclosed).
  pose proof (fun q => total_insert held ps i p q Hp) as Hheld.
  pose proof (fun q => total_insert turns_left ps i p q Hp) as Hrank.
  assert (Hopen : held p = 1%nat -> C <> 0).
  { intros Hh HC. specialize (Hclosed HC).
    rewrite Forall_lookup in Hclosed. destruct (Hclosed i p Hp); subst p; discriminate. }
  assert (Hopen' : (turns_left p < 5)%nat -> C <> 0).
  { intros Hh HC. specialize (Hclosed HC).
    rewrite Forall_lookup in Hclosed.
    destruct (Hclosed i p Hp); subst p; simpl in Hh; lia. }
  assert (Hins : forall q k,
            <[i := q]> ps !! k = if decide (k = i) then Some q else ps !! k).
  { intros q k. apply (insert_lookup ps i k p q Hp). }
  destruct p; try discriminate.
  - (* acquire *)
    destruct ((0 <? sem_counter s) && is_empty (sem_waiters s)) eqn:Hfree;
      inversion Ht; subst s'; clear Ht.
    + apply andb_true_iff in Hfree. destruct Hfree as [Hc He].
      apply Z.ltb_lt in Hc. apply is_empty_true in He.
      exists (<[i := Granted]> ps). split; [|specialize (Hrank Granted); simpl in Hrank; lia].
      unfold dispatch_inv. simpl. specialize (Hheld Granted). simpl in Hheld.
      repeat split.
      * rewrite Htasks. exact (imap_insert ps task_in i Granted).
      * now rewrite length_insert.
      * lia.
      * lia.
      * assumption.
      * rewrite He. intros H. inversion H.
      * rewrite Hins. destruct (decide (i0 = i)); [discriminate|].
        intros H. apply Hwait in H. rewrite He in H. inversion H.
      * rewrite He. congruence.
      * intros HC. exfalso. specialize (Hclosed HC).
        apply total_held_closed in Hclosed. lia.
    + exists (<[i := Waiting]> ps). split; [|specialize (Hrank Waiting); simpl in Hrank; lia].
      unfold dispatch_inv. simpl. specialize (Hheld Waiting). simpl in Hheld.
      assert (Hni : i ∉ sem_waiters s).
      { intros H. apply Hwait in H. congruence. }
      repeat split.
      * rewrite Htasks. exact (imap_insert ps task_in i Waiting).
      * now rewrite length_insert.
      * lia.
      * assumption.
      * apply NoDup_app. repeat split; [assumption | | apply NoDup_singleton].
        intros x Hx Hxi. apply list_elem_of_singleton in Hxi. subst x. contradiction.
      * rewrite Hins. intros H. apply elem_of_app in H. destruct H as [H|H].
        -- destruct (decide (i0 = i)); [reflexivity | now apply Hwait].
        -- apply list_elem_of_singleton in H. subst i0.
           destruct (decide (i = i)); [reflexivity | congruence].
      * rewrite Hins. intros H. apply elem_of_app.
        destruct (decide (i0 = i)) as [->|Hne].
        -- right. now apply list_elem_of_singleton.
        -- left. now apply Hwait.
      * intros _. apply andb_false_iff in Hfree. destruct Hfree as [Hc|He].
        -- apply Z.ltb_ge in Hc. lia.
        -- apply Hlock. intros Hnil. rewrite Hnil in He. discriminate.
      * intros HC. apply Forall_insert; [now apply Hclosed | now right].
  - (* the call starts *)
    inversion Ht; subst s'; clear Ht.
    exists (<[i := InCall]> ps). split; [|specialize (Hrank InCall); simpl in Hrank; lia].
    unfold dispatch_inv. simpl. specialize (Hheld InCall). simpl in Hheld.
    repeat split; try assumption.
    + rewrite Htasks. exact (imap_insert ps task_in i InCall).
    + now rewrite length_insert.
    + lia.
    + rewrite Hins. intros H. destruct (decide (i0 = i)) as [->|Hne];
        [apply Hwait in H; congruence | now apply Hwait].
    + rewrite Hins. destruct (decide (i0 = i)); [discriminate | apply Hwait].
    + intros HC. exfalso. now apply Hopen.
  - (* the call returns *)
    inversion Ht; subst s'; clear Ht.
    exists (<[i := Returned]> ps). split; [|specialize (Hrank Returned); simpl in Hrank; lia].
    unfold dispatch_inv. simpl. specialize (Hheld Returned). simpl in Hheld.
    repeat split; try assumption.
    + rewrite Htasks. exact (imap_insert ps task_in i Returned).
    + now rewrite length_insert.
    + lia.
    + rewrite Hins. intros H. destruct (decide (i0 = i)) as [->|Hne];
        [apply Hwait in H; congruence | now apply Hwait].
    + rewrite Hins. destruct (decide (i0 = i)); [discriminate | apply Hwait].
    + intros HC. exfalso. now apply Hopen.
  - (* release *)
    destruct (sem_waiters s) as [|j rest] eqn:Hw; inversion Ht; subst s'; clear Ht.
    + exists (<[i := Leaving]> ps). split; [|specialize (Hrank Leaving); simpl in Hrank; lia].
      unfold dispatch_inv. simpl. specialize (Hheld Leaving). simpl in Hheld.
      repeat split.
      * rewrite Htasks. exact (imap_insert ps task_in i Leaving).
      * now rewrite length_insert.
      * lia.
      * lia.
      * constructor.
      * intros H. inversion H.
      * rewrite Hins. destruct (decide (i0 = i)); [discriminate|].
        intros H. apply Hwait in H. inversion H.
      * congruence.
      * intros HC. exfalso. now apply Hopen.
    + assert (Hj : ps !! j = Some Waiting).
      { apply Hwait. apply elem_of_cons. now left. }
      assert (Hji : j <> i) by congruence.
      assert (Hj' : <[i := Leaving]> ps !! j = Some Waiting).
      { rewrite Hins. destruct (decide (j = i)); [contradiction | assumption]. }
      apply NoDup_cons in Hnd. destruct Hnd as [Hjr Hnd].
      exists (<[j := Granted]> (<[i := Leaving]> ps)). split.
      2: { pose proof (total_insert turns_left _ j Waiting Granted Hj') as Hrank'.
           specialize (Hrank Leaving). simpl in Hrank, Hrank'. lia. }
      unfold dispatch_inv. simpl.
      pose proof (total_insert held _ j Waiting Granted Hj') as Hheld'.
      specialize (Hheld Leaving). simpl in Hheld, Hheld'.
      assert (Hins' : forall k,
                <[j := Granted]> (<[i := Leaving]> ps) !! k =
                if decide (k = j) then Some Granted
                else if decide (k = i) then Some Leaving else ps !! k).
      { intros k. rewrite (insert_lookup _ j k Waiting Granted Hj').
        destruct (decide (k = j)); [reflexivity | apply Hins]. }
      repeat split.
      * rewrite Htasks.
        rewrite <- (imap_insert (<[i := Leaving]> ps) task_in j Granted).
        rewrite <- (imap_insert ps task_in i Leaving). reflexivity.
      * now rewrite !length_insert.
      * lia.
      * assumption.
      * assumption.
      * rewrite Hins'. intros H.
        destruct (decide (i0 = j)) as [->|Hnj]; [contradiction|].
        assert (Hi0 : ps !! i0 = Some Waiting).
        { apply Hwait. apply elem_of_cons. now right. }
        destruct (decide (i0 = i)) as [->|Hni]; [congruence | assumption].
      * rewrite Hins'. destruct (decide (i0 = j)); [discriminate|].
        destruct (decide (i0 = i)); [discriminate|].
        intros H. apply Hwait in H. apply elem_of_cons in H.
        destruct H as [H|H]; [contradiction | assumption].
      * intros _. apply Hlock. discriminate.
      * intros HC. exfalso. now apply Hopen.
  - (* return *)
    inversion Ht; subst s'; clear Ht.
    exists (<[i := Over]> ps). split; [|specialize (Hrank Over); simpl in Hrank; lia].
    unfold dispatch_inv. simpl. specialize (Hheld Over). simpl in Hheld.
    repeat split; try assumption.
    + rewrite Htasks. exact (imap_insert ps task_in i Over).
    + now rewrite length_insert.
    + lia.
    + rewrite Hins. intros H. destruct (decide (i0 = i)) as [->|Hne];
        [apply Hwait in H; congruence | now apply Hwait].
    + rewrite Hins. destruct (decide (i0 = i)); [discriminate | apply Hwait].
    + intros HC. exfalso. apply Hopen'; [simpl; lia | assumption].
Qed.

Lemma total_all_zero {A} (f : A -> nat) (l : list A) :
  Forall (fun a => f a = 0%nat) l -> total f l = 0%nat.
Proof. induction 1 as [|a l Ha _ IH]; simpl; [reflexivity | lia]. Qed.

(** Some task can take a turn as long as the semaphore has a slot at all
    and some task is not over. *)
Lemma inv_progress C N s ps :
  dispatch_inv C N s ps -> 0 < C -> (0 < total turns_left ps)%nat ->
  exists i s', turn json_loads client_of clock_of c i s = Some s'.
Proof.
  intros Hinv HC Hrank.
  set (runnable := fun p => match p with Waiting | Over => 0%nat | _ => 1%nat end).
  destruct (Nat.eq_dec (total runnable ps) 0%nat) as [Hnone|Hsome].
  - exfalso. apply total_zero in Hnone. rewrite Forall_lookup in Hnone.
    destruct (total_pos_lookup turns_left ps Hrank) as (i & p & Hp & Hpos).
    assert (p = Waiting) as ->.
    { specialize (Hnone i p Hp). destruct p; simpl in *; try discriminate; [reflexivity | lia]. }
    destruct Hinv as (_ & _ & Hslots & _ & _ & Hwait & Hlock & _).
    assert (Hheld : total held ps = 0%nat).
    { apply total_all_zero. apply Forall_lookup. intros k q Hq.
      specialize (Hnone k q Hq). destruct q; simpl in *; try discriminate; reflexivity. }
    apply Hwait in Hp.
    assert (sem_counter s = 0).
    { apply Hlock. intros Hnil. rewrite Hnil in Hp. inversion Hp. }
    lia.
  - destruct (total_pos_lookup runnable ps) as (i & p & Hp & Hpos); [lia|].
    exists i. rewrite (turn_phase _ _ _ _ _ _ Hinv Hp).
    destruct p; simpl in Hpos; try lia.
    + destruct ((0 <? sem_counter s) && is_empty (sem_waiters s)); eauto.
    + eauto.
    + eauto.
    + destruct (sem_waiters s); eauto.
    + eauto.
Qed.

Lemma gathered_finished (tasks : list task) :
  forall results, gathered tasks = Some results <-> tasks = map Finished results.
Proof.
  induction tasks as [|t tasks IH]; intros results; simpl.
  - split; intros H.
    + inversion H. reflexivity.
    + destruct results; [reflexivity | discriminate].
  - destruct t; try (split; intros H; [discriminate | destruct results; discriminate]).
    destruct (gathered tasks) as [rest|] eqn:Hg.
    + split; intros H.
      * inversion H; subst. simpl. f_equal. now apply IH.
      * destruct results as [|r results]; [discriminate|].
        inversion H; subst. f_equal. f_equal.
        assert (Some rest = Some results) as Heq by (now apply IH).
        now inversion Heq.
    + split; intros H; [discriminate|].
      destruct results as [|r results]; [discriminate|].
      inversion H; subst.
      assert (None = Some results) by (now apply IH). discriminate.
Qed.

(** What the gathered tasks deliver: the metrics of each request, in the
    order of the tasks. *)
Lemma inv_gathered C N s ps results :
  dispatch_inv C N s ps -> gathered (loop_tasks s) = Some results ->
  results = map metrics_of (seq 0 N) /\ Forall (fun p => p = Over) ps.
Proof.
  intros (Htasks & Hlen & _) Hg. apply gathered_finished in Hg.
  rewrite Htasks in Hg.
  assert (Hl : forall i, task_in i <$> ps !! i = Finished <$> results !! i).
  { intros i. rewrite <- list_lookup_imap, Hg. apply list_lookup_fmap. }
  assert (Hlr : length results = N).
  { rewrite <- Hlen. apply (f_equal length) in Hg.
    rewrite length_imap, length_map in Hg. congruence. }
  split.
  - apply list_eq. intros i. rewrite list_lookup_fmap.
    destruct (decide (i < N)%nat) as [Hlt|Hge].
    + rewrite lookup_seq_lt by assumption. simpl.
      specialize (Hl i).
      destruct (lookup_lt_is_Some_2 ps i) as [p Hp]; [lia|].
      destruct (lookup_lt_is_Some_2 results i) as [m Hm]; [lia|].
      rewrite Hp, Hm in Hl. simpl in Hl. rewrite Hm.
      destruct p; simpl in Hl; try discriminate. now inversion Hl.
    + rewrite lookup_seq_ge by lia. apply lookup_ge_None. lia.
  - apply Forall_lookup. intros i p Hp. specialize (Hl i).
    rewrite Hp in Hl. simpl in Hl.
    destruct (results !! i); [|discriminate].
    destruct p; simpl in Hl; try discriminate. reflexivity.
Qed.

Lemma inv_over C N s ps :
  dispatch_inv C N s ps -> total turns_left ps = 0%nat ->
  gathered (loop_tasks s) = Some (map metrics_of (seq 0 N)).
Proof.
  intros (Htasks & Hlen & _) Hz. apply gathered_finished.
  apply total_zero in Hz. rewrite Forall_lookup in Hz.
  rewrite Htasks. apply list_eq. intros i.
  rewrite list_lookup_imap, !list_lookup_fmap.
  destruct (decide (i < N)%nat) as [Hlt|Hge].
  - rewrite lookup_seq_lt by assumption.
    destruct (lookup_lt_is_Some_2 ps i) as [p Hp]; [lia|].
    rewrite Hp. simpl. specialize (Hz i p Hp).
    destruct p; try discriminate. reflexivity.
  - rewrite lookup_seq_ge by lia.
    rewrite (proj2 (lookup_ge_None ps i)) by lia. reflexivity.
Qed.

(** With a slot to give, the tasks can always be run to their end. *)
Lemma inv_finishes C N :
  0 < C ->
  forall n s ps,
    dispatch_inv C N s ps -> total turns_left ps = n ->
    exists s_end,
      rtc (loop_step json_loads client_of clock_of c) s s_end /\
      gathered (loop_tasks s_end) = Some (map metrics_of (seq 0 N)).
Proof.
  intros HC n. induction n as [n IH] using lt_wf_ind. intros s ps Hinv Hn.
  destruct (Nat.eq_dec n 0%nat) as [Hz|Hnz].
  - exists s. split; [apply rtc_refl|]. apply (inv_over _ _ _ _ Hinv). lia.
  - destruct (inv_progress _ _ _ _ Hinv HC) as (i & s' & Hturn); [lia|].
    destruct (inv_turn _ _ _ _ _ _ Hinv Hturn) as (ps' & Hinv' & Hlt).
    destruct (IH (total turns_left ps') ltac:(lia) s' ps' Hinv' eq_refl)
      as (s_end & Hrun & Hg).
    exists s_end. split; [|assumption].
    eapply rtc_l; [|exact Hrun]. exists i. exact Hturn.
Qed.

Lemma inv_rtc C N s ps s' :
  dispatch_inv C N s ps ->
  rtc (loop_step json_loads client_of clock_of c) s s' ->
  exists ps', dispatch_inv C N s' ps'.
Proof.
  intros Hinv Hrun. revert ps Hinv.
  induction Hrun as [s|s s1 s2 [i Hturn] _ IH]; intros ps Hinv.
  - now exists ps.
  - destruct (inv_turn _ _ _ _ _ _ Hinv Hturn) as (ps1 & Hinv1 & _).
    now apply (IH ps1).
Qed.

End Dispatch.

(** Whether a task holds a slot of the semaphore: it has left
    [semaphore.acquire()] and has not yet called [semaphore.release()]. *)
Definition holds_slot (t : task) : bool :=
  match t with
  | Ready (AwaitSendRequest _ _ _) | Calling _ _ _ | Ready (Release _) => true
  | _ => false
  end.

Definition slots_held (s : loop) : Z :=
  Z.of_nat (length (List.filter holds_slot (loop_tasks s))).

Lemma calls_hold_slots (tasks : list task) :
  (length (List.filter is_calling tasks) <=
   length (List.filter holds_slot tasks))%nat.
Proof.
  induction tasks as [|t tasks IH]; simpl; [lia|].
  destruct t as [[]| | |]; simpl; lia.
Qed.

Lemma calls_in_flight_insert (s : loop) (i : nat) (t t' : task) :
  loop_tasks s !! i = Some t ->
  Z.of_nat (length (List.filter is_calling (<[i := t']> (loop_tasks s)))) =
  calls_in_flight s
  + (if is_calling t' then 1 else 0) - (if is_calling t then 1 else 0).
Proof.
  intros Hi. unfold calls_in_flight. rewrite !filter_length_total.
  pose proof (total_insert (fun a => if is_calling a then 1%nat else 0%nat)
                _ i t t' Hi) as H.
  cbv beta in H. destruct (is_calling t), (is_calling t'); lia.
Qed.

Section Bound.

Variable json_loads : string -> option json.
Variable client_of : string -> http_request -> transport.
Variable clock_of : string -> nat -> Q.
Variable draw_of : string -> nat.
Variable wall_start wall_end : Q.
Variable now_isoformat : string.

Lemma measured_phase_inv (c : config) (s0 : loop) :
  measured_phase draw_of c = Ok s0 ->
  dispatch_inv json_loads client_of clock_of draw_of c
    (default 10 (concurrency (load_section c)))
    (Z.to_nat (default 100 (num_requests (load_section c))))
    s0
    (replicate (Z.to_nat (default 100 (num_requests (load_section c))))
       NotStarted).
Proof.
  unfold measured_phase, Semaphore. simpl.
  destruct (Z.ltb_spec (default 10 (concurrency (load_section c))) 0)
    as [Hneg|HC]; [discriminate|].
  intros H. inversion H; subst s0; clear H.
  apply inv_initial. exact HC.
Qed.

Lemma inv_measures (c : config) C N s ps :
  dispatch_inv json_loads client_of clock_of draw_of c C N s ps ->
  slots_held s = Z.of_nat (total held ps) /\ remaining s = total turns_left ps.
Proof.
  intros (Htasks & _). unfold slots_held, remaining.
  rewrite filter_length_total, list_sum_total, Htasks. split.
  - f_equal. apply total_imap. intros i p. destruct p; reflexivity.
  - apply total_imap. intros i p. destruct p; reflexivity.
Qed.

Lemma metrics_of_range (c : config) (n : Z) :
  map (metrics_of json_loads client_of clock_of draw_of c) (seq 0 (Z.to_nat n)) =
  map (bounded_request json_loads client_of clock_of draw_of c) (range n).
Proof. unfold range. rewrite map_map. reflexivity. Qed.

(** C1.  In every state that the measured phase can reach, whatever the
    order in which the event loop lets the tasks run, at most [concurrency]
    calls of [send_request] have started and not returned: a call is made
    only by a task that holds a slot of the semaphore, and the counter of
    the semaphore is [concurrency] minus the slots held.  A task that
    arrives while a slot is free takes it at once; one that arrives while
    all are held is queued.  When a task that has finished its call leaves
    the [async with] block and tasks are queued, its slot goes to the task
    queued first: that task is taken off the queue, becomes ready, and its
    next turn starts its call of [send_request]; with nobody queued the
    counter goes up by one.  Every turn brings the phase closer to its end;
    with [concurrency > 0] the phase can always be run to the end; and once
    every task is over, the gathered results are those of
    [bounded_request] for each index, in order, which is what
    [run_concurrent_test] summarizes. *)
Theorem semaphore_bounds_in_flight (c : config) (s0 s : loop) :
  let C := default 10 (concurrency (load_section c)) in
  let N := default 100 (num_requests (load_section c)) in
  let run := loop_step json_loads client_of clock_of c in
  let go := turn json_loads client_of clock_of c in
  let results :=
    map (bounded_request json_loads client_of clock_of draw_of c) (range N) in
  measured_phase draw_of c = Ok s0 ->
  rtc run s0 s ->
  calls_in_flight s <= C
  /\ (calls_in_flight s <= slots_held s
      /\ sem_counter s = C - slots_held s
      /\ 0 <= sem_counter s
      /\ length (loop_tasks s) = Z.to_nat N
      /\ (sem_waiters s <> [] -> slots_held s = C))
  /\ (forall i k,
        loop_tasks s !! i = Some (Ready (Acquire k)) ->
        slots_held s < C ->
        exists s',
          go i s = Some s'
          /\ loop_tasks s' !! i = Some (Ready k)
          /\ sem_counter s' = sem_counter s - 1)
  /\ (forall i k,
        loop_tasks s !! i = Some (Ready (Acquire k)) ->
        slots_held s = C ->
        exists s',
          go i s = Some s'
          /\ loop_tasks s' !! i = Some (Blocked k)
          /\ sem_waiters s' = (sem_waiters s ++ [i])%list
          /\ calls_in_flight s' = calls_in_flight s)
  /\ (forall i k j rest,
        loop_tasks s !! i = Some (Ready (Release k)) ->
        sem_waiters s = j :: rest ->
        exists s' s'',
          go i s = Some s'
          /\ sem_waiters s' = rest
          /\ sem_counter s' = sem_counter s
          /\ loop_tasks s' !! j =
               Some (Ready (AwaitSendRequest (request_of j)
                              (prompt_of draw_of c j) leave))
          /\ go j s' = Some s''
          /\ loop_tasks s'' !! j =
               Some (Calling (request_of j) (prompt_of draw_of c j) leave)
          /\ calls_in_flight s'' = calls_in_flight s + 1)
  /\ (forall i k,
        loop_tasks s !! i = Some (Ready (Release k)) ->
        sem_waiters s = [] ->
        exists s',
          go i s = Some s' /\ sem_counter s' = sem_counter s + 1)
  /\ (forall s', run s s' -> (remaining s' < remaining s)%nat)
  /\ (0 < C ->
      exists s_end,
        rtc run s s_end /\ gathered (loop_tasks s_end) = Some results)
  /\ (forall got,
        gathered (loop_tasks s) = Some got ->
        got = results
        /\ run_concurrent_test json_loads client_of clock_of draw_of
             wall_start wall_end now_isoformat c
           = Completes (summarize wall_start wall_end now_isoformat c N got)).
Proof.
  intros C N run go results Hstart Hrun.
  pose proof (measured_phase_inv c s0 Hstart) as Hinv0.
  fold C N in Hinv0.
  destruct (inv_rtc _ _ _ _ _ _ _ _ _ _ Hinv0 Hrun) as (ps & Hinv).
  destruct (inv_measures _ _ _ _ _ Hinv) as [Hheld Hrem].
  pose proof Hinv as
    (Htasks & Hlen & Hslots & Hpos & Hnd & Hwait & Hlock & Hclosed).
  assert (Hcalls : calls_in_flight s <= slots_held s).
  { unfold calls_in_flight, slots_held.
    pose proof (calls_hold_slots (loop_tasks s)). lia. }
  assert (Hfull : sem_waiters s <> [] -> slots_held s = C).
  { intros Hw. specialize (Hlock Hw). lia. }
  split; [lia|]. split.
  { repeat split; try assumption; try lia.
    rewrite Htasks, length_imap. exact Hlen. }
  split.
  { intros i k Hi Hfree. unfold go, turn. rewrite Hi.
    assert (Hw : sem_waiters s = []).
    { destruct (sem_waiters s) as [|j rest] eqn:Hw; [reflexivity|].
      exfalso. assert (slots_held s = C) by (apply Hfull; discriminate). lia. }
    assert (Hc : (0 <? sem_counter s) = true) by (apply Z.ltb_lt; lia).
    rewrite Hc, Hw. simpl. eexists. split; [reflexivity|]. simpl. split.
    - rewrite (insert_lookup _ i i _ _ Hi).
      destruct (decide (i = i)); [reflexivity | congruence].
    - reflexivity. }
  split.
  { intros i k Hi Hall. unfold go, turn. rewrite Hi.
    assert (Hc : (0 <? sem_counter s) = false) by (apply Z.ltb_ge; lia).
    rewrite Hc. simpl. eexists. split; [reflexivity|]. simpl. split.
    - rewrite (insert_lookup _ i i _ _ Hi).
      destruct (decide (i = i)); [reflexivity | congruence].
    - split; [reflexivity|].
      unfold calls_in_flight at 1. simpl.
      rewrite (calls_in_flight_insert s i _ _ Hi). simpl. lia. }
  split.
  { intros i k j rest Hi Hw.
    assert (Hj : ps !! j = Some Waiting).
    { apply Hwait. rewrite Hw. apply elem_of_cons. now left. }
    pose proof (inv_lookup _ _ _ _ _ _ _ _ _ j Hinv) as Htj.
    rewrite Hj in Htj. simpl in Htj.
    assert (Hji : j <> i) by congruence.
    assert (Htj' : <[i := Ready k]> (loop_tasks s) !! j =
                   Some (Blocked (AwaitSendRequest (request_of j)
                                    (prompt_of draw_of c j) leave))).
    { rewrite (insert_lookup _ i j _ _ Hi).
      destruct (decide (j = i)); [contradiction | exact Htj]. }
    assert (Hlook : forall (t : task) (l : list task),
              l !! j = Some t -> forall t', <[j := t']> l !! j = Some t').
    { intros t l Hl t'. rewrite (insert_lookup _ j j _ _ Hl).
      destruct (decide (j = j)); [reflexivity | congruence]. }
    unfold go, turn. rewrite Hi, Hw, Htj.
    eexists. eexists. split; [reflexivity|]. simpl.
    split; [reflexivity|]. split; [reflexivity|].
    split; [apply (Hlook _ _ Htj')|].
    rewrite (Hlook _ _ Htj').
    split; [reflexivity|]. simpl.
    split; [apply (Hlook _ _ (Hlook _ _ Htj' _))|].
    unfold calls_in_flight at 1. simpl.
    pose proof (Hlook _ _ Htj'
                  (Ready (AwaitSendRequest (request_of j)
                            (prompt_of draw_of c j) leave))) as Hs'.
    set (s1 := {| sem_counter := sem_counter s; sem_waiters := rest;
                  loop_tasks :=
                    <[j := Ready (AwaitSendRequest (request_of j)
                                    (prompt_of draw_of c j) leave)]>
                      (<[i := Ready k]> (loop_tasks s)) |}).
    rewrite (calls_in_flight_insert s1 j _ _ Hs'). simpl.
    unfold calls_in_flight at 1. simpl.
    set (s2 := {| sem_counter := sem_counter s; sem_waiters := rest;
                  loop_tasks := <[i := Ready k]> (loop_tasks s) |}).
    rewrite (calls_in_flight_insert s2 j _ _ Htj'). simpl.
    unfold calls_in_flight at 1. simpl.
    rewrite (calls_in_flight_insert s i _ _ Hi). simpl. lia. }
  split.
  { intros i k Hi Hw. unfold go, turn. rewrite Hi, Hw.
    eexists. split; reflexivity. }
  split.
  { intros s' [i Hturn].
    destruct (inv_turn _ _ _ _ _ _ _ _ _ _ _ Hinv Hturn) as (ps' & Hinv' & Hlt).
    destruct (inv_measures _ _ _ _ _ Hinv') as [_ Hrem'].
    rewrite Hrem, Hrem'. exact Hlt. }
  split.
  { intros HC.
    destruct (inv_finishes json_loads client_of clock_of draw_of c C
                (Z.to_nat N) HC _ s ps Hinv eq_refl) as (s_end & Hend & Hg).
    exists s_end. split; [exact Hend|].
    rewrite Hg. f_equal. apply metrics_of_range. }
  intros got Hg.
  destruct (inv_gathered _ _ _ _ _ _ _ _ _ _ Hinv Hg) as [Hgot Hover].
  rewrite metrics_of_range in Hgot. fold N results in Hgot.
  split; [exact Hgot|].
  unfold run_concurrent_test. fold C N.
  unfold measured_phase in Hstart. fold C in Hstart.
  destruct (Semaphore C) as [value|e] eqn:Hsem; [|discriminate].
  assert (value = C) as ->.
  { unfold Semaphore in Hsem. destruct (C <? 0); [discriminate|]. now inversion Hsem. }
  destruct ((C =? 0) && (0 <? N)) eqn:Hdead.
  - exfalso. apply andb_true_iff in Hdead. destruct Hdead as [HC HN].
    apply Z.eqb_eq in HC. apply Z.ltb_lt in HN.
    specialize (Hclosed HC).
    destruct ps as [|p ps]; [simpl in Hlen; lia|].
    apply Forall_cons in Hover as [Hp _].
    apply Forall_cons in Hclosed as [Hq _].
    rewrite Hp in Hq. destruct Hq; discriminate.
  - rewrite Hgot. reflexivity.
Qed.

End Bound.

(** The tasks taking their turns in a given order. *)
Fixpoint turns (go : nat -> loop -> option loop) (order : list nat) (s : loop)
    : option loop :=
  match order with
  | [] => Some s
  | i :: rest =>
      match go i s with
      | Some s' => turns go rest s'
      | None => None
      end
  end.

Lemma turns_rtc json_loads client_of clock_of c (order : list nat) :
  forall s s',
    turns (turn json_loads client_of clock_of c) order s = Some s' ->
    rtc (loop_step json_loads client_of clock_of c) s s'.
Proof.
  induction order as [|i order IH]; intros s s' H; simpl in H.
  - inversion H. apply rtc_refl.
  - destruct (turn json_loads client_of clock_of c i s) as [s1|] eqn:Hturn;
      [|discriminate].
    eapply rtc_l; [exists i; exact Hturn | now apply IH].
Qed.

(** Three requests before a semaphore of two slots. *)
Definition three_tasks : loop :=
  {| sem_counter := 2;
     sem_waiters := [];
     loop_tasks :=
       map (fun i => Ready (bounded_request_coroutine (fun _ => 0%nat)
                              (load_only 2 3) i))
         (range 3) |}.

Lemma semaphore_bounds_witness :
  exists s,
    measured_phase (fun _ => 0%nat) (load_only 2 3) = Ok three_tasks
    /\ turns (turn toy_loads (fun _ => streamed ["data: Hello"; "data: [DONE]"])
                (fun _ => ticking) (load_only 2 3))
         [0; 1; 2; 0; 1]%nat three_tasks = Some s
    /\ calls_in_flight s = 2
    /\ sem_waiters s = [2%nat]
    /\ calls_in_flight s <= 2
    /\ sem_counter s = 2 - slots_held s
    /\ exists s_end,
         rtc (loop_step toy_loads
                (fun _ => streamed ["data: Hello"; "data: [DONE]"])
                (fun _ => ticking) (load_only 2 3)) s s_end
         /\ gathered (loop_tasks s_end) =
            Some (map (bounded_request toy_loads
                         (fun _ => streamed ["data: Hello"; "data: [DONE]"])
                         (fun _ => ticking) (fun _ => 0%nat) (load_only 2 3))
                    (range 3)).
Proof.
  eexists.
  split; [reflexivity|]. split; [reflexivity|].
  split; [reflexivity|]. split; [reflexivity|].
  match goal with
  | |- calls_in_flight ?s <= _ /\ _ =>
      pose proof (semaphore_bounds_in_flight toy_loads
                    (fun _ => streamed ["data: Hello"; "data: [DONE]"])
                    (fun _ => ticking) (fun _ => 0%nat) 0 10
                    "2026-01-01T00:00:00"
                    (load_only 2 3) three_tasks s eq_refl
                    (turns_rtc toy_loads
                       (fun _ => streamed ["data: Hello"; "data: [DONE]"])
                       (fun _ => ticking) (load_only 2 3)
                       [0; 1; 2; 0; 1]%nat three_tasks s eq_refl)) as H
  end.
  simpl in H.
  destruct H as (Hbound & (_ & Hcounter & _) & _ & _ & _ & _ & _ & Hend & _).
  split; [exact Hbound|]. split; [exact Hcounter|].
  apply Hend. lia.
Defined.

(** *** send_request: the stream *)

Lemma io_bind_ext {A B} (m : io A) (f g : A -> io B) (k : nat) :
  (forall a k', f a k' = g a k') -> io_bind m f k = io_bind m g k.
Proof.
  intros H. unfold io_bind. destruct (m k) as [[a|e] k']; [apply H | reflexivity].
Qed.

Section StreamFacts.

Local Open Scope Q_scope.

Variable json_loads : string -> option json.
Variable clock : nat -> Q.

Lemma read_lines_done (pre post : list string) (stream_end : option exn) :
  forall st k,
    read_lines json_loads clock (pre ++ "data: [DONE]" :: post) stream_end st k
    = read_lines json_loads clock (pre ++ ["data: [DONE]"]) None st k.
Proof.
  induction pre as [|line pre IH]; intros st k; [reflexivity|].
  rewrite <- !app_comm_cons, !read_lines_cons. cbv zeta.
  destruct (String.prefix "data: " line); [|apply IH].
  destruct (String.eqb (str_drop 6 line) "[DONE]"); [reflexivity|].
  destruct (json_loads (str_drop 6 line)) as [chunk|]; [|apply IH].
  do 5 (apply io_bind_ext; intros ? ?). apply IH.
Qed.

Lemma send_request_body_lines (resp resp' : response) (prompt : string)
    (metrics : RequestMetrics) (k : nat) :
  status_code resp' = status_code resp ->
  aread_decode resp' = aread_decode resp ->
  (forall st k,
      read_lines json_loads clock (aiter_lines resp') (stream_error resp') st k
      = read_lines json_loads clock (aiter_lines resp) (stream_error resp) st k) ->
  send_request_body json_loads clock (Connected resp') prompt metrics k
  = send_request_body json_loads clock (Connected resp) prompt metrics k.
Proof.
  intros Hstatus Hbody Hlines. unfold send_request_body.
  rewrite Hstatus, Hbody. unfold io_bind at 1 3, time_time at 1 3.
  unfold io_bind at 1 4.
  destruct (negb (status_code resp =? 200)%Z); [reflexivity|].
  now rewrite Hlines.
Qed.

(** X12.  The line ["data: [DONE]"] ends the reading of the stream: the
    lines that follow it, and an exception the stream would raise after it,
    have no effect on the metrics returned. *)
Theorem send_request_stops_at_done (client : http_request -> transport)
    (request_id prompt : string) (c : config) (resp : response)
    (pre post : list string) :
  client (build_request c prompt) = Connected resp ->
  aiter_lines resp = (pre ++ "data: [DONE]" :: post)%list ->
  send_request json_loads clock client request_id prompt c
  = send_request json_loads clock
      (fun _ => Connected {| status_code := status_code resp;
                             aread_decode := aread_decode resp;
                             aiter_lines := pre ++ ["data: [DONE]"];
                             stream_error := None |})
      request_id prompt c.
Proof.
  intros Hresp Hlines. unfold send_request. rewrite Hresp.
  rewrite (send_request_body_lines resp
             {| status_code := status_code resp;
                aread_decode := aread_decode resp;
                aiter_lines := pre ++ ["data: [DONE]"];
                stream_error := None |}); try reflexivity.
  - intros st k. cbn [aiter_lines stream_error]. rewrite Hlines.
    symmetry. apply read_lines_done.
Qed.

End StreamFacts.

Section ClockFacts.

Local Open Scope Q_scope.

Variable json_loads : string -> option json.
Variable clock : nat -> Q.
Variable client : http_request -> transport.

(** The line loop reads the clock at most once, to stamp the first token,
    and never when the stamp is already set. *)
Lemma read_lines_token_once (lines : list string) (stream_end : option exn) :
  forall st k r k',
    read_lines json_loads clock lines stream_end st k = (r, k') ->
    match first_token_time st with
    | Some t =>
        k' = k /\ forall st', r = Ok st' -> first_token_time st' = Some t
    | None =>
        (k' = k /\ forall st', r = Ok st' -> first_token_time st' = None)
        \/ (k' = S k
            /\ forall st', r = Ok st' -> first_token_time st' = Some (clock k))
    end.
Proof.
  induction lines as [|line rest IH]; intros st k r k' Hrun.
  - simpl in Hrun.
    assert (Hk : k' = k /\ forall st', r = Ok st' -> first_token_time st' = first_token_time st).
    { destruct stream_end as [e|]; unfold lift, io_ret in Hrun;
        inversion Hrun; subst; split; try reflexivity; intros st' H;
        [discriminate | now inversion H]. }
    destruct Hk as [-> Hst]. destruct (first_token_time st) as [t|];
      [split; [reflexivity | exact Hst] | left; split; [reflexivity | exact Hst]].
  - rewrite read_lines_cons in Hrun. cbv zeta in Hrun.
    destruct (String.prefix "data: " line); [|apply (IH _ _ _ _ Hrun)].
    destruct (String.eqb (str_drop 6 line) "[DONE]").
    { unfold io_ret in Hrun. inversion Hrun; subst.
      destruct (first_token_time st) as [t|] eqn:Hft.
      - split; [reflexivity|]. intros st' H. inversion H; subst. exact Hft.
      - left. split; [reflexivity|]. intros st' H. inversion H; subst. exact Hft. }
    destruct (json_loads (str_drop 6 line)) as [chunk|]; [|apply (IH _ _ _ _ Hrun)].
    assert (Hfail : forall e, (r, k') = (Raise e, k) ->
              match first_token_time st with
              | Some t =>
                  k' = k /\ forall st', r = Ok st' -> first_token_time st' = Some t
              | None =>
                  (k' = k /\ forall st', r = Ok st' -> first_token_time st' = None)
                  \/ (k' = S k
                      /\ forall st', r = Ok st' -> first_token_time st' = Some (clock k))
              end).
    { intros e H. inversion H; subst. destruct (first_token_time st);
        [|left]; (split; [reflexivity | discriminate]). }
    unfold io_bind at 1, lift at 1 in Hrun.
    destruct (dict_get chunk "choices" (JArr [JObj []])) as [choices|e];
      [|apply (Hfail e); now symmetry].
    unfold io_bind at 1, lift at 1 in Hrun.
    destruct (subscript choices 0) as [first|e]; [|apply (Hfail e); now symmetry].
    unfold io_bind at 1, lift at 1 in Hrun.
    destruct (dict_get first "delta" (JObj [])) as [delta|e];
      [|apply (Hfail e); now symmetry].
    unfold io_bind at 1, lift at 1 in Hrun.
    destruct (dict_get delta "content" (JStr "")) as [content|e];
      [|apply (Hfail e); now symmetry].
    clear Hfail. unfold io_bind at 1 in Hrun.
    destruct (first_token_time st) as [t|] eqn:Hft.
    + rewrite andb_false_r in Hrun. unfold io_ret at 1 in Hrun.
      apply IH in Hrun. simpl in Hrun. exact Hrun.
    + rewrite andb_true_r in Hrun. destruct (truthy content).
      * unfold io_bind at 1, time_time, io_ret at 1 in Hrun.
        apply IH in Hrun. simpl in Hrun. right. exact Hrun.
      * unfold io_ret at 1 in Hrun. apply IH in Hrun. simpl in Hrun. exact Hrun.
Qed.

Lemma send_request_body_raise_clock (tr : transport) (prompt : string)
    (metrics : RequestMetrics) (e : exn) (k : nat) :
  send_request_body json_loads clock tr prompt metrics 1%nat = (Raise e, k) ->
  (2 <= k <= 4)%nat.
Proof.
  unfold send_request_body. unfold io_bind at 1, time_time at 1.
  destruct tr as [e'|resp]; [unfold lift; intros H; inversion H; lia|].
  unfold io_bind at 1.
  destruct (negb (status_code resp =? 200)%Z).
  { unfold io_bind at 1, lift at 1.
    destruct (aread_decode resp); unfold lift; intros H; inversion H; lia. }
  destruct (read_lines json_loads clock (aiter_lines resp) (stream_error resp)
              {| first_token_time := None; output_text := [] |} 2%nat)
    as [r k1] eqn:Hread.
  apply read_lines_token_once in Hread. simpl in Hread.
  assert (Hk1 : (2 <= k1 <= 3)%nat) by (destruct Hread as [[-> _]|[-> _]]; lia).
  destruct r as [st|e']; [|intros H; inversion H; lia].
  unfold io_bind at 1, time_time at 1. unfold io_bind at 1, lift at 1.
  destruct (join (output_text st)); unfold io_ret; intros H; inversion H; lia.
Qed.

(** C6.  For metrics returned with no error, [tokens_per_second] is
    [output_tokens / e2e_latency_ms * 1000] when [e2e_latency_ms] is
    positive and 0 otherwise.  The order of the times is that of the clock
    readings: if the readings taken during the call, at most four when it
    succeeds, never decrease, then [ttft_ms] and [e2e_latency_ms] are
    non-negative, [ttft_ms <= e2e_latency_ms] (whether or not content was
    received) and [end_time >= start_time].  Without that, as when
    [time.time()] is set back during the call, none of the four holds. *)
Theorem send_request_success_metrics (request_id prompt : string)
    (c : config) :
  let m := send_request json_loads clock client request_id prompt c in
  error m = None ->
  tokens_per_second m =
    (if Qlt_le_dec 0 (e2e_latency_ms m)
     then (inject_Z (output_tokens m) / e2e_latency_ms m) * 1000
     else 0)
  /\ ((forall i j : nat, (i <= j <= 3)%nat -> clock i <= clock j) ->
      0 <= ttft_ms m
      /\ 0 <= e2e_latency_ms m
      /\ ttft_ms m <= e2e_latency_ms m
      /\ start_time m <= end_time m).
Proof.
  intros m Herr. unfold m, send_request in *.
  destruct (send_request_body json_loads clock (client (build_request c prompt))
              prompt (initial_metrics clock request_id) 1%nat)
    as [[m'|e] k] eqn:Hbody; [|discriminate].
  apply send_request_body_ok in Hbody
    as (resp & st & k1 & out & _ & _ & Hread & _ & ->).
  apply read_lines_token_once in Hread. simpl in Hread. simpl.
  split; [reflexivity|].
  intros Hmono.
  pose proof (Hmono 0%nat 2%nat ltac:(lia)).
  pose proof (Hmono 1%nat 2%nat ltac:(lia)).
  pose proof (Hmono 0%nat 3%nat ltac:(lia)).
  pose proof (Hmono 2%nat 3%nat ltac:(lia)).
  destruct Hread as [[-> Hft]|[-> Hft]]; rewrite (Hft st eq_refl);
    cbv beta iota.
  - repeat split; lra.
  - unfold truthy_time.
    destruct (Qeq_bool (clock 2) 0); simpl; repeat split; lra.
Qed.

(** X13.  A call of [send_request] reads the clock at least three and at
    most five times: for [start_time], for the start of the measurement,
    once more when the first chunk with non-empty content arrives, at the
    end of the stream, and in the exception handler; [end_time] is the last
    reading.  On success the latency runs from the second reading to the
    last one, so, with a clock that does not go back, [e2e_latency_ms] is at
    most [(end_time - start_time) * 1000]; TTFT is 0, or runs from the second
    reading to the third. *)
Theorem send_request_clock_readings (request_id prompt : string) (c : config) :
  let m := send_request json_loads clock client request_id prompt c in
  start_time m = clock 0
  /\ (exists k, (2 <= k <= 4)%nat /\ end_time m = clock k)
  /\ (error m = None ->
      (end_time m = clock 2 /\ ttft_ms m = 0
       /\ e2e_latency_ms m = (clock 2 - clock 1) * 1000)
      \/ (end_time m = clock 3
          /\ ttft_ms m = (if Qeq_bool (clock 2) 0 then 0
                          else (clock 2 - clock 1) * 1000)
          /\ e2e_latency_ms m = (clock 3 - clock 1) * 1000))
  /\ ((forall i j : nat, (i <= j)%nat -> clock i <= clock j) ->
      error m = None ->
      e2e_latency_ms m <= (end_time m - start_time m) * 1000).
Proof.
  intros m. unfold m, send_request.
  destruct (send_request_body json_loads clock (client (build_request c prompt))
              prompt (initial_metrics clock request_id) 1%nat)
    as [[m'|e] k] eqn:Hbody.
  - apply send_request_body_ok in Hbody
      as (resp & st & k1 & out & _ & _ & Hread & _ & ->).
    apply read_lines_token_once in Hread. simpl in Hread. simpl.
    split; [reflexivity|].
    destruct Hread as [[-> Hft]|[-> Hft]]; rewrite (Hft st eq_refl).
    + split; [exists 2%nat; split; [lia | reflexivity]|]. split.
      * intros _. left. repeat split; reflexivity.
      * intros Hmono _. pose proof (Hmono 0%nat 1%nat ltac:(lia)). lra.
    + split; [exists 3%nat; split; [lia | reflexivity]|]. split.
      * intros _. right. unfold truthy_time.
        destruct (Qeq_bool (clock 2) 0); repeat split; reflexivity.
      * intros Hmono _. pose proof (Hmono 0%nat 1%nat ltac:(lia)). lra.
  - apply send_request_body_raise_clock in Hbody. simpl.
    split; [reflexivity|]. split; [exists k; split; [exact Hbody | reflexivity]|].
    split; discriminate.
Qed.

End ClockFacts.

(** A clock that is set back by one second between any two readings. *)
Definition stepping_back (k : nat) : Q := 100 - inject_Z (Z.of_nat k).

Lemma send_request_success_witness :
  let m := send_request toy_loads ticking
             (streamed ["data: Hello, "; ""; "data: world"; "data: [DONE]"])
             "req-0" "Say hello" no_config in
  (tokens_per_second m =
     (if Qlt_le_dec 0 (e2e_latency_ms m)
      then (inject_Z (output_tokens m) / e2e_latency_ms m) * 1000
      else 0)
   /\ 0 <= ttft_ms m /\ 0 <= e2e_latency_ms m /\ ttft_ms m <= e2e_latency_ms m
   /\ start_time m <= end_time m)%Q.
Proof.
  intros m.
  destruct (send_request_success_metrics toy_loads ticking
              (streamed ["data: Hello, "; ""; "data: world"; "data: [DONE]"])
              "req-0" "Say hello" no_config eq_refl) as [Hrate Htimes].
  split; [exact Hrate|]. apply Htimes.
  intros i j Hij. apply ticking_mono. lia.
Defined.

(** C6 as stated fails: when the clock is set back during the call, a
    request that succeeds and has received content is returned with
    negative [ttft_ms] and [e2e_latency_ms], with
    [e2e_latency_ms < ttft_ms], and with [end_time < start_time]. *)
Lemma send_request_clock_set_back :
  exists m,
    send_request toy_loads stepping_back
      (streamed ["data: Hello"; "data: [DONE]"]) "req-0" "Say hello" no_config
    = m
    /\ error m = None
    /\ (output_tokens m = 1)%Z
    /\ (ttft_ms m == -1000)%Q
    /\ (e2e_latency_ms m == -2000)%Q
    /\ (start_time m == 100)%Q
    /\ (end_time m == 97)%Q
    /\ (ttft_ms m < 0)%Q
    /\ (e2e_latency_ms m < 0)%Q
    /\ (e2e_latency_ms m < ttft_ms m)%Q
    /\ (end_time m < start_time m)%Q
    /\ (tokens_per_second m == 0)%Q.
Proof.
  eexists. split; [reflexivity|].
  repeat split; vm_compute; reflexivity.
Qed.

(** The content delta that a parsed chunk carries:
    [chunk.get("choices", [{}])[0].get("delta", {}).get("content", "")]. *)
Definition chunk_content (chunk : json) : result json :=
  choices ← dict_get chunk "choices" (JArr [JObj []]);
  first ← subscript choices 0;
  delta ← dict_get first "delta" (JObj []);
  dict_get delta "content" (JStr "").

(** What the line loop makes of one line. *)
Inductive line_kind :=
| Skip
| Done
| Content (content : json)
| Broken (e : exn).

(** ["".join] of strings. *)
Definition joined (texts : list string) : string :=
  fold_right String.append "" texts.

Section DeliveryFacts.

Local Open Scope Q_scope.

Variable json_loads : string -> option json.
Variable clock : nat -> Q.
Variable client : http_request -> transport.

Definition classify (line : string) : line_kind :=
  if String.prefix "data: " line then
    if String.eqb (str_drop 6 line) "[DONE]" then Done
    else
      match json_loads (str_drop 6 line) with
      | None => Skip
      | Some chunk =>
          match chunk_content chunk with
          | Ok content => Content content
          | Raise e => Broken e
          end
      end
  else Skip.

(** The stream hands over [contents], in this order, and ends without an
    exception: by ["data: [DONE]"], or by the end of a body that did not
    break off. *)
Inductive delivers (stream_end : option exn) : list string -> list json -> Prop :=
| delivers_end :
    stream_end = None -> delivers stream_end [] []
| delivers_done (line : string) (rest : list string) :
    classify line = Done -> delivers stream_end (line :: rest) []
| delivers_skip (line : string) (rest : list string) (contents : list json) :
    classify line = Skip ->
    delivers stream_end rest contents ->
    delivers stream_end (line :: rest) contents
| delivers_content (line : string) (rest : list string) (content : json)
    (contents : list json) :
    classify line = Content content ->
    delivers stream_end rest contents ->
    delivers stream_end (line :: rest) (content :: contents).

Lemma read_lines_step (line : string) (rest : list string)
    (stream_end : option exn) (st : stream_state) (k : nat) :
  read_lines json_loads clock (line :: rest) stream_end st k =
  match classify line with
  | Skip => read_lines json_loads clock rest stream_end st k
  | Done => (Ok st, k)
  | Broken e => (Raise e, k)
  | Content content =>
      if truthy content && negb (is_Some_bool (first_token_time st))
      then read_lines json_loads clock rest stream_end
             {| first_token_time := Some (clock k);
                output_text := output_text st ++ [content] |} (S k)
      else read_lines json_loads clock rest stream_end
             {| first_token_time := first_token_time st;
                output_text := output_text st ++ [content] |} k
  end.
Proof.
  rewrite read_lines_cons. cbv zeta. unfold classify.
  destruct (String.prefix "data: " line); [|reflexivity].
  destruct (String.eqb (str_drop 6 line) "[DONE]"); [reflexivity|].
  destruct (json_loads (str_drop 6 line)) as [chunk|]; [|reflexivity].
  unfold chunk_content. unfold io_bind at 1, lift at 1.
  destruct (dict_get chunk "choices" (JArr [JObj []])) as [choices|]; [|reflexivity].
  simpl mbind. unfold io_bind at 1, lift at 1.
  destruct (subscript choices 0) as [first|]; [|reflexivity].
  simpl mbind. unfold io_bind at 1, lift at 1.
  destruct (dict_get first "delta" (JObj [])) as [delta|]; [|reflexivity].
  simpl mbind. unfold io_bind at 1, lift at 1.
  destruct (dict_get delta "content" (JStr "")) as [content|]; [|reflexivity].
  unfold io_bind at 1.
  destruct (truthy content && negb (is_Some_bool (first_token_time st)));
    reflexivity.
Qed.

(** The state in which the loop leaves a stream that delivers
    [contents]: the contents are appended in order; the clock is read once,
    at the first truthy content, unless the stamp was set before. *)
Lemma read_lines_delivers (stream_end : option exn) (lines : list string)
    (contents : list json) :
  delivers stream_end lines contents ->
  forall st k,
    read_lines json_loads clock lines stream_end st k =
    if is_Some_bool (first_token_time st) || forallb (fun c => negb (truthy c)) contents
    then (Ok {| first_token_time := first_token_time st;
                output_text := output_text st ++ contents |}, k)
    else (Ok {| first_token_time := Some (clock k);
                output_text := output_text st ++ contents |}, S k).
Proof.
  induction 1 as [Hend|line rest Hline|line rest contents Hline _ IH
                  |line rest content contents Hline _ IH]; intros st k.
  - subst stream_end. simpl. rewrite orb_true_r, app_nil_r. now destruct st.
  - rewrite read_lines_step, Hline. simpl. rewrite orb_true_r, app_nil_r.
    now destruct st.
  - rewrite read_lines_step, Hline. apply IH.
  - rewrite read_lines_step, Hline.
    destruct (first_token_time st) as [t|] eqn:Hft; simpl.
    + rewrite andb_false_r, IH. simpl. now rewrite <- app_assoc.
    + rewrite andb_true_r. destruct (truthy content); simpl.
      * rewrite IH. simpl. now rewrite <- app_assoc.
      * rewrite IH. simpl. now rewrite <- app_assoc.
Qed.

Lemma join_from_strings (texts : list string) (i : nat) :
  join_from i (map JStr texts) = Ok (joined texts).
Proof.
  revert i. induction texts as [|s texts IH]; intros i; [reflexivity|].
  simpl. now rewrite IH.
Qed.

Lemma join_from_not_str (texts : list string) (v : json) (rest : list json)
    (i : nat) :
  (forall s, v <> JStr s) ->
  join_from i (map JStr texts ++ v :: rest)
  = Raise (Exn "TypeError"
             ("sequence item " +:+ pretty (i + length texts)%nat
                +:+ ": expected str instance, " +:+ type_name v +:+ " found")).
Proof.
  intros Hv. revert i. induction texts as [|s texts IH]; intros i.
  - simpl. rewrite Nat.add_0_r. destruct v; try reflexivity. now destruct (Hv s).
  - simpl. rewrite IH. simpl. now rewrite Nat.add_succ_r.
Qed.

End DeliveryFacts.

Section AnsweredFacts.

Local Open Scope Q_scope.

Variable json_loads : string -> option json.
Variable clock : nat -> Q.
Variable client : http_request -> transport.

(** The metrics of a request that failed with [e] when the clock had been
    read [k] times. *)
Definition failure_metrics (request_id : string) (e : exn) (k : nat)
    : RequestMetrics :=
  {| request_id := request_id; start_time := clock 0; end_time := clock k;
     ttft_ms := 0; e2e_latency_ms := 0; output_tokens := 0; input_tokens := 0;
     tokens_per_second := 0; error := Some (exn_str e) |}.

(** [send_request] on a request that is answered with status 200, in terms
    of what the line loop returns. *)
Lemma send_request_answered (request_id prompt : string) (c : config)
    (resp : response) :
  client (build_request c prompt) = Connected resp ->
  status_code resp = 200%Z ->
  send_request json_loads clock client request_id prompt c =
  match read_lines json_loads clock (aiter_lines resp) (stream_error resp)
          {| first_token_time := None; output_text := [] |} 2%nat with
  | (Raise e, k) => failure_metrics request_id e k
  | (Ok st, k1) =>
      match join (output_text st) with
      | Raise e => failure_metrics request_id e (S k1)
      | Ok out =>
          {| request_id := request_id;
             start_time := clock 0;
             end_time := clock k1;
             ttft_ms :=
               match first_token_time st with
               | Some t => if truthy_time (Some t) then (t - clock 1) * 1000 else 0
               | None => 0
               end;
             e2e_latency_ms := (clock k1 - clock 1) * 1000;
             output_tokens := (Z.of_nat (String.length out) / 4)%Z;
             input_tokens := (Z.of_nat (String.length prompt) / 4)%Z;
             tokens_per_second :=
               if Qlt_le_dec 0 ((clock k1 - clock 1) * 1000)
               then (inject_Z (Z.of_nat (String.length out) / 4)
                     / ((clock k1 - clock 1) * 1000)) * 1000
               else 0;
             error := None |}
      end
  end.
Proof.
  intros Hresp Hstatus. unfold send_request. rewrite Hresp.
  assert (Hok : negb (status_code resp =? 200)%Z = false)
    by (rewrite Hstatus; reflexivity).
  unfold send_request_body. unfold io_bind at 1, time_time at 1.
  unfold io_bind at 1. rewrite Hok.
  destruct (read_lines json_loads clock (aiter_lines resp) (stream_error resp)
              {| first_token_time := None; output_text := [] |} 2%nat)
    as [[st|e] k1]; [|reflexivity].
  unfold io_bind at 1, time_time at 1. unfold io_bind at 1, lift at 1.
  destruct (join (output_text st)) as [out|e]; reflexivity.
Qed.

End AnsweredFacts.

Section DeliveryTheorems.

Local Open Scope Q_scope.

Variable json_loads : string -> option json.
Variable clock : nat -> Q.
Variable client : http_request -> transport.

Lemma joined_empty (texts : list string) :
  forallb (fun c => negb (truthy c)) (map JStr texts) = true <-> joined texts = "".
Proof.
  induction texts as [|s texts IH]; [split; reflexivity|].
  simpl. rewrite andb_true_iff, IH, negb_involutive, String.eqb_eq.
  destruct s as [|a s]; simpl.
  - split; [intros [_ H]; exact H | intros H; split; [reflexivity | exact H]].
  - split; [intros [H _]; discriminate | discriminate].
Qed.

(** X14.  When the stream of a 200 response hands over string contents and
    ends without an exception, the request succeeds; [output_tokens] is the
    length of the concatenated contents divided by 4, rounded down, and
    [input_tokens] the length of the prompt divided by 4, rounded down.  If
    all the contents are empty no first token is stamped and TTFT is 0;
    otherwise the first non-empty content is stamped. *)
Theorem send_request_counts_streamed_text (request_id prompt : string)
    (c : config) (resp : response) (texts : list string) :
  client (build_request c prompt) = Connected resp ->
  status_code resp = 200%Z ->
  delivers json_loads (stream_error resp) (aiter_lines resp) (map JStr texts) ->
  let m := send_request json_loads clock client request_id prompt c in
  error m = None
  /\ output_tokens m = (Z.of_nat (String.length (joined texts)) / 4)%Z
  /\ input_tokens m = (Z.of_nat (String.length prompt) / 4)%Z
  /\ (joined texts = "" -> ttft_ms m = 0 /\ end_time m = clock 2)
  /\ (joined texts <> "" ->
      ttft_ms m = (if Qeq_bool (clock 2) 0 then 0 else (clock 2 - clock 1) * 1000)
      /\ end_time m = clock 3).
Proof.
  intros Hresp Hstatus Hdel m. unfold m.
  rewrite (send_request_answered json_loads clock client _ _ _ resp Hresp Hstatus).
  rewrite (read_lines_delivers json_loads clock _ _ _ Hdel). simpl.
  destruct (forallb (fun c => negb (truthy c)) (map JStr texts)) eqn:Hall.
  - apply joined_empty in Hall. unfold join. simpl.
    rewrite join_from_strings. simpl.
    split; [reflexivity|]. split; [reflexivity|]. split; [reflexivity|].
    split; [intros _; split; reflexivity | intros Hne; contradiction].
  - assert (Hne : joined texts <> "").
    { intros H. apply joined_empty in H. congruence. }
    unfold join. simpl. rewrite join_from_strings. simpl.
    split; [reflexivity|]. split; [reflexivity|]. split; [reflexivity|].
    split; [intros H; contradiction|].
    intros _. unfold truthy_time.
    destruct (Qeq_bool (clock 2) 0); split; reflexivity.
Qed.

(** X15.  A chunk whose content delta is not a string (JSON null, a
    number, ...) is collected like the others, and the request then fails
    when the contents are joined: [error] is the [TypeError] message naming
    the position and type of the first such content, and the measurements
    stay at zero. *)
Theorem send_request_non_string_content_fails (request_id prompt : string)
    (c : config) (resp : response) (texts : list string) (v : json)
    (rest : list json) :
  client (build_request c prompt) = Connected resp ->
  status_code resp = 200%Z ->
  delivers json_loads (stream_error resp) (aiter_lines resp)
    (map JStr texts ++ v :: rest) ->
  (forall s, v <> JStr s) ->
  let m := send_request json_loads clock client request_id prompt c in
  error m
  = Some ("sequence item " +:+ pretty (length texts)
            +:+ ": expected str instance, " +:+ type_name v +:+ " found")
  /\ output_tokens m = 0%Z /\ e2e_latency_ms m = 0 /\ has_error m = true.
Proof.
  intros Hresp Hstatus Hdel Hv m. unfold m.
  rewrite (send_request_answered json_loads clock client _ _ _ resp Hresp Hstatus).
  rewrite (read_lines_delivers json_loads clock _ _ _ Hdel). simpl.
  assert (Hjoin : join (map JStr texts ++ v :: rest)
                  = Raise (Exn "TypeError"
                             ("sequence item " +:+ pretty (length texts)
                                +:+ ": expected str instance, " +:+ type_name v
                                +:+ " found")))
    by (unfold join; now rewrite join_from_not_str).
  destruct (forallb (fun c => negb (truthy c)) (map JStr texts ++ v :: rest));
    simpl; rewrite Hjoin; repeat split; reflexivity.
Qed.

Lemma read_lines_broken (pre post : list string) (line : string) (e : exn)
    (stream_end : option exn) :
  Forall (fun l => classify json_loads l = Skip
                   \/ exists content, classify json_loads l = Content content) pre ->
  classify json_loads line = Broken e ->
  forall st k, exists k',
    read_lines json_loads clock (pre ++ line :: post) stream_end st k = (Raise e, k').
Proof.
  intros Hpre Hline. induction Hpre as [|l pre Hl _ IH]; intros st k.
  - exists k. simpl app. now rewrite read_lines_step, Hline.
  - rewrite <- app_comm_cons, read_lines_step.
    destruct Hl as [->|[content ->]]; [apply IH|].
    destruct (truthy content && negb (is_Some_bool (first_token_time st)));
      apply IH.
Qed.

(** X16.  A data line that holds JSON of an unexpected shape (for which an
    access of [chunk.get("choices", [{}])[0].get("delta", {}).get("content",
    "")] raises) is not skipped the way a line that is not JSON is: the
    exception ends the request, [error] is its message, and the lines after
    it are not read. *)
Theorem send_request_unexpected_chunk_fails (request_id prompt : string)
    (c : config) (resp : response) (pre post : list string) (line : string)
    (e : exn) :
  client (build_request c prompt) = Connected resp ->
  status_code resp = 200%Z ->
  aiter_lines resp = (pre ++ line :: post)%list ->
  Forall (fun l => classify json_loads l = Skip
                   \/ exists content, classify json_loads l = Content content) pre ->
  classify json_loads line = Broken e ->
  let m := send_request json_loads clock client request_id prompt c in
  error m = Some (exn_str e) /\ output_tokens m = 0%Z /\ e2e_latency_ms m = 0.
Proof.
  intros Hresp Hstatus Hlines Hpre Hline m. unfold m.
  rewrite (send_request_answered json_loads clock client _ _ _ resp Hresp Hstatus).
  rewrite Hlines.
  destruct (read_lines_broken pre post line e (stream_error resp) Hpre Hline
              {| first_token_time := None; output_text := [] |} 2%nat) as [k' ->].
  repeat split; reflexivity.
Qed.

(** Shapes that break a chunk: an empty ["choices"] list, a chunk that is
    not an object. *)
Lemma chunk_content_empty_choices (fields : list (string * json)) :
  assoc "choices" fields = Some (JArr []) ->
  chunk_content (JObj fields) = Raise (Exn "IndexError" "list index out of range").
Proof. intros H. unfold chunk_content. simpl. now rewrite H. Qed.

End DeliveryTheorems.

(** A stand-in for [json.loads] that knows two more payloads: ["null"] is a
    chunk whose content delta is JSON null, ["usage"] a chunk with an empty
    list of choices. *)
Definition stub_loads (data : string) : option json :=
  if String.eqb data "null" then
    Some (JObj [ ("choices",
                  JArr [ JObj [ ("delta", JObj [ ("content", JNull) ]) ] ]) ])
  else if String.eqb data "usage" then Some (JObj [ ("choices", JArr []) ])
  else toy_loads data.

(** A server whose stream goes on after ["data: [DONE]"] and then breaks. *)
Definition late_lines (request : http_request) : transport :=
  Connected {| status_code := 200; aread_decode := Ok "";
               aiter_lines := ["data: Hi"; "data: [DONE]"; "data: late"];
               stream_error := Some (Exn "ReadError" "") |}.

Lemma send_request_stops_at_done_witness :
  send_request toy_loads ticking late_lines "req-0" "Say hello" no_config
  = send_request toy_loads ticking
      (fun _ => Connected {| status_code := 200; aread_decode := Ok "";
                             aiter_lines := ["data: Hi"; "data: [DONE]"];
                             stream_error := None |})
      "req-0" "Say hello" no_config.
Proof.
  apply (send_request_stops_at_done toy_loads ticking late_lines "req-0"
           "Say hello" no_config _ ["data: Hi"] ["data: late"] eq_refl).
  reflexivity.
Defined.

Lemma send_request_clock_readings_witness :
  let m := send_request toy_loads ticking
             (streamed ["data: Hello, "; ""; "data: world"; "data: [DONE]"])
             "req-0" "Say hello" no_config in
  ((end_time m = ticking 2 /\ ttft_ms m = 0
    /\ e2e_latency_ms m = (ticking 2 - ticking 1) * 1000)
   \/ (end_time m = ticking 3
       /\ ttft_ms m = (if Qeq_bool (ticking 2) 0 then 0
                       else (ticking 2 - ticking 1) * 1000)
       /\ e2e_latency_ms m = (ticking 3 - ticking 1) * 1000))%Q
  /\ (e2e_latency_ms m <= (end_time m - start_time m) * 1000)%Q.
Proof.
  pose proof (send_request_clock_readings toy_loads ticking
                (streamed ["data: Hello, "; ""; "data: world"; "data: [DONE]"])
                "req-0" "Say hello" no_config) as (_ & _ & Hcases & Hle).
  split; [apply Hcases; reflexivity | apply Hle; [exact ticking_mono | reflexivity]].
Defined.

Lemma send_request_counts_streamed_text_witness :
  let m := send_request toy_loads ticking
             (streamed ["data: Hello, "; ""; "data: world"; "data: [DONE]"])
             "req-0" "Say hello" no_config in
  error m = None /\ output_tokens m = 3%Z /\ input_tokens m = 2%Z
  /\ end_time m = ticking 3.
Proof.
  destruct (send_request_counts_streamed_text toy_loads ticking
              (streamed ["data: Hello, "; ""; "data: world"; "data: [DONE]"])
              "req-0" "Say hello" no_config _ ["Hello, "; "world"] eq_refl eq_refl)
    as (Herr & Hout & Hin & _ & Hsome).
  - apply delivers_content; [reflexivity|].
    apply delivers_skip; [reflexivity|].
    apply delivers_content; [reflexivity|].
    apply delivers_done. reflexivity.
  - split; [exact Herr|]. split; [exact Hout|]. split; [exact Hin|].
    apply Hsome. discriminate.
Defined.

Lemma send_request_non_string_content_fails_witness :
  error (send_request stub_loads ticking (streamed ["data: Hi"; "data: null"])
           "req-0" "Say hello" no_config)
  = Some "sequence item 1: expected str instance, NoneType found".
Proof.
  apply (send_request_non_string_content_fails stub_loads ticking
           (streamed ["data: Hi"; "data: null"]) "req-0" "Say hello" no_config
           _ ["Hi"] JNull [] eq_refl eq_refl).
  - apply delivers_content; [reflexivity|].
    apply delivers_content; [reflexivity|].
    apply delivers_end. reflexivity.
  - discriminate.
Defined.

Lemma send_request_unexpected_chunk_fails_witness :
  error (send_request stub_loads ticking
           (streamed ["data: Hi"; "data: usage"; "data: more"])
           "req-0" "Say hello" no_config)
  = Some "list index out of range".
Proof.
  apply (send_request_unexpected_chunk_fails stub_loads ticking
           (streamed ["data: Hi"; "data: usage"; "data: more"])
           "req-0" "Say hello" no_config _ ["data: Hi"] ["data: more"]
           "data: usage" (Exn "IndexError" "list index out of range")
           eq_refl eq_refl eq_refl).
  - constructor; [right; eexists; reflexivity | constructor].
  - reflexivity.
Defined.

(** *** run_concurrent_test: composition *)

Lemma generate_prompt_length (c : config) (draw : nat) :
  let prompt_type := default "random" (prompt_type (prompt_section c)) in
  let n := default 512%Z (input_length (prompt_section c)) in
  let fixed := default "" (fixed_prompt (prompt_section c)) in
  ~ (prompt_type = "fixed" /\ fixed <> "") -> (0 <= n)%Z ->
  Z.of_nat (String.length (generate_prompt c draw)) = (3 * n)%Z.
Proof.
  intros prompt_type n fixed Hmode Hn. rewrite generate_prompt_unfold.
  fold prompt_type. fold n. fold fixed. cbv zeta.
  destruct (String.eqb prompt_type "fixed" && negb (String.eqb fixed "")) eqn:Hfix.
  { apply fixed_mode_reflect in Hfix. contradiction. }
  set (seed := base_phrase +:+ random_choice draw +:+ ". ").
  destruct (elaborate_spec (random_choice draw) n seed) as (Hstop & _ & _).
  set (r := elaborate (random_choice draw) n seed) in *.
  assert (Hreached : (10 * n <= 3 * Z.of_nat (String.length r))%Z).
  { destruct (Z.le_gt_cases (10 * n) (3 * Z.of_nat (String.length r))) as [|Hlt];
      [assumption|].
    apply below_target_spec in Hlt. congruence. }
  unfold slice_to. assert (Hb : (n * 3 <? 0)%Z = false) by lia.
  rewrite Hb, str_take_length. lia.
Qed.

Section CompositionFacts.

Local Open Scope Q_scope.

Variable json_loads : string -> option json.
Variable client_of : string -> http_request -> transport.
Variable clock_of : string -> nat -> Q.
Variable draw_of : string -> nat.
Variable wall_start wall_end : Q.
Variable now_isoformat : string.

Lemma send_request_input_tokens (clock : nat -> Q)
    (client : http_request -> transport) (request_id prompt : string)
    (c : config) :
  let m := send_request json_loads clock client request_id prompt c in
  request_id = LoadTest.request_id m
  /\ (error m = None -> input_tokens m = (Z.of_nat (String.length prompt) / 4)%Z)
  /\ (error m <> None ->
      ttft_ms m = 0 /\ e2e_latency_ms m = 0 /\ tokens_per_second m = 0).
Proof.
  intros m. unfold m, send_request.
  destruct (send_request_body json_loads clock (client (build_request c prompt))
              prompt (initial_metrics clock request_id) 1%nat)
    as [[m'|e] k] eqn:Hbody.
  - apply send_request_body_ok in Hbody
      as (resp & st & k1 & out & _ & _ & _ & _ & ->). simpl.
    split; [reflexivity|]. split; [reflexivity|]. intros H. now contradiction H.
  - simpl. split; [reflexivity|]. split; [discriminate|].
    intros _. repeat split; reflexivity.
Qed.

(** X17.  The request [idx] of the measured phase carries the id
    ["req-<idx>"].  When it succeeds, [input_tokens] is a quarter of the
    prompt length: [len(fixed_prompt) // 4] in fixed mode, and
    [3 * input_length // 4] for a generated prompt, which is three quarters
    of the configured [input_length]. *)
Theorem bounded_request_input_tokens (c : config) (idx : Z) :
  let prompt_type := default "random" (prompt_type (prompt_section c)) in
  let n := default 512%Z (input_length (prompt_section c)) in
  let fixed := default "" (fixed_prompt (prompt_section c)) in
  let m := bounded_request json_loads client_of clock_of draw_of c idx in
  request_id m = "req-" +:+ pretty idx
  /\ (error m = None ->
      (prompt_type = "fixed" /\ fixed <> "" ->
       input_tokens m = (Z.of_nat (String.length fixed) / 4)%Z)
      /\ (~ (prompt_type = "fixed" /\ fixed <> "") -> (0 <= n)%Z ->
          input_tokens m = (3 * n / 4)%Z)).
Proof.
  intros prompt_type n fixed m. unfold m, bounded_request, request.
  destruct (send_request_input_tokens (clock_of ("req-" +:+ pretty idx))
              (client_of ("req-" +:+ pretty idx)) ("req-" +:+ pretty idx)
              (generate_prompt c (draw_of ("req-" +:+ pretty idx))) c)
    as (Hid & Htok & _).
  split; [symmetry; exact Hid|]. intros Herr. rewrite (Htok Herr). split.
  - intros Hmode. rewrite generate_prompt_unfold. cbv zeta.
    fold prompt_type. fold fixed.
    apply fixed_mode_reflect in Hmode. now rewrite Hmode.
  - intros Hmode Hn.
    now rewrite (generate_prompt_length c _ Hmode Hn).
Qed.

End CompositionFacts.

Section OutcomeFacts.

Local Open Scope Q_scope.

Variable json_loads : string -> option json.
Variable client_of : string -> http_request -> transport.
Variable clock_of : string -> nat -> Q.
Variable draw_of : string -> nat.
Variable wall_start wall_end : Q.
Variable now_isoformat : string.

(** X19.  What a run comes to, against the scheduling of the gate.  A
    negative [concurrency] makes [asyncio.Semaphore] raise [ValueError].
    Otherwise the run completes exactly when the tasks can all settle, and
    never completes exactly when they cannot, which is the case for
    [concurrency = 0] with a positive number of requests. *)
Theorem run_concurrent_test_outcome (c : config) :
  let k := default 10%Z (concurrency (load_section c)) in
  let N := default 100%Z (num_requests (load_section c)) in
  let run := run_concurrent_test json_loads client_of clock_of draw_of
               wall_start wall_end now_isoformat c in
  ((k < 0)%Z <->
   run = Raises (Exn "ValueError" "Semaphore initial value must be >= 0"))
  /\ ((exists r, run = Completes r) <->
      (0 <= k)%Z /\ exists s, rtc step (initial k N) s /\ all_settled s)
  /\ (run = NeverCompletes <->
      (0 <= k)%Z /\ forall s, rtc step (initial k N) s -> ~ all_settled s).
Proof.
  intros k N run. unfold run, run_concurrent_test. fold k. fold N.
  unfold Semaphore. destruct (Z.ltb_spec k 0) as [Hneg|Hk].
  - split; [split; [reflexivity | intros _; exact Hneg]|].
    split; split; try (intros [r Hr]; discriminate); try discriminate;
      intros [H _]; lia.
  - split; [split; [lia|];
            intros H; destruct ((k =? 0)%Z && (0 <? N)%Z); discriminate|].
    destruct (Z.eqb_spec k 0) as [Hzero|Hpos]; simpl.
    + destruct (Z.ltb_spec 0 N) as [HN|HN].
      * split.
        -- split; [intros [r Hr]; discriminate|].
           intros [_ (s & Hrun & Hall)]. exfalso. rewrite Hzero in Hrun.
           exact (gate_closed_never_settles N s HN Hrun Hall).
        -- split; [|reflexivity]. intros _. split; [exact Hk|].
           intros s Hrun. rewrite Hzero in Hrun.
           exact (gate_closed_never_settles N s HN Hrun).
      * assert (Hdone : all_settled (initial k N)).
        { unfold all_settled, initial. simpl.
          replace (Z.to_nat N) with 0%nat by lia. constructor. }
        split.
        -- split; [|intros _; eexists; reflexivity].
           intros _. split; [exact Hk|]. exists (initial k N).
           split; [reflexivity | exact Hdone].
        -- split; [discriminate|]. intros [_ Hnever]. exfalso.
           exact (Hnever (initial k N) (rtc_refl _ _) Hdone).
    + assert (Hdrain : exists s, rtc step (initial k N) s /\ all_settled s).
      { apply (gate_drains k ltac:(lia) (Z.to_nat (pending (initial k N)))).
        - unfold pending.
          pose proof (count_state_nonneg Queued (tasks (initial k N))).
          pose proof (count_state_nonneg InFlight (tasks (initial k N))). lia.
        - apply gate_inv_initial. exact Hk. }
      split.
      * split; [|intros _; eexists; reflexivity].
        intros _. split; [exact Hk | exact Hdrain].
      * split; [discriminate|]. intros [_ Hnever]. exfalso.
        destruct Hdrain as (s & Hrun & Hall). exact (Hnever s Hrun Hall).
Qed.

(** X20.  With [num_requests <= 0] (and a valid [concurrency]) nothing is
    dispatched: the run completes with an empty [request_metrics], zero
    successful and failed requests and zero throughput, and
    [total_requests] is the configured number as it is. *)
Theorem run_concurrent_test_no_requests (c : config) :
  let k := default 10%Z (concurrency (load_section c)) in
  let N := default 100%Z (num_requests (load_section c)) in
  (0 <= k)%Z -> (N <= 0)%Z ->
  exists r,
    run_concurrent_test json_loads client_of clock_of draw_of
      wall_start wall_end now_isoformat c = Completes r
    /\ request_metrics r = []
    /\ successful_requests r = 0%Z /\ failed_requests r = 0%Z
    /\ total_requests r = N
    /\ throughput_rps r == 0.
Proof.
  intros k N Hk HN. unfold run_concurrent_test. fold k. fold N.
  unfold Semaphore. destruct (Z.ltb_spec k 0) as [Hneg|_]; [lia|].
  assert (H0 : (0 <? N)%Z = false) by lia. rewrite H0, andb_false_r.
  eexists. split; [reflexivity|].
  unfold range. replace (Z.to_nat N) with 0%nat by lia. simpl.
  repeat split; try reflexivity.
  destruct (Qlt_le_dec 0 (wall_end - wall_start)); [|reflexivity].
  unfold Qdiv. now rewrite Qmult_0_l.
Qed.

End OutcomeFacts.

Lemma NoDup_map_filter {A B} (f : A -> B) (p : A -> bool) (l : list A) :
  NoDup (map f l) -> NoDup (map f (List.filter p l)).
Proof.
  induction l as [|x l IH]; intros Hnd; [constructor|].
  simpl in Hnd. apply NoDup_cons in Hnd as [Hx Hnd]. simpl.
  destruct (p x); [|apply IH; exact Hnd].
  simpl. apply NoDup_cons. split; [|apply IH; exact Hnd].
  intros Hin. apply Hx. apply list_elem_of_In, in_map_iff in Hin as (y & Hy & Hin).
  apply filter_In in Hin as [Hin _].
  apply list_elem_of_In, in_map_iff. exists y. split; assumption.
Qed.

Lemma filter_sublist {A} (p : A -> bool) (l : list A) :
  sublist (List.filter p l) l.
Proof.
  induction l as [|x l IH]; [constructor|]. simpl.
  destruct (p x); [apply sublist_skip | apply sublist_cons]; exact IH.
Qed.

Lemma range_NoDup (n : Z) : NoDup (range n).
Proof.
  unfold range. apply (NoDup_fmap_2 Z.of_nat). apply NoDup_seq.
Qed.

Lemma range_In (n i : Z) : In i (range n) <-> (0 <= i < n)%Z.
Proof.
  unfold range. rewrite in_map_iff. split.
  - intros (j & <- & Hj). apply in_seq in Hj. lia.
  - intros Hi. exists (Z.to_nat i). split; [lia|]. apply in_seq. lia.
Qed.

Lemma req_id_inj (i j : Z) : "req-" +:+ pretty i = "req-" +:+ pretty j -> i = j.
Proof.
  intros H.
  change (String "r" (String "e" (String "q" (String "-" (pretty i))))
          = String "r" (String "e" (String "q" (String "-" (pretty j))))) in H.
  inversion H as [Hp]. exact (pretty_Z_inj _ _ Hp).
Qed.

Section IdentityFacts.

Local Open Scope Q_scope.

Variable json_loads : string -> option json.
Variable client_of : string -> http_request -> transport.
Variable clock_of : string -> nat -> Q.
Variable draw_of : string -> nat.
Variable wall_start wall_end : Q.
Variable now_isoformat : string.

Lemma all_metrics_ids (c : config) (n : Z) :
  map request_id
    (map (bounded_request json_loads client_of clock_of draw_of c) (range n))
  = map (fun i => "req-" +:+ pretty i) (range n).
Proof.
  rewrite map_map. apply map_ext. intros i.
  unfold bounded_request, request.
  destruct (send_request_input_tokens json_loads
              (clock_of ("req-" +:+ pretty i)) (client_of ("req-" +:+ pretty i))
              ("req-" +:+ pretty i)
              (generate_prompt c (draw_of ("req-" +:+ pretty i))) c) as (Hid & _).
  symmetry. exact Hid.
Qed.

(** X21.  The ids of the requests in [request_metrics] form a
    sub-sequence, in dispatch order, of ["req-0"], ..., ["req-<N-1>"]; these
    are pairwise distinct, so no id occurs twice in the result. *)
Theorem run_concurrent_test_request_ids (c : config) (r : TestResult) :
  let N := default 100%Z (num_requests (load_section c)) in
  let dispatched := map (fun i => "req-" +:+ pretty i) (range N) in
  run_concurrent_test json_loads client_of clock_of draw_of
    wall_start wall_end now_isoformat c = Completes r ->
  sublist (map request_id (request_metrics r)) dispatched
  /\ NoDup dispatched
  /\ NoDup (map request_id (request_metrics r))
  /\ (forall m, In m (request_metrics r) ->
        exists i, (0 <= i < N)%Z /\ request_id m = "req-" +:+ pretty i).
Proof.
  intros N dispatched Hrun. unfold run_concurrent_test in Hrun. fold N in Hrun.
  destruct (Semaphore (default 10%Z (concurrency (load_section c)))) as [value|e];
    [|discriminate].
  destruct ((value =? 0)%Z && (0 <? N)%Z); [discriminate|].
  inversion Hrun; subst r; clear Hrun. simpl.
  assert (Hnd : NoDup dispatched).
  { unfold dispatched. apply NoDup_fmap_2; [|apply range_NoDup].
    intros i j. apply req_id_inj. }
  pose proof (all_metrics_ids c N) as Hids. fold dispatched in Hids.
  split; [|split; [exact Hnd|split]].
  - rewrite <- Hids. apply (fmap_sublist request_id). apply filter_sublist.
  - apply NoDup_map_filter. rewrite Hids. exact Hnd.
  - intros m Hm. apply filter_In in Hm as [Hm _].
    apply in_map_iff in Hm as (i & <- & Hi). apply range_In in Hi.
    exists i. split; [exact Hi|].
    unfold bounded_request, request.
    destruct (send_request_input_tokens json_loads
                (clock_of ("req-" +:+ pretty i)) (client_of ("req-" +:+ pretty i))
                ("req-" +:+ pretty i)
                (generate_prompt c (draw_of ("req-" +:+ pretty i))) c) as (Hid & _).
    symmetry. exact Hid.
Qed.

End IdentityFacts.

Section StatisticsComposition.

Local Open Scope Q_scope.

Variable np_mean : list Q -> Q.
Variable np_percentile : list Q -> Z -> Q.
Variable json_loads : string -> option json.
Variable client_of : string -> http_request -> transport.
Variable clock_of : string -> nat -> Q.
Variable draw_of : string -> nat.
Variable wall_start wall_end : Q.
Variable now_isoformat : string.

Lemma calculate_statistics_kept (metrics : list RequestMetrics)
    (throughput_rps : Q) :
  calculate_statistics np_mean np_percentile metrics throughput_rps =
  let mean data := if is_empty data then 0 else np_mean data in
  let pct data p := if is_empty data then 0 else np_percentile data p in
  {| avg_latency_ms := mean (kept e2e_latency_ms metrics);
     p50_latency_ms := pct (kept e2e_latency_ms metrics) 50%Z;
     p95_latency_ms := pct (kept e2e_latency_ms metrics) 95%Z;
     p99_latency_ms := pct (kept e2e_latency_ms metrics) 99%Z;
     avg_ttft_ms := mean (kept ttft_ms metrics);
     p50_ttft_ms := pct (kept ttft_ms metrics) 50%Z;
     p95_ttft_ms := pct (kept ttft_ms metrics) 95%Z;
     p99_ttft_ms := pct (kept ttft_ms metrics) 99%Z;
     avg_tokens_per_second := mean (kept tokens_per_second metrics);
     stat_throughput_rps := throughput_rps |}.
Proof.
  unfold calculate_statistics, percentile.
  destruct metrics as [|m l]; [reflexivity|].
  change (is_empty (m :: l)) with false. cbv iota zeta. unfold kept.
  generalize (map e2e_latency_ms
                (List.filter (fun m => positive (e2e_latency_ms m)) (m :: l))).
  generalize (map ttft_ms
                (List.filter (fun m => positive (ttft_ms m)) (m :: l))).
  generalize (map tokens_per_second
                (List.filter (fun m => positive (tokens_per_second m)) (m :: l))).
  intros [|] [|] [|]; reflexivity.
Qed.

Lemma kept_filter (f : RequestMetrics -> Q) (p : RequestMetrics -> bool)
    (metrics : list RequestMetrics) :
  (forall m, In m metrics -> p m = false -> f m = 0) ->
  kept f (List.filter p metrics) = kept f metrics.
Proof.
  unfold kept. induction metrics as [|m l IH]; intros Hzero; [reflexivity|].
  assert (IH' := IH (fun x Hx => Hzero x (or_intror Hx))).
  simpl. destruct (p m) eqn:Hp.
  - simpl. destruct (positive (f m)); simpl; now rewrite IH'.
  - rewrite (Hzero m (or_introl eq_refl) Hp). simpl. exact IH'.
Qed.

(** X22.  The statistics computed from [request_metrics], as [main] does,
    are those of all the dispatched requests: a request that failed has zero
    latency, TTFT and tokens per second, and [calculate_statistics] leaves
    such samples out whichever list it is given. *)
Theorem calculate_statistics_ignores_failed_requests (c : config)
    (r : TestResult) (throughput : Q) :
  let N := default 100%Z (num_requests (load_section c)) in
  let all_metrics :=
    map (bounded_request json_loads client_of clock_of draw_of c) (range N) in
  run_concurrent_test json_loads client_of clock_of draw_of
    wall_start wall_end now_isoformat c = Completes r ->
  calculate_statistics np_mean np_percentile (request_metrics r) throughput
  = calculate_statistics np_mean np_percentile all_metrics throughput.
Proof.
  intros N all_metrics Hrun. unfold run_concurrent_test in Hrun. fold N in Hrun.
  destruct (Semaphore (default 10%Z (concurrency (load_section c)))) as [value|e];
    [|discriminate].
  destruct ((value =? 0)%Z && (0 <? N)%Z); [discriminate|].
  inversion Hrun; subst r; clear Hrun. simpl. fold all_metrics.
  assert (Hzero : forall m, In m all_metrics -> negb (has_error m) = false ->
            ttft_ms m = 0 /\ e2e_latency_ms m = 0 /\ tokens_per_second m = 0).
  { intros m Hm Herr. apply in_map_iff in Hm as (i & <- & _).
    unfold bounded_request, request in *.
    destruct (send_request_input_tokens json_loads
                (clock_of ("req-" +:+ pretty i)) (client_of ("req-" +:+ pretty i))
                ("req-" +:+ pretty i)
                (generate_prompt c (draw_of ("req-" +:+ pretty i))) c)
      as (_ & _ & Hfail).
    apply Hfail. intros Hnone. apply has_error_None in Hnone.
    rewrite Hnone in Herr. discriminate. }
  rewrite !calculate_statistics_kept. cbv zeta.
  rewrite !kept_filter; [reflexivity| | |]; intros m Hm Hp;
    apply (Hzero m Hm Hp).
Qed.

End StatisticsComposition.

(** [k] copies of [s], one after the other. *)
Fixpoint repeated (k : nat) (s : string) : string :=
  match k with
  | O => ""
  | S n => s +:+ repeated n s
  end.

Lemma repeated_snoc (k : nat) (s : string) :
  repeated k s +:+ s = s +:+ repeated k s.
Proof.
  induction k as [|k IH]; simpl.
  - now rewrite string_app_nil_r.
  - now rewrite string_app_assoc, IH.
Qed.

(** The loop appends the sentence about the topic a least number of times:
    it stops at the first prompt that reaches the target. *)
Lemma elaborate_repeats (topic : string) (input_length : Z) (prompt : string) :
  exists k,
    elaborate topic input_length prompt
    = prompt +:+ repeated k ("Elaborate on " +:+ topic +:+ ". ")
    /\ below_target (prompt +:+ repeated k ("Elaborate on " +:+ topic +:+ ". "))
         input_length = false
    /\ forall j, (j < k)%nat ->
         below_target (prompt +:+ repeated j ("Elaborate on " +:+ topic +:+ ". "))
           input_length = true.
Proof.
  funelim (elaborate topic input_length prompt).
  - destruct H0 as (k & Heq & Hstop & Hbelow). exists (S k).
    simpl repeated. rewrite <- !string_app_assoc.
    rewrite !string_app_assoc in Heq, Hstop.
    rewrite !string_app_assoc. split; [exact Heq|]. split; [exact Hstop|].
    intros [|j] Hj.
    + simpl. rewrite string_app_nil_r. exact H.
    + specialize (Hbelow j ltac:(lia)). simpl repeated.
      rewrite !string_app_assoc in Hbelow. rewrite !string_app_assoc.
      exact Hbelow.
  - exists 0%nat. simpl. rewrite string_app_nil_r.
    split; [reflexivity|]. split; [assumption|]. intros j Hj. lia.
Qed.

Lemma random_choice_topic (draw : nat) : In (random_choice draw) topics.
Proof.
  unfold random_choice. apply nth_In.
  apply Nat.mod_upper_bound. discriminate.
Qed.

(** X23.  Outside fixed mode the prompt is cut from a text of this shape:
    the seed sentence about one of the ten topics, followed by the sentence
    ["Elaborate on <topic>. "] repeated the least number of times for which
    three tenths of the length reach [input_length]. *)
Theorem generate_prompt_random_shape (c : config) (draw : nat) :
  let prompt_type := default "random" (prompt_type (prompt_section c)) in
  let n := default 512%Z (input_length (prompt_section c)) in
  let fixed := default "" (fixed_prompt (prompt_section c)) in
  ~ (prompt_type = "fixed" /\ fixed <> "") ->
  exists topic k,
    In topic topics
    /\ let sentence := "Elaborate on " +:+ topic +:+ ". " in
       let seed := base_phrase +:+ topic +:+ ". " in
       generate_prompt c draw = slice_to (seed +:+ repeated k sentence) (n * 3)
       /\ (10 * n <= 3 * Z.of_nat (String.length (seed +:+ repeated k sentence)))%Z
       /\ forall j, (j < k)%nat ->
            (3 * Z.of_nat (String.length (seed +:+ repeated j sentence)) < 10 * n)%Z.
Proof.
  intros prompt_type n fixed Hmode. rewrite generate_prompt_unfold.
  fold prompt_type. fold n. fold fixed. cbv zeta.
  destruct (String.eqb prompt_type "fixed" && negb (String.eqb fixed "")) eqn:Hfix.
  { apply fixed_mode_reflect in Hfix. contradiction. }
  destruct (elaborate_repeats (random_choice draw) n
              (base_phrase +:+ random_choice draw +:+ ". "))
    as (k & Heq & Hstop & Hbelow).
  exists (random_choice draw), k. split; [apply random_choice_topic|].
  rewrite !string_app_assoc in *.
  split; [now rewrite Heq|]. split.
  - destruct (Z.le_gt_cases (10 * n)
                (3 * Z.of_nat (String.length
                     (base_phrase +:+ random_choice draw +:+ ". "
                      +:+ repeated k ("Elaborate on " +:+ random_choice draw +:+ ". ")))))
      as [|Hlt]; [assumption|].
    apply below_target_spec in Hlt. congruence.
  - intros j Hj. apply below_target_spec, Hbelow, Hj.
Qed.

Lemma generate_prompt_random_shape_witness :
  exists topic k,
    In topic topics
    /\ generate_prompt (random_mode 40) 3
       = slice_to ((base_phrase +:+ topic +:+ ". ")
                     +:+ repeated k ("Elaborate on " +:+ topic +:+ ". ")) (40 * 3).
Proof.
  destruct (generate_prompt_random_shape (random_mode 40) 3)
    as (topic & k & Hin & Heq & _).
  - intros [H _]. discriminate H.
  - exists topic, k. split; [exact Hin | exact Heq].
Defined.

Lemma bounded_request_input_tokens_witness :
  input_tokens
    (bounded_request toy_loads
       (fun _ => streamed ["data: Hello"; "data: [DONE]"])
       (fun _ => ticking) (fun _ => 0%nat) (random_mode 40) 7)
  = 30%Z.
Proof.
  apply (proj2 (bounded_request_input_tokens toy_loads
                  (fun _ => streamed ["data: Hello"; "data: [DONE]"])
                  (fun _ => ticking) (fun _ => 0%nat) (random_mode 40) 7)).
  - reflexivity.
  - intros [H _]. discriminate H.
  - simpl. lia.
Defined.

Lemma run_concurrent_test_no_requests_witness :
  exists r,
    run_concurrent_test toy_loads (fun _ => streamed []) (fun _ => ticking)
      (fun _ => 0%nat) 0 10 "2026-01-01T00:00:00" (load_only 2 0) = Completes r
    /\ request_metrics r = []
    /\ successful_requests r = 0%Z /\ failed_requests r = 0%Z
    /\ total_requests r = 0%Z
    /\ (throughput_rps r == 0)%Q.
Proof.
  apply (run_concurrent_test_no_requests toy_loads (fun _ => streamed [])
           (fun _ => ticking) (fun _ => 0%nat) 0 10 "2026-01-01T00:00:00"
           (load_only 2 0)); simpl; lia.
Defined.

(** A server that answers the request with id ["req-1"] by an error status
    and streams a greeting to every other request. *)
Definition failing_second (request_id : string) : http_request -> transport :=
  if String.eqb request_id "req-1" then answered 503 "Service Unavailable"
  else streamed ["data: Hello"; "data: [DONE]"].

Lemma run_concurrent_test_request_ids_witness :
  exists r,
    run_concurrent_test toy_loads failing_second (fun _ => ticking)
      (fun _ => 0%nat) 0 10 "2026-01-01T00:00:00" (load_only 2 3) = Completes r
    /\ map request_id (request_metrics r) = ["req-0"; "req-2"]
    /\ NoDup (map request_id (request_metrics r)).
Proof.
  eexists. split; [reflexivity|]. split; [reflexivity|].
  apply (run_concurrent_test_request_ids toy_loads failing_second
           (fun _ => ticking) (fun _ => 0%nat) 0 10 "2026-01-01T00:00:00"
           (load_only 2 3) _ eq_refl).
Defined.

Lemma calculate_statistics_ignores_failed_requests_witness :
  exists r,
    run_concurrent_test toy_loads failing_second (fun _ => ticking)
      (fun _ => 0%nat) 0 10 "2026-01-01T00:00:00" (load_only 2 3) = Completes r
    /\ failed_requests r = 1%Z
    /\ calculate_statistics toy_mean toy_percentile (request_metrics r)
         (throughput_rps r)
       = calculate_statistics toy_mean toy_percentile
           (map (bounded_request toy_loads failing_second (fun _ => ticking)
                   (fun _ => 0%nat) (load_only 2 3)) (range 3))
           (throughput_rps r).
Proof.
  eexists. split; [reflexivity|]. split; [reflexivity|].
  apply (calculate_statistics_ignores_failed_requests toy_mean toy_percentile
           toy_loads failing_second (fun _ => ticking) (fun _ => 0%nat) 0 10
           "2026-01-01T00:00:00" (load_only 2 3) _ _ eq_refl).
Defined.

(** *** main *)

(** The configuration that the run uses: the loaded one with the overrides
    of the command line applied. *)
Definition overridden (a : args) (c0 : config) : config :=
  let c1 := match args_concurrency a with
            | Some value => set_concurrency value c0
            | None => c0
            end in
  match args_num_requests a with
  | Some value => set_num_requests value c1
  | None => c1
  end.

Section MainFacts.

Local Open Scope Q_scope.

Variable parse_args : list string -> parsed.
Variable path_exists : string -> bool.
Variable load_config_file : string -> result config.
Variable report_output_dir : option string.
Variable path_join : string -> string -> string.
Variable write_report : string -> report_data -> result unit.
Variable json_loads : string -> option json.
Variable client_of : string -> http_request -> transport.
Variable clock_of : string -> nat -> Q.
Variable draw_of : string -> nat.
Variable wall_start wall_end : Q.
Variable now_isoformat : string.
Variable np_mean : list Q -> Q.
Variable np_percentile : list Q -> Z -> Q.
Variable strftime_now : string.

Lemma main_reports (argv : list string) (code : Z) (path : string)
    (report : report_data) :
  main parse_args path_exists load_config_file report_output_dir path_join
    write_report json_loads client_of clock_of draw_of wall_start wall_end
    now_isoformat np_mean np_percentile strftime_now argv
  = Exit code (Some (path, report)) ->
  exists a c0 r,
    parse_args argv = Parsed a
    /\ path_exists (args_config a) = true
    /\ load_config_file (args_config a) = Ok c0
    /\ metadata_config report = overridden a c0
    /\ run_concurrent_test json_loads client_of clock_of draw_of
         wall_start wall_end now_isoformat (overridden a c0) = Completes r
    /\ code = (if (failed_requests r =? 0)%Z then 0%Z else 1%Z)
    /\ summary_total_requests report = total_requests r
    /\ summary_successful_requests report = successful_requests r
    /\ summary_failed_requests report = failed_requests r.
Proof.
  unfold main. destruct (parse_args argv) as [a| |]; try discriminate.
  destruct (path_exists (args_config a)) eqn:Hexists; simpl; [|discriminate].
  destruct (load_config_file (args_config a)) as [c0|e] eqn:Hload;
    [|discriminate].
  fold (overridden a c0).
  destruct (run_concurrent_test json_loads client_of clock_of draw_of
              wall_start wall_end now_isoformat (overridden a c0))
    as [r|e|] eqn:Hrun; try discriminate.
  destruct (write_report _ _) as [u|e]; [|discriminate].
  intros Hmain. inversion Hmain; subst. exists a, c0, r.
  repeat split; try reflexivity; assumption.
Qed.

(** X24.  [main] exits with status 2 when [parse_args] rejects the command
    line, with status 0 when it shows the help text, and with status 1 when
    the configuration file does not exist; in these cases, and in no other,
    it exits without running anything or writing a report.  Whenever [main]
    exits, the status is 0, 1 or 2, and 2 only for a rejected command line.
    After a report, the status is 0 exactly when the report counts no
    failed request, and 1 otherwise; the report's [total_requests] is the
    configured number, and its successful and failed counts add up to the
    number of requests dispatched. *)
Theorem main_exit_status (argv : list string) :
  let outcome :=
    main parse_args path_exists load_config_file report_output_dir path_join
      write_report json_loads client_of clock_of draw_of wall_start wall_end
      now_isoformat np_mean np_percentile strftime_now argv in
  (parse_args argv = UsageError -> outcome = Exit 2 None)
  /\ (parse_args argv = HelpShown -> outcome = Exit 0 None)
  /\ (forall a,
        parse_args argv = Parsed a -> path_exists (args_config a) = false ->
        outcome = Exit 1 None)
  /\ (forall code written,
        outcome = Exit code written ->
        (code = 0 \/ code = 1 \/ code = 2)%Z
        /\ (code = 2%Z <-> parse_args argv = UsageError)
        /\ (written = None <->
            (parse_args argv = UsageError /\ code = 2%Z)
            \/ (parse_args argv = HelpShown /\ code = 0%Z)
            \/ (exists a,
                  parse_args argv = Parsed a
                  /\ path_exists (args_config a) = false /\ code = 1%Z))
        /\ forall path report,
             written = Some (path, report) ->
             let N := default 100%Z
                        (num_requests (load_section (metadata_config report))) in
             (code = 0%Z <-> summary_failed_requests report = 0%Z)
             /\ (code = 1%Z <-> summary_failed_requests report <> 0%Z)
             /\ summary_total_requests report = N
             /\ (summary_successful_requests report
                 + summary_failed_requests report = Z.max 0 N)%Z
             /\ (0 <= summary_failed_requests report)%Z).
Proof.
  intros outcome. split; [|split; [|split]].
  - intros Hparse. unfold outcome, main. now rewrite Hparse.
  - intros Hparse. unfold outcome, main. now rewrite Hparse.
  - intros a Hparse Hmissing. unfold outcome, main.
    now rewrite Hparse, Hmissing.
  - intros code written Hexit. destruct written as [[path report]|].
    + destruct (main_reports argv code path report Hexit)
        as (a & c0 & r & Hparse & Hexists & _ & Hconfig & Hrun & Hcode
            & Htotal & Hsucc & Hfail).
      subst code. rewrite Hparse. simpl.
      split; [destruct (failed_requests r =? 0)%Z; lia|].
      split; [split; [destruct (failed_requests r =? 0)%Z; lia | discriminate]|].
      split.
      { split; [discriminate|].
        intros [[H _]|[[H _]|(a' & H & Hmissing & _)]]; try discriminate.
        inversion H; subst a'. congruence. }
      intros path' report' Heq. inversion Heq; subst path' report'.
      rewrite Hconfig, Htotal, Hsucc, Hfail.
      unfold run_concurrent_test in Hrun.
      destruct (Semaphore _) as [value|e]; [|discriminate].
      destruct (_ && _); [discriminate|].
      inversion Hrun; subst r; clear Hrun. simpl.
      set (all := map _ _).
      pose proof (filter_split_length (fun m => has_error m) all) as Hsplit.
      assert (Hlen : Z.of_nat (length all)
                     = Z.max 0 (default 100%Z (num_requests (load_section (overridden a c0))))).
      { unfold all. rewrite length_map. apply range_length. }
      destruct (Z.eqb_spec (Z.of_nat (length (List.filter (fun m => has_error m) all))) 0)
        as [Hz|Hnz].
      * split; [split; intros _; [exact Hz | reflexivity]|].
        split; [split; [discriminate | intros H; contradiction]|].
        split; [reflexivity | split; lia].
      * split; [split; [discriminate | intros H; contradiction]|].
        split; [split; intros _; [exact Hnz | reflexivity]|].
        split; [reflexivity | split; lia].
    + unfold outcome, main in Hexit.
      destruct (parse_args argv) as [a| |] eqn:Hparse; simpl.
      * destruct (path_exists (args_config a)) eqn:Hexists; simpl in Hexit.
        -- exfalso. destruct (load_config_file (args_config a)); [|discriminate].
           destruct (run_concurrent_test _ _ _ _ _ _ _ _); try discriminate.
           destruct (write_report _ _); discriminate.
        -- inversion Hexit. split; [lia|].
           split; [split; discriminate|].
           split; [|discriminate].
           split; [|reflexivity]. intros _. right. right.
           exists a. repeat split. exact Hexists.
      * inversion Hexit. split; [lia|].
        split; [split; reflexivity|].
        split; [|discriminate].
        split; [|reflexivity]. intros _. left. split; reflexivity.
      * inversion Hexit. split; [lia|].
        split; [split; discriminate|].
        split; [|discriminate].
        split; [|reflexivity]. intros _. right. left. split; reflexivity.
Qed.

(** X25.  The configuration that [main] runs and reports is the loaded one
    with [--concurrency] and [--num-requests] put in place of the [load]
    section's values when they are given: the other keys of the section and
    the other sections are as loaded, and the counts of the report are those
    of the run under this configuration. *)
Theorem main_applies_overrides (argv : list string) (a : args) (c0 : config)
    (code : Z) (path : string) (report : report_data) :
  parse_args argv = Parsed a ->
  load_config_file (args_config a) = Ok c0 ->
  main parse_args path_exists load_config_file report_output_dir path_join
    write_report json_loads client_of clock_of draw_of wall_start wall_end
    now_isoformat np_mean np_percentile strftime_now argv
  = Exit code (Some (path, report)) ->
  let c := metadata_config report in
  server c = server c0
  /\ prompt c = prompt c0
  /\ concurrency (load_section c)
     = match args_concurrency a with
       | Some value => Some value
       | None => concurrency (load_section c0)
       end
  /\ num_requests (load_section c)
     = match args_num_requests a with
       | Some value => Some value
       | None => num_requests (load_section c0)
       end
  /\ warmup_requests (load_section c) = warmup_requests (load_section c0)
  /\ request_timeout (load_section c) = request_timeout (load_section c0)
  /\ exists r,
       run_concurrent_test json_loads client_of clock_of draw_of
         wall_start wall_end now_isoformat c = Completes r
       /\ summary_total_requests report = total_requests r
       /\ summary_successful_requests report = successful_requests r
       /\ summary_failed_requests report = failed_requests r.
Proof.
  intros Hparse Hload Hexit c.
  destruct (main_reports argv code path report Hexit)
    as (a' & c0' & r & Hparse' & _ & Hload' & Hconfig & Hrun & _
        & Htotal & Hsucc & Hfail).
  assert (a' = a) by congruence. subst a'.
  assert (c0' = c0) by congruence. subst c0'.
  unfold c. rewrite Hconfig. unfold overridden in Hrun |- *. cbv zeta in Hrun |- *.
  destruct (args_concurrency a) as [k|], (args_num_requests a) as [n|]; simpl;
    (repeat split; try reflexivity; exists r; repeat split; assumption).
Qed.

End MainFacts.

(** A file system that holds one configuration file, asking for three
    requests at concurrency two, and takes every report. *)
Definition one_config (path : string) : bool :=
  String.eqb path "benchmark/config/default.yaml".

Definition cli (config_path : string) (concurrency : option Z) : args :=
  {| args_config := config_path; args_concurrency := concurrency;
     args_num_requests := None; args_output := None |}.

(** A stand-in for [parse_args] that knows five command lines: the empty
    one, [--config PATH], [--concurrency 1], [--help], and
    [--concurrency two], which it rejects like every other one. *)
Definition toy_parse_args (argv : list string) : parsed :=
  match argv with
  | [] => Parsed (cli "benchmark/config/default.yaml" None)
  | [option] =>
      if String.eqb option "--help" then HelpShown else UsageError
  | [option; value] =>
      if String.eqb option "--config" then Parsed (cli value None)
      else if String.eqb option "--concurrency" && String.eqb value "1"
      then Parsed (cli "benchmark/config/default.yaml" (Some 1%Z))
      else UsageError
  | _ => UsageError
  end.

Lemma main_exit_status_witness :
  main toy_parse_args one_config (fun _ => Ok (load_only 2 3)) None
    (fun dir name => dir +:+ "/" +:+ name) (fun _ _ => Ok tt)
    toy_loads failing_second (fun _ => ticking) (fun _ => 0%nat) 0 10
    "2026-01-01T00:00:00" toy_mean toy_percentile "20260101_000000"
    ["--concurrency"; "two"]
  = Exit 2 None
  /\ main toy_parse_args one_config (fun _ => Ok (load_only 2 3)) None
       (fun dir name => dir +:+ "/" +:+ name) (fun _ _ => Ok tt)
       toy_loads failing_second (fun _ => ticking) (fun _ => 0%nat) 0 10
       "2026-01-01T00:00:00" toy_mean toy_percentile "20260101_000000"
       ["--config"; "missing.yaml"]
     = Exit 1 None
  /\ exists path report,
      main toy_parse_args one_config (fun _ => Ok (load_only 2 3)) None
        (fun dir name => dir +:+ "/" +:+ name) (fun _ _ => Ok tt)
        toy_loads failing_second (fun _ => ticking) (fun _ => 0%nat) 0 10
        "2026-01-01T00:00:00" toy_mean toy_percentile "20260101_000000"
        []
      = Exit 1 (Some (path, report))
      /\ summary_total_requests report = 3%Z
      /\ (summary_successful_requests report
          + summary_failed_requests report = 3)%Z.
Proof.
  split; [|split].
  - apply (proj1 (main_exit_status toy_parse_args one_config
                    (fun _ => Ok (load_only 2 3)) None
                    (fun dir name => dir +:+ "/" +:+ name) (fun _ _ => Ok tt)
                    toy_loads failing_second (fun _ => ticking) (fun _ => 0%nat)
                    0 10 "2026-01-01T00:00:00" toy_mean toy_percentile
                    "20260101_000000" ["--concurrency"; "two"])).
    reflexivity.
  - apply (proj1 (proj2 (proj2
             (main_exit_status toy_parse_args one_config
                (fun _ => Ok (load_only 2 3)) None
                (fun dir name => dir +:+ "/" +:+ name) (fun _ _ => Ok tt)
                toy_loads failing_second (fun _ => ticking) (fun _ => 0%nat)
                0 10 "2026-01-01T00:00:00" toy_mean toy_percentile
                "20260101_000000" ["--config"; "missing.yaml"])))
             (cli "missing.yaml" None)); reflexivity.
  - eexists _, _. split; [reflexivity|].
    destruct (proj2 (proj2 (proj2
                (main_exit_status toy_parse_args one_config
                   (fun _ => Ok (load_only 2 3)) None
                   (fun dir name => dir +:+ "/" +:+ name) (fun _ _ => Ok tt)
                   toy_loads failing_second (fun _ => ticking)
                   (fun _ => 0%nat) 0 10 "2026-01-01T00:00:00" toy_mean
                   toy_percentile "20260101_000000" [])))
                _ _ eq_refl) as (_ & _ & _ & Hreport).
    destruct (Hreport _ _ eq_refl) as (_ & _ & Htotal & Hsum & _).
    split; [exact Htotal | exact Hsum].
Defined.

Lemma main_applies_overrides_witness :
  exists report,
    main toy_parse_args one_config (fun _ => Ok (load_only 2 3)) None
      (fun dir name => dir +:+ "/" +:+ name) (fun _ _ => Ok tt)
      toy_loads failing_second (fun _ => ticking) (fun _ => 0%nat) 0 10
      "2026-01-01T00:00:00" toy_mean toy_percentile "20260101_000000"
      ["--concurrency"; "1"]
    = Exit 1 (Some ("benchmark/reports/benchmark_20260101_000000.json", report))
    /\ concurrency (load_section (metadata_config report)) = Some 1%Z
    /\ num_requests (load_section (metadata_config report)) = Some 3%Z.
Proof.
  eexists. split; [reflexivity|].
  destruct (main_applies_overrides toy_parse_args one_config
              (fun _ => Ok (load_only 2 3)) None
              (fun dir name => dir +:+ "/" +:+ name) (fun _ _ => Ok tt)
              toy_loads failing_second (fun _ => ticking) (fun _ => 0%nat) 0 10
              "2026-01-01T00:00:00" toy_mean toy_percentile "20260101_000000"
              ["--concurrency"; "1"]
              (cli "benchmark/config/default.yaml" (Some 1%Z)) (load_only 2 3)
              1 _ _ eq_refl eq_refl eq_refl) as (_ & _ & Hk & Hn & _).
  split; [exact Hk | exact Hn].
Defined.

End LoadTestSpec.
